(** * telegram-ingress-code-forwarder: the passcode tracker bot

    A shallow embedding of [libsqlite.py] (the durable store) and [bot.py]
    (the handlers of [Tracker]), and the properties of the design document
    that can be stated over it.

    Conventions of the embedding.
    - A Python [str] is a Rocq [string]; a character is a code point below
      256, and the character classes of the Python runtime ([\w], [str.lower],
      [str.split], [str.splitlines], [int]) are the ones CPython has on that
      range.  Texts with code points above 255 are outside the model.
    - A Python [int] is a [Z]; the 64-bit range of SQLite's integers is not
      modelled.
    - A coroutine is a function in the monad [M]: it threads the state of the
      tracker (store, cache, owner list, outgoing calls) and either returns or
      raises; the state reached when an exception is raised is kept.
    - [asyncio.gather] starts its arguments in the order written; each store
      call holds the store's lock for its whole body, so the calls are run one
      after the other, all of them even when one raises, and the first
      exception is raised to the caller.
    - A handler in [M] is a handler that runs on its own, from its first line
      to its return, with no other handler at work in between.  The event
      loop may resume another handler at every [await]: a [Task] is a handler
      cut at its awaits, and [run_schedule] resumes the tasks in a given
      order.
    - The transport takes every call and hands out message ids in order; its
      failures are not modelled.  The cache has a clock in seconds, and a key
      set to expire is gone once the clock reaches its time. *)

From Stdlib Require Import ZArith NArith Bool.
From Stdlib Require Ascii String DecimalString DecimalPos.
From stdpp Require Import base option list gmap strings.

Local Open Scope Z_scope.

(** ** The Python runtime on one-byte characters *)

Module py.

Import Stdlib.Strings.Ascii.

Definition ord (c : ascii) : N := N_of_ascii c.

Definition between (lo hi : N) (c : ascii) : bool :=
  ((lo <=? ord c) && (ord c <=? hi))%N.

Definition at_code (n : N) (c : ascii) : bool := (ord c =? n)%N.

(** [\w] of [re] on a [str] pattern: alphanumeric characters and [_]. *)
Definition is_word (c : ascii) : bool :=
  between 48 57 c || between 65 90 c || at_code 95 c || between 97 122 c
  || at_code 170 c || between 178 179 c || at_code 181 c || between 185 186 c
  || between 188 190 c || between 192 214 c || between 216 246 c
  || between 248 255 c.

(** Characters [str.lower] changes; each moves 32 code points up. *)
Definition is_upper (c : ascii) : bool :=
  between 65 90 c || between 192 214 c || between 216 222 c.

Definition lower_char (c : ascii) : ascii :=
  if is_upper c then ascii_of_N (ord c + 32) else c.

Fixpoint lower (s : string) : string :=
  match s with
  | EmptyString => EmptyString
  | String c s' => String (lower_char c) (lower s')
  end.

(** Whitespace of [str.split()]. *)
Definition isspace (c : ascii) : bool :=
  between 9 13 c || between 28 32 c || at_code 133 c || at_code 160 c.

(** Line boundaries of [str.splitlines()]. *)
Definition is_linebreak (c : ascii) : bool :=
  between 10 13 c || between 28 30 c || at_code 133 c.

(** Whitespace [int()] strips. *)
Definition int_space (c : ascii) : bool :=
  between 9 13 c || at_code 32 c || at_code 133 c || at_code 160 c.

Definition is_digit (c : ascii) : bool := between 48 57 c.

Definition len (s : string) : nat := String.length s.

(** [c in s] for a one-character [c]. *)
Fixpoint contains (c : ascii) (s : string) : bool :=
  match s with
  | EmptyString => false
  | String d s' => Ascii.eqb c d || contains c s'
  end.

Definition startswith (s p : string) : bool := String.prefix p s.

Definition snoc (s : string) (c : ascii) : string := s +:+ String c EmptyString.

(** [s.split()]: the maximal runs of non-whitespace characters. *)
Fixpoint split_from (cur : string) (s : string) : list string :=
  match s with
  | EmptyString => if String.eqb cur "" then [] else [cur]
  | String c s' =>
      if isspace c
      then (if String.eqb cur "" then split_from "" s' else cur :: split_from "" s')
      else split_from (snoc cur c) s'
  end.

Definition split (s : string) : list string := split_from "" s.

(** [s.splitlines(False)]: a carriage return followed by a line feed is one
    boundary, and no empty line is reported after a final boundary. *)
Fixpoint splitlines_from (cur : string) (s : string) : list string :=
  match s with
  | EmptyString => if String.eqb cur "" then [] else [cur]
  | String c s' =>
      if is_linebreak c
      then cur :: match s' with
                  | String d s'' =>
                      if at_code 13 c && at_code 10 d then splitlines_from "" s''
                      else splitlines_from "" s'
                  | EmptyString => splitlines_from "" s'
                  end
      else splitlines_from (snoc cur c) s'
  end.

Definition splitlines (s : string) : list string := splitlines_from "" s.

(** [sep.join(l)]. *)
Fixpoint join (sep : string) (l : list string) : string :=
  match l with
  | [] => ""
  | [x] => x
  | x :: l' => x +:+ sep +:+ join sep l'
  end.

(** [str(z)]. *)
Definition str (z : Z) : string :=
  DecimalString.NilZero.string_of_int (Z.to_int z).

Fixpoint lstrip (s : string) : string :=
  match s with
  | EmptyString => EmptyString
  | String c s' => if int_space c then lstrip s' else s
  end.

Fixpoint rstrip (s : string) : string :=
  match s with
  | EmptyString => EmptyString
  | String c s' =>
      let r := rstrip s' in
      if int_space c && String.eqb r "" then EmptyString else String c r
  end.

(** The digits of a decimal literal: at least one digit, single underscores
    allowed between digits only.  The underscores are dropped. *)
Fixpoint digits (after_digit : bool) (s : string) : option string :=
  match s with
  | EmptyString => if after_digit then Some EmptyString else None
  | String c s' =>
      if is_digit c then String c <$> digits true s'
      else if at_code 95 c && after_digit then digits false s'
      else None
  end.

Definition nat_literal (s : string) : option Z :=
  ds ← digits false s;
  Z.of_uint <$> DecimalString.NilEmpty.uint_of_string ds.

(** [int(s)]; [None] stands for [ValueError]. *)
Definition int (s : string) : option Z :=
  match rstrip (lstrip s) with
  | String c r as t =>
      if at_code 43 c then nat_literal r
      else if at_code 45 c then Z.opp <$> nat_literal r
      else nat_literal t
  | EmptyString => None
  end.

End py.

(** ** Coroutines: state and exceptions *)

Inductive Exn : Type :=
  | ValueError
  | IndexError
  | IntegrityError.

Inductive Result (A : Type) : Type :=
  | Return (a : A)
  | Raise (e : Exn).
Arguments Return {A} a.
Arguments Raise {A} e.

(** A coroutine over a state [S]: its outcome and the state it leaves. *)
Definition M (S A : Type) : Type := S → Result A * S.

Definition ret {S A} (a : A) : M S A := λ s, (Return a, s).

Definition bind {S A B} (m : M S A) (k : A → M S B) : M S B :=
  λ s, match m s with
       | (Return a, s') => k a s'
       | (Raise e, s') => (Raise e, s')
       end.

Definition raise {S A} (e : Exn) : M S A := λ s, (Raise e, s).

Definition get {S} : M S S := λ s, (Return s, s).

Definition modify {S} (f : S → S) : M S unit := λ s, (Return (), f s).

#[global] Instance M_ret {S} : MRet (M S) := λ A, @ret S A.
#[global] Instance M_bind {S} : MBind (M S) := λ A B k m, @bind S A B m k.

(** [asyncio.gather]: every coroutine runs; the first exception is the one
    the caller sees. *)
Fixpoint gather {S} (l : list (M S unit)) : M S unit :=
  match l with
  | [] => ret ()
  | m :: l' =>
      λ s, match m s with
           | (r, s1) =>
               match gather l' s1 with
               | (r', s2) =>
                   (match r with Raise e => Raise e | Return _ => r' end, s2)
               end
           end
  end.

(** *** The event loop

    A handler as the event loop runs it.  Between two awaits it runs on its
    own; at an await it is suspended, and any other task may be resumed before
    it is.  [Suspended f] waits at a call: resumed in the state [s], [f s]
    makes the call and gives the rest of the handler with the state left. *)
#[warnings="-register-all"]
Inductive Task (S : Type) : Type :=
  | Done (r : Result unit)
  | Suspended (resume : S → Task S * S).
Arguments Done {S} r.
Arguments Suspended {S} resume.

(** [x = await m; k x]: an exception of [m] ends the task. *)
Definition await {S A} (m : M S A) (k : A → Task S) : Task S :=
  Suspended (λ s, match m s with
                  | (Return a, s') => (k a, s')
                  | (Raise e, s') => (Done (Raise e), s')
                  end).

(** [await asyncio.gather(...); k]: the members are calls of their own, made
    in the order written, all of them even when one raises; once they are
    through, the first exception, if any, ends the task. *)
Fixpoint await_gather {S} (l : list (M S unit)) (raised : option Exn) (k : Task S)
  : Task S :=
  match l with
  | [] => match raised with
          | Some e => Done (Raise e)
          | None => k
          end
  | m :: l' =>
      Suspended (λ s, match m s with
                      | (Return _, s') => (await_gather l' raised k, s')
                      | (Raise e, s') =>
                          (await_gather l' (Some (default e raised)) k, s')
                      end)
  end.

Definition resume {S} (t : Task S) (s : S) : Task S * S :=
  match t with
  | Done r => (Done r, s)
  | Suspended f => f s
  end.

(** A task that is resumed [n] times in a row, no other task in between. *)
Fixpoint resume_n {S} (n : nat) (t : Task S) (s : S) : Task S * S :=
  match n with
  | O => (t, s)
  | Datatypes.S n' => match resume t s with (t', s') => resume_n n' t' s' end
  end.

(** The loop: [schedule] names, turn by turn, the task that is resumed; a
    task that is done stays as it is. *)
Fixpoint run_schedule {S} (schedule : list nat) (tasks : list (Task S)) (s : S)
  : list (Task S) * S :=
  match schedule with
  | [] => (tasks, s)
  | i :: schedule' =>
      match tasks !! i with
      | Some t =>
          match resume t s with
          | (t', s') => run_schedule schedule' (<[i := t']> tasks) s'
          end
      | None => run_schedule schedule' tasks s
      end
  end.

(** The state and the outcome of a run. *)
Definition state_of {S A} (x : Result A * S) : S := x.2.
Definition outcome_of {S A} (x : Result A * S) : Result A := x.1.

(** ** SQLite's LIKE *)

Module sqlite.

Import Stdlib.Strings.Ascii.

(** LIKE ignores the case of the 26 ASCII letters only. *)
Definition fold_case (c : ascii) : ascii :=
  if py.between 65 90 c then ascii_of_N (py.ord c + 32) else c.

(** [x LIKE p]: [%] stands for any run of characters, [_] for any one
    character; there is no escape character. *)
Fixpoint like (p : string) (x : string) : bool :=
  match p with
  | EmptyString => String.eqb x ""
  | String c p' =>
      if py.at_code 37 c then
        (fix any (x : string) : bool :=
           like p' x ||
           match x with
           | EmptyString => false
           | String _ x' => any x'
           end) x
      else
        match x with
        | EmptyString => false
        | String d x' =>
            (py.at_code 95 c || Ascii.eqb (fold_case c) (fold_case d)) && like p' x'
        end
  end.

(** A scan of a table whose primary key is one INTEGER column goes by that
    key, which is the rowid: the rows come in ascending order of it. *)
Fixpoint place (x : Z) (l : list Z) : list Z :=
  match l with
  | [] => [x]
  | y :: l' => if x <=? y then x :: l else y :: place x l'
  end.

Definition ascending (l : list Z) : list Z := foldr place [] l.

End sqlite.

(** ** libsqlite.py: the durable store *)

Module libsqlite.

(** [CodeStatus]; its constructor takes the [fr] column and keeps [bool(fr)]. *)
Record CodeStatus : Type := { message_id : Z; FR : bool }.

Definition CodeStatus_init (message_id fr : Z) : CodeStatus :=
  {| message_id := message_id; FR := negb (fr =? 0) |}.

(** The rows of the three tables of [_CREATE_STATEMENT_PasscodeTracker]. *)
Record code_row : Type := { code_str : string; code_message_id : Z; code_fr : Z }.
Record users_row : Type := { users_id : Z; users_authorized : Z }.
Record history_row : Type := { history_str : string; history_send_by : Z }.

(** The database file: each table in row order. *)
Record PasscodeTracker : Type := {
  code : list code_row;
  users : list users_row;
  history : list history_row
}.

Definition has_str (s : string) (r : code_row) : bool := String.eqb (code_str r) s.
Definition has_id (i : Z) (r : users_row) : bool := users_id r =? i.

(** SELECT * FROM "code" WHERE "str" = ?, first row. *)
Definition query (c : string) : M PasscodeTracker (option CodeStatus) :=
  λ db, match List.find (has_str (py.lower c)) (code db) with
        | None => (Return None, db)
        | Some r => (Return (Some (CodeStatus_init (code_message_id r) (code_fr r))), db)
        end.

Definition set_fr (s : string) (fr : Z) (r : code_row) : code_row :=
  if has_str s r
  then {| code_str := code_str r; code_message_id := code_message_id r; code_fr := fr |}
  else r.

(** UPDATE "code" SET "fr" = ? WHERE "str" = ? *)
Definition update (c : string) (fr : bool) : M PasscodeTracker unit :=
  λ db, (Return (),
         {| code := set_fr (py.lower c) (if fr then 1 else 0) <$> code db;
            users := users db; history := history db |}).

(** INSERT INTO "code" VALUES (?, ?, 0); "str" is the primary key. *)
Definition insert (c : string) (message_id : Z) : M PasscodeTracker unit :=
  λ db, if existsb (has_str (py.lower c)) (code db)
        then (Raise IntegrityError, db)
        else (Return (),
              {| code := code db ++
                         [{| code_str := py.lower c; code_message_id := message_id;
                             code_fr := 0 |}];
                 users := users db; history := history db |}).

(** INSERT INTO "history" VALUES (?, ?); the table has no key. *)
Definition insert_history (s : string) (sender : Z) : M PasscodeTracker unit :=
  λ db, (Return (),
         {| code := code db; users := users db;
            history := history db ++
                       [{| history_str := py.lower s; history_send_by := sender |}] |}).

(** SELECT "send_by" FROM "history" WHERE "str" LIKE ?, first row; the
    pattern is the lower-cased argument followed by [%]. *)
Definition query_history (s : string) : M PasscodeTracker (option Z) :=
  λ db, (Return (history_send_by <$>
                 List.find (λ r, sqlite.like (py.lower s +:+ "%") (history_str r))
                           (history db)),
         db).

(** SELECT * FROM "users" WHERE "id" = ?, first row: [bool] of its second
    column. *)
Definition query_user (user_id : Z) : M PasscodeTracker (option bool) :=
  λ db, (Return ((λ r, negb (users_authorized r =? 0)) <$>
                 List.find (has_id user_id) (users db)), db).

(** SELECT * FROM "users" WHERE "authorized" = 1: the ids the generator
    yields.  "id" is the table's INTEGER primary key, so the rows come in
    ascending order of the id, not in the order they were inserted. *)
Definition query_all_user : M PasscodeTracker (list Z) :=
  λ db, (Return (sqlite.ascending
                   (users_id <$> List.filter (λ r, users_authorized r =? 1) (users db))),
         db).

(** INSERT INTO "users" VALUES (?, 1); "id" is the primary key. *)
Definition insert_user (user_id : Z) : M PasscodeTracker unit :=
  λ db, if existsb (has_id user_id) (users db)
        then (Raise IntegrityError, db)
        else (Return (),
              {| code := code db;
                 users := users db ++ [{| users_id := user_id; users_authorized := 1 |}];
                 history := history db |}).

(** DELETE FROM "users" WHERE "id" = ? *)
Definition delete_user (user_id : Z) : M PasscodeTracker unit :=
  λ db, (Return (),
         {| code := code db;
            users := List.filter (λ r, negb (has_id user_id r)) (users db);
            history := history db |}).

End libsqlite.

(** ** The cache: the Redis keys the bot uses *)

Module aioredis.

(** The server's clock in seconds, the set ["tracker_user"], and the plain
    keys with their values and the time at which each expires. *)
Record Redis : Type := {
  clock : Z;
  tracker_user : gset string;
  keys : gmap string (string * Z)
}.

Definition sismember (member : string) : M Redis bool :=
  λ r, (Return (bool_decide (member ∈ tracker_user r)), r).

Definition sadd (member : string) : M Redis unit :=
  modify (λ r, {| clock := clock r; tracker_user := {[member]} ∪ tracker_user r;
                  keys := keys r |}).

Definition srem (member : string) : M Redis unit :=
  modify (λ r, {| clock := clock r; tracker_user := tracker_user r ∖ {[member]};
                  keys := keys r |}).

(** DEL key: the set when the key is its name, the plain key otherwise. *)
Definition delete (key : string) : M Redis unit :=
  modify (λ r, if String.eqb key "tracker_user"
               then {| clock := clock r; tracker_user := ∅; keys := keys r |}
               else {| clock := clock r; tracker_user := tracker_user r;
                       keys := base.delete key (keys r) |}).

(** GET: a key whose time has come is gone. *)
Definition get (key : string) : M Redis (option string) :=
  λ r, (Return (match keys r !! key with
                | Some (v, expires) => if clock r <? expires then Some v else None
                | None => None
                end), r).

(** SET key value EX seconds *)
Definition set (key value : string) (ex : Z) : M Redis unit :=
  modify (λ r, {| clock := clock r; tracker_user := tracker_user r;
                  keys := <[key := (value, clock r + ex)]> (keys r) |}).

End aioredis.

(** ** The transport: the calls the bot makes on pyrogram *)

Module pyrogram.

Inductive InlineKeyboardButton : Type :=
  | Button (text : string) (callback_data : string).

Definition InlineKeyboardMarkup : Type := list (list InlineKeyboardButton).

(** An incoming or sent message: [chat_id] is [msg.chat.id]. *)
Record Message : Type := {
  chat_id : Z;
  text : string;
  command : list string;
  message_id : Z
}.

Record CallbackQuery : Type := { data : string }.

(** What the bot asks of the transport, and its pauses. *)
Inductive Call : Type :=
  | send_message (chat_id : Z) (text : string) (parse_mode : option string)
                 (reply_markup : option InlineKeyboardMarkup)
  | reply (chat_id : Z) (text : string) (reply_markup : option InlineKeyboardMarkup)
  | edit (chat_id : Z) (message_id : Z) (text : string)
  | edit_message_text (chat_id : Z) (message_id : Z) (text : string)
                      (parse_mode : option string)
  | edit_reply_markup (reply_markup : option InlineKeyboardMarkup)
  | answer (text : option string)
  | sleep (seconds : Z).

(** The transport hands out message ids; [calls] is what it was asked, in
    order. *)
Record Client : Type := { next_message_id : Z; calls : list Call }.

Definition emit (c : Call) : M Client unit :=
  modify (λ a, {| next_message_id := next_message_id a; calls := calls a ++ [c] |}).

(** A call that sends a message answers with the message sent. *)
Definition emit_message (c : Call) (chat : Z) (body : string) : M Client Message :=
  λ a, (Return {| chat_id := chat; text := body; command := [];
                  message_id := next_message_id a |},
        {| next_message_id := next_message_id a + 1; calls := calls a ++ [c] |}).

End pyrogram.

(** ** bot.py: the tracker *)

Module bot.

Import Stdlib.Strings.Ascii.
Import pyrogram.

Definition nl : string := String "010" EmptyString.

(** What the end anchor of the pattern lets go: one final line feed. *)
Fixpoint before_final_newline (s : string) : string :=
  match s with
  | EmptyString => EmptyString
  | String c s' =>
      match s' with
      | EmptyString => if py.at_code 10 c then EmptyString else s
      | String _ _ => String c (before_final_newline s')
      end
  end.

Fixpoint all_word (s : string) : bool :=
  match s with
  | EmptyString => true
  | String c s' => py.is_word c && all_word s'
  end.

(** [PASSCODE_EXP.match(s) is not None] for the pattern [^\w{5,35}$]. *)
Definition PASSCODE_EXP (s : string) : bool :=
  let w := before_final_newline s in
  all_word w && (5 <=? py.len w)%nat && (py.len w <=? 35)%nat.

(** The fields of [Tracker]; [app] is the client, [conn] the store. *)
Record Tracker : Type := {
  app : Client;
  conn : libsqlite.PasscodeTracker;
  channel_id : Z;
  password : string;
  owners : list Z;
  redis : aioredis.Redis
}.

Definition with_app (a : Client) (self : Tracker) : Tracker :=
  {| app := a; conn := conn self; channel_id := channel_id self;
     password := password self; owners := owners self; redis := redis self |}.

Definition with_conn (db : libsqlite.PasscodeTracker) (self : Tracker) : Tracker :=
  {| app := app self; conn := db; channel_id := channel_id self;
     password := password self; owners := owners self; redis := redis self |}.

Definition with_redis (r : aioredis.Redis) (self : Tracker) : Tracker :=
  {| app := app self; conn := conn self; channel_id := channel_id self;
     password := password self; owners := owners self; redis := r |}.

Definition with_owners (l : list Z) (self : Tracker) : Tracker :=
  {| app := app self; conn := conn self; channel_id := channel_id self;
     password := password self; owners := l; redis := redis self |}.

(** Running a coroutine of a collaborator on its part of the tracker. *)
Definition on_app {A} (m : M Client A) : M Tracker A :=
  λ self, match m (app self) with (r, a) => (r, with_app a self) end.

Definition on_conn {A} (m : M libsqlite.PasscodeTracker A) : M Tracker A :=
  λ self, match m (conn self) with (r, db) => (r, with_conn db self) end.

Definition on_redis {A} (m : M aioredis.Redis A) : M Tracker A :=
  λ self, match m (redis self) with (r, c) => (r, with_redis c self) end.

Definition void {A} (m : M Tracker A) : M Tracker unit := _ ← m; ret ().

(** [client.send_message] *)
Definition client_send_message (chat : Z) (body : string) (parse_mode : option string)
    (markup : option InlineKeyboardMarkup) : M Tracker Message :=
  on_app (emit_message (send_message chat body parse_mode markup) chat body).

(** [msg.reply] *)
Definition msg_reply (msg : Message) (body : string)
    (markup : option InlineKeyboardMarkup) : M Tracker Message :=
  on_app (emit_message (reply (chat_id msg) body markup) (chat_id msg) body).

(** [status_message.edit] *)
Definition msg_edit (msg : Message) (body : string) : M Tracker Message :=
  λ self, (Return msg, with_app {| next_message_id := next_message_id (app self);
                                    calls := calls (app self) ++
                                             [edit (chat_id msg) (message_id msg) body] |}
                                self).

Definition call (c : Call) : M Tracker unit := on_app (emit c).

(** The two hooks do nothing. *)
Definition hook_send_passcode (passcode : string) : M Tracker unit := ret ().

Definition hook_mark_full_redeemed_passcode (passcode : string) (is_fr : bool)
  : M Tracker unit := ret ().

Definition parse_codes (passcodes : list string) (header : string) : string :=
  match passcodes with
  | [] => ""
  | _ => header +:+ " codes:" +:+ nl +:+ "<code>"
         +:+ py.join ("</code>" +:+ nl +:+ "<code>") passcodes
         +:+ "</code>" +:+ nl
  end.

Definition query_authorized_user (user_id : Z) : M Tracker bool :=
  on_redis (aioredis.sismember (py.str user_id)).

Definition insert_authorized_user (user_id : Z) : M Tracker unit :=
  gather [on_conn (libsqlite.insert_user user_id);
          on_redis (aioredis.sadd (py.str user_id))].

Definition delete_authorized_user (user_id : Z) : M Tracker unit :=
  gather [on_conn (libsqlite.delete_user user_id);
          on_redis (aioredis.srem (py.str user_id))].

Definition flood_check (user_id : Z) (timeout : Z) : M Tracker bool :=
  v ← on_redis (aioredis.get ("flood_" +:+ py.str user_id));
  match v with
  | None =>
      on_redis (aioredis.set ("flood_" +:+ py.str user_id) "1" timeout);;
      ret false
  | Some _ => ret true
  end.

(** The local variables of [handle_multiline_passcode]. *)
Record Locals : Type := {
  count : Z;
  error_codes : list string;
  duplicate_codes : list string;
  status_message : option Message
}.

(** One turn of the loop over the lines. *)
Definition for_body (msg : Message) (passcode : string) (l : Locals) : M Tracker Locals :=
  if String.eqb passcode "" || py.startswith passcode "#" then ret l
  else if (35 <? py.len passcode)%nat || negb (PASSCODE_EXP passcode) then
    ret {| count := count l; error_codes := error_codes l ++ [passcode];
           duplicate_codes := duplicate_codes l; status_message := status_message l |}
  else
    found ← on_conn (libsqlite.query passcode);
    match found with
    | None =>
        status ← match status_message l with
                 | None => msg_reply msg "Sending passcode (interval: 2s)" None
                 | Some m => ret m
                 end;
        self ← get;
        _msg ← client_send_message (channel_id self)
                 ("<code>" +:+ passcode +:+ "</code>") (Some "html") None;
        gather [on_conn (libsqlite.insert passcode (message_id _msg));
                      on_conn (libsqlite.insert_history passcode (chat_id msg));
                      call (sleep 2);
                      hook_send_passcode passcode];;
        ret {| count := count l + 1; error_codes := error_codes l;
               duplicate_codes := duplicate_codes l; status_message := Some status |}
    | Some _ =>
        ret {| count := count l; error_codes := error_codes l;
               duplicate_codes := duplicate_codes l ++ [passcode];
               status_message := status_message l |}
    end.

Fixpoint for_passcode (msg : Message) (lines : list string) (l : Locals)
  : M Tracker Locals :=
  match lines with
  | [] => ret l
  | passcode :: lines' =>
      l' ← for_body msg passcode l;
      for_passcode msg lines' l'
  end.

Definition summary (l : Locals) : string :=
  parse_codes (error_codes l) "Error" +:+ nl
  +:+ parse_codes (duplicate_codes l) "Duplicate" +:+ nl
  +:+ "Success send: " +:+ py.str (count l) +:+ " passcode(s)".

Definition handle_multiline_passcode (msg : Message) : M Tracker unit :=
  l ← for_passcode msg (py.splitlines (text msg))
        {| count := 0; error_codes := []; duplicate_codes := [];
           status_message := None |};
  match status_message l with
  | None => void (msg_reply msg (summary l) None)
  | Some status => void (msg_edit status (summary l))
  end.

Definition handle_passcode (msg : Message) : M Tracker unit :=
  if py.contains "010" (text msg) then handle_multiline_passcode msg
  else if (30 <? py.len (text msg))%nat then
    void (msg_reply msg "Passcode length exceed" None)
  else if negb (PASSCODE_EXP (text msg)) then
    void (msg_reply msg "Passcode format error" None)
  else
    result ← on_conn (libsqlite.query (text msg));
    match result with
    | None =>
        self ← get;
        _msg ← client_send_message (channel_id self)
                 ("<code>" +:+ text msg +:+ "</code>") (Some "html") None;
        gather [on_conn (libsqlite.insert (text msg) (message_id _msg));
                      on_conn (libsqlite.insert_history (text msg) (chat_id msg));
                      hook_send_passcode (text msg)];;
        void (msg_reply msg "Send successful" None)
    | Some result =>
        void (msg_reply msg
                ("Passcode exist, "
                 +:+ (if negb (libsqlite.FR result) then "mark passcode" else "undo mark")
                 +:+ " as FR?")
                (Some [[Button "Process"
                          ((if libsqlite.FR result then "u" else "m") +:+ " "
                           +:+ text msg +:+ " "
                           +:+ py.str (libsqlite.message_id result))]]))
    end.

(** [handle_passcode] on a text without line feed, cut at its awaits: the
    reply of a refusal; or the query, then for a new code the post to the
    channel, the three members of the gather and the reply, and for a stored
    code the reply with the button.  What is read of [self] and of the results
    is read when the task is resumed. *)
Definition handle_passcode_task (msg : Message) : Task Tracker :=
  if (30 <? py.len (text msg))%nat then
    await (msg_reply msg "Passcode length exceed" None) (λ _, Done (Return ()))
  else if negb (PASSCODE_EXP (text msg)) then
    await (msg_reply msg "Passcode format error" None) (λ _, Done (Return ()))
  else
    await (on_conn (libsqlite.query (text msg))) (λ result,
      match result with
      | None =>
          await (self ← get;
                 client_send_message (channel_id self)
                   ("<code>" +:+ text msg +:+ "</code>") (Some "html") None) (λ _msg,
            await_gather
              [on_conn (libsqlite.insert (text msg) (message_id _msg));
               on_conn (libsqlite.insert_history (text msg) (chat_id msg));
               hook_send_passcode (text msg)] None
              (await (msg_reply msg "Send successful" None) (λ _, Done (Return ()))))
      | Some result =>
          await (msg_reply msg
                   ("Passcode exist, "
                    +:+ (if negb (libsqlite.FR result) then "mark passcode" else "undo mark")
                    +:+ " as FR?")
                   (Some [[Button "Process"
                             ((if libsqlite.FR result then "u" else "m") +:+ " "
                              +:+ text msg +:+ " "
                              +:+ py.str (libsqlite.message_id result))]]))
                (λ _, Done (Return ()))
      end).

Definition handle_callback_query (msg : CallbackQuery) : M Tracker unit :=
  let args := py.split (data msg) in
  if negb (length args =? 3)%nat then
    match args with
    | [] => raise IndexError
    | arg0 :: _ =>
        if String.eqb arg0 "ignore"
        then gather [call (edit_reply_markup None); call (answer None)]
        else ret ()
    end
  else
    match args with
    | [arg0; arg1; arg2] =>
        if String.eqb arg0 "account" then
          match py.int arg2 with
          | None => raise ValueError
          | Some user_id =>
              if String.eqb arg1 "grant" then
                authorized ← query_authorized_user user_id;
                answer_msg ← (if authorized : bool then ret (Some "Already granted")
                              else insert_authorized_user user_id;; ret None);
                gather [call (edit_reply_markup
                                (Some [[Button "Revoke"
                                          ("account revoke " +:+ py.str user_id)]]));
                        call (answer answer_msg);
                        void (client_send_message user_id "Access granted" None None)]
              else if String.eqb arg1 "deny" then
                authorized ← query_authorized_user user_id;
                if authorized : bool then
                  gather [call (edit_reply_markup None);
                          call (answer (Some "Out of dated"))]
                else
                  gather [call (edit_reply_markup None);
                          void (client_send_message user_id "Access denied" None None);
                          call (answer None)]
              else if String.eqb arg1 "revoke" then
                delete_authorized_user user_id;;
                gather [call (edit_reply_markup None);
                        void (client_send_message user_id "Access revoked" None None);
                        call (answer None)]
              else ret ()
          end
        else
          let _msg_text :=
            if String.eqb arg0 "m" then "<del>" +:+ arg1 +:+ "</del>"
            else "<code>" +:+ arg1 +:+ "</code>" in
          match py.int arg2 with
          | None => raise ValueError
          | Some message_id =>
              self ← get;
              gather [call (edit_message_text (channel_id self) message_id _msg_text
                              (Some "html"));
                      on_conn (libsqlite.update arg1 (String.eqb arg0 "m"));
                      hook_mark_full_redeemed_passcode arg1 (String.eqb arg0 "m");
                      call (edit_reply_markup None);
                      call (answer None)]
          end
    | _ => ret ()
    end.

Definition request_markup (user_id : Z) : InlineKeyboardMarkup :=
  [[Button "Agree" ("account grant " +:+ py.str user_id);
    Button "Deny" ("account deny " +:+ py.str user_id)];
   [Button "Ignore" "ignore"]].

Definition request_text (user_id : Z) : string :=
  "User [" +:+ py.str user_id +:+ "](tg://user?id=" +:+ py.str user_id
  +:+ ") request to grant talk power".

Definition handle_auth (msg : Message) : M Tracker unit :=
  flooded ← flood_check (chat_id msg) 1200;
  if flooded : bool then ret ()
  else
    authorized ← query_authorized_user (chat_id msg);
    if authorized : bool then void (msg_reply msg "Already authorized" None)
    else
      self ← get;
      if (length (command msg) =? 1)%nat then
        gather ((λ owner, void (client_send_message owner (request_text (chat_id msg))
                                  (Some "markdown")
                                  (Some (request_markup (chat_id msg)))))
                <$> owners self)
      else if (length (command msg) =? 2)%nat
              && bool_decide (command msg !! 1%nat = Some (password self))
      then
        insert_authorized_user (chat_id msg);;
        if negb (length (owners self) =? 0)%nat
        then void (msg_reply msg "Authorized" None)
        else
          modify (λ self, with_owners (owners self ++ [chat_id msg]) self);;
          void (msg_reply msg "Authorized as owner" None)
      else ret ().

Definition query_history (msg : Message) : M Tracker unit :=
  if (2 <? length (command msg))%nat then
    void (msg_reply msg "Query format error." None)
  else
    match command msg with
    | [_; code] =>
        query_obj ← on_conn (libsqlite.query_history code);
        match query_obj with
        | Some send_by => void (msg_reply msg ("Find match => " +:+ py.str send_by) None)
        | None => void (msg_reply msg "404 Not found" None)
        end
    | _ => raise ValueError
    end.

Definition delete_user_manual (msg : Message) : M Tracker unit :=
  if negb (length (command msg) =? 2)%nat then
    match command msg !! 1%nat with
    | None => raise IndexError
    | Some arg =>
        match py.int arg with
        | None => raise ValueError
        | Some user_id =>
            authorized ← query_authorized_user user_id;
            if authorized : bool then
              gather [void (client_send_message user_id "Access revoked" None None);
                      delete_authorized_user user_id;
                      void (msg_reply msg "Success" None)]
            else void (msg_reply msg "User not in authorized list" None)
        end
    end
  else ret ().

(** A [for] loop whose body is a coroutine. *)
Fixpoint for_each {A} (body : A → M Tracker unit) (l : list A) : M Tracker unit :=
  match l with
  | [] => ret ()
  | x :: l' => body x;; for_each body l'
  end.

Definition _load_users : M Tracker unit :=
  on_redis (aioredis.delete "tracker_user");;
  ids ← on_conn libsqlite.query_all_user;
  for_each (λ x, on_redis (aioredis.sadd (py.str x))) ids;;
  self ← get;
  for_each (λ x, on_redis (aioredis.sadd (py.str x))) (owners self).

(** [pre_check] and [pre_check_owner] return whether they called
    [msg.continue_propagation()]. *)
Definition pre_check (msg : Message) : M Tracker bool :=
  query_authorized_user (chat_id msg).

Definition pre_check_owner (msg : Message) : M Tracker bool :=
  self ← get;
  ret (bool_decide (chat_id msg ∈ owners self)).

End bot.

(** ** Predicates used in the statements *)

Module pred.

Import Stdlib.Strings.Ascii.
Import pyrogram bot.

Fixpoint all_chars (P : ascii → bool) (s : string) : bool :=
  match s with
  | EmptyString => true
  | String c s' => P c && all_chars P s'
  end.

(** Strings without whitespace. *)
Definition no_space (s : string) : bool := all_chars (λ c, negb (py.isspace c)) s.

(** The characters [str] writes: digits and the minus sign. *)
Definition is_numeral_char (c : ascii) : bool := py.is_digit c || py.at_code 45 c.

(** The primary key of the table "code" holds: no two rows with one "str". *)
Definition unique_codes (db : libsqlite.PasscodeTracker) : Prop :=
  NoDup (libsqlite.code_str <$> libsqlite.code db).


(** A text the single-line path of [handle_passcode] accepts. *)
Definition accepted (t : string) : Prop :=
  py.contains "010" t = false ∧ (30 <? py.len t)%nat = false ∧ bot.PASSCODE_EXP t = true.

(** A line the loop of [handle_multiline_passcode] neither skips nor counts
    as an error. *)
Definition accepted_line (t : string) : Prop :=
  String.eqb t "" || py.startswith t "#" = false ∧
  (35 <? py.len t)%nat || negb (PASSCODE_EXP t) = false.

(** The new row of the table "code", and of the table "history". *)
Definition new_code (c : string) (message_id : Z) : libsqlite.code_row :=
  {| libsqlite.code_str := py.lower c; libsqlite.code_message_id := message_id;
     libsqlite.code_fr := 0 |}.

Definition new_history (c : string) (sender : Z) : libsqlite.history_row :=
  {| libsqlite.history_str := py.lower c; libsqlite.history_send_by := sender |}.

(** The payload and the prompt of the button [handle_passcode] offers for a
    stored code. *)
Definition toggle_data (c : string) (st : libsqlite.CodeStatus) : string :=
  (if libsqlite.FR st then "u" else "m") +:+ " " +:+ c +:+ " "
  +:+ py.str (libsqlite.message_id st).

Definition toggle_prompt (st : libsqlite.CodeStatus) : string :=
  "Passcode exist, "
  +:+ (if negb (libsqlite.FR st) then "mark passcode" else "undo mark")
  +:+ " as FR?".

(** The body of the broadcast post of [c]: struck through when fully
    redeemed. *)
Definition post_body (c : string) (fr : bool) : string :=
  if fr then "<del>" +:+ c +:+ "</del>" else "<code>" +:+ c +:+ "</code>".

(** The state after the transport took the calls [cs] and handed out [n]
    message ids. *)
Definition after_calls (cs : list pyrogram.Call) (n : Z) (s : bot.Tracker) : bot.Tracker :=
  bot.with_app {| pyrogram.next_message_id := pyrogram.next_message_id (bot.app s) + n;
                  pyrogram.calls := pyrogram.calls (bot.app s) ++ cs |} s.

(** The state after a new line was forwarded; [announced] tells whether
    the status notice had to be sent first. *)
Definition forwarded (msg : Message) (passcode : string) (announced : bool)
    (self : Tracker) : Tracker :=
  let first := next_message_id (app self) in
  let post := if announced then first else first + 1 in
  {| app := {| next_message_id := post + 1;
               calls := ((calls (app self)
                          ++ (if announced then []
                              else [reply (chat_id msg) "Sending passcode (interval: 2s)" None]))
                         ++ [send_message (channel_id self)
                               ("<code>" +:+ passcode +:+ "</code>") (Some "html") None])
                        ++ [sleep 2] |};
     conn := {| libsqlite.code := libsqlite.code (conn self) ++ [new_code passcode post];
                libsqlite.users := libsqlite.users (conn self);
                libsqlite.history := libsqlite.history (conn self)
                                     ++ [new_history passcode (chat_id msg)] |};
     channel_id := channel_id self; password := password self;
     owners := owners self; redis := redis self |}.

Definition notice (msg : Message) (self : Tracker) : Message :=
  {| chat_id := chat_id msg; text := "Sending passcode (interval: 2s)";
     command := []; message_id := next_message_id (app self) |}.

(** The locals before the first line. *)
Definition no_locals : Locals :=
  {| count := 0; error_codes := []; duplicate_codes := []; status_message := None |}.

(** The state after the summary of the loop was shown: a reply, or an edit of
    the status notice when one was sent. *)
Definition reported (msg : Message) (l : Locals) (s : Tracker) : Tracker :=
  match status_message l with
  | None => after_calls [reply (chat_id msg) (summary l) None] 1 s
  | Some status =>
      with_app {| next_message_id := next_message_id (app s);
                  calls := calls (app s)
                           ++ [edit (chat_id status) (message_id status) (summary l)] |} s
  end.

(** A line the loop skips, and a line it counts as an error. *)
Definition skipped (t : string) : bool := String.eqb t "" || py.startswith t "#".

Definition refused (t : string) : bool :=
  (35 <? py.len t)%nat || negb (PASSCODE_EXP t).

(** The key of a user's flood guard. *)
Definition flood_key (user_id : Z) : string := "flood_" +:+ py.str user_id.

(** The cache once the guard of [user_id] is set for [timeout] seconds. *)
Definition armed (user_id timeout : Z) (r : aioredis.Redis) : aioredis.Redis :=
  {| aioredis.clock := aioredis.clock r;
     aioredis.tracker_user := aioredis.tracker_user r;
     aioredis.keys := <[flood_key user_id := ("1", aioredis.clock r + timeout)]>
                        (aioredis.keys r) |}.

(** The cache [seconds] later. *)
Definition later (seconds : Z) (r : aioredis.Redis) : aioredis.Redis :=
  {| aioredis.clock := aioredis.clock r + seconds;
     aioredis.tracker_user := aioredis.tracker_user r;
     aioredis.keys := aioredis.keys r |}.

(** The calls made during a run from [s]. *)
Definition calls_of {A} (m : M bot.Tracker A) (s : bot.Tracker) : list pyrogram.Call :=
  drop (length (pyrogram.calls (bot.app s))) (pyrogram.calls (bot.app (state_of (m s)))).

(** *** Predicates about the whole store and cache *)

(** A stored code as the data model has it: lower-case, 5 to 35 word
    characters. *)
Definition code_ok (s : string) : Prop :=
  all_word s = true ∧ (5 ≤ py.len s ≤ 35)%nat ∧ py.lower s = s.

Definition codes_ok (db : libsqlite.PasscodeTracker) : Prop :=
  Forall (λ r, code_ok (libsqlite.code_str r)) (libsqlite.code db).

(** The primary key of the table "users". *)
Definition unique_users (db : libsqlite.PasscodeTracker) : Prop :=
  NoDup (libsqlite.users_id <$> libsqlite.users db).

(** Every row of "users" is an authorized one. *)
Definition all_authorized (db : libsqlite.PasscodeTracker) : Prop :=
  Forall (λ r, libsqlite.users_authorized r = 1) (libsqlite.users db).

(** Every user of the store is in the cache. *)
Definition store_in_cache (s : Tracker) : Prop :=
  Forall (λ r, py.str (libsqlite.users_id r) ∈ aioredis.tracker_user (redis s))
         (libsqlite.users (conn s)).

(** What a sequence of handler runs keeps. *)
Definition consistent (s : Tracker) : Prop :=
  unique_codes (conn s) ∧ unique_users (conn s) ∧ all_authorized (conn s)
  ∧ store_in_cache s.

(** Two states that differ at most in the table "code", the history and the
    transport. *)
Definition same_accounts (s s' : Tracker) : Prop :=
  libsqlite.users (conn s') = libsqlite.users (conn s) ∧ redis s' = redis s
  ∧ owners s' = owners s ∧ channel_id s' = channel_id s ∧ password s' = password s.

(** [P] is kept by a task: resumed in a state where [P] holds, the task
    leaves a state where it holds, and what remains of the task keeps it; and
    when the task is done, its outcome is one of [Q]. *)
#[warnings="-register-all"]
Inductive keeps {S} (P : S → Prop) (Q : Result unit → Prop) : Task S → Prop :=
  | keeps_done r : Q r → keeps P Q (Done r)
  | keeps_suspended f :
      (∀ s, P s → P (f s).2 ∧ keeps P Q (f s).1) → keeps P Q (Suspended f).

(** How a task has ended, if it has. *)
Definition ended {S} (t : Task S) : option (Result unit) :=
  match t with
  | Done r => Some r
  | Suspended _ => None
  end.

(** A text without line feed: the one [handle_passcode] handles itself. *)
Definition single_line (msg : Message) : Prop := py.contains "010" (text msg) = false.

(** Two states that differ at most in the transport. *)
Definition same_data (s s' : Tracker) : Prop :=
  conn s' = conn s ∧ redis s' = redis s ∧ owners s' = owners s
  ∧ channel_id s' = channel_id s ∧ password s' = password s.

(** The lines the loop does not skip. *)
Definition considered (lines : list string) : list string :=
  List.filter (λ t, negb (skipped t)) lines.

(** Broadcast posts and pauses among the calls. *)
Definition is_post (channel : Z) (c : Call) : bool :=
  match c with
  | send_message chat _ _ _ => chat =? channel
  | _ => false
  end.

Definition is_sleep (c : Call) : bool :=
  match c with sleep _ => true | _ => false end.

(** No line boundary in a string. *)
Definition one_line (s : string) : bool := all_chars (λ c, negb (py.is_linebreak c)) s.

(** [p] starts [x], the case of ASCII letters aside. *)
Fixpoint ci_prefix (p x : string) : bool :=
  match p, x with
  | EmptyString, _ => true
  | String c p', String d x' =>
      Ascii.eqb (sqlite.fold_case c) (sqlite.fold_case d) && ci_prefix p' x'
  | String _ _, EmptyString => false
  end.

(** No [%] and no [_] in a string. *)
Definition no_wildcard (s : string) : bool :=
  all_chars (λ c, negb (py.at_code 37 c) && negb (py.at_code 95 c)) s.

(** The state once [user_id] is authorized, and once it is revoked. *)
Definition authorized_state (user_id : Z) (self : Tracker) : Tracker :=
  {| app := app self;
     conn := {| libsqlite.code := libsqlite.code (conn self);
                libsqlite.users := libsqlite.users (conn self)
                  ++ [{| libsqlite.users_id := user_id; libsqlite.users_authorized := 1 |}];
                libsqlite.history := libsqlite.history (conn self) |};
     channel_id := channel_id self; password := password self; owners := owners self;
     redis := {| aioredis.clock := aioredis.clock (redis self);
                 aioredis.tracker_user := {[py.str user_id]} ∪ aioredis.tracker_user (redis self);
                 aioredis.keys := aioredis.keys (redis self) |} |}.

Definition revoked_state (user_id : Z) (self : Tracker) : Tracker :=
  {| app := app self;
     conn := state_of (libsqlite.delete_user user_id (conn self));
     channel_id := channel_id self; password := password self; owners := owners self;
     redis := {| aioredis.clock := aioredis.clock (redis self);
                 aioredis.tracker_user := aioredis.tracker_user (redis self) ∖ {[py.str user_id]};
                 aioredis.keys := aioredis.keys (redis self) |} |}.

(** The request an owner receives for [user_id]. *)
Definition request (user_id owner : Z) : Call :=
  send_message owner (request_text user_id) (Some "markdown")
    (Some (request_markup user_id)).

End pred.

(** ** Sample states *)

Module sample.

Import pyrogram bot.

Definition empty_db : libsqlite.PasscodeTracker :=
  {| libsqlite.code := []; libsqlite.users := []; libsqlite.history := [] |}.

(** A store in which user 7 has submitted [abcde], posted as message 100. *)
Definition db_abcde : libsqlite.PasscodeTracker :=
  {| libsqlite.code := [pred.new_code "abcde" 100]; libsqlite.users := [];
     libsqlite.history := [pred.new_history "abcde" 7] |}.

(** A cache at time 0 in which user 42 is authorized and no guard is set. *)
Definition cache : aioredis.Redis :=
  {| aioredis.clock := 0; aioredis.tracker_user := {["42"]}; aioredis.keys := ∅ |}.

Definition tracker (db : libsqlite.PasscodeTracker) : Tracker :=
  {| app := {| next_message_id := 100; calls := [] |}; conn := db;
     channel_id := -1001; password := "secret"; owners := [1; 2]; redis := cache |}.

Definition message (sender : Z) (body : string) : Message :=
  {| chat_id := sender; text := body; command := []; message_id := 5 |}.

Definition command_message (sender : Z) (args : list string) : Message :=
  {| chat_id := sender; text := ""; command := args; message_id := 5 |}.

End sample.

Module py_facts.

Import Stdlib.Strings.Ascii.
Import pred.

Ltac by_cases_on_char c :=
  destruct c as [[] [] [] [] [] [] [] []]; vm_compute; (reflexivity || discriminate || auto).

Lemma lower_char_idem c : py.lower_char (py.lower_char c) = py.lower_char c.
Proof. by_cases_on_char c. Qed.

Lemma lower_idem s : py.lower (py.lower s) = py.lower s.
Proof. induction s as [|c s IH]; simpl; [done|]. by rewrite lower_char_idem, IH. Qed.

Lemma is_word_not_space c : py.is_word c = true → py.isspace c = false.
Proof. by_cases_on_char c. Qed.

Lemma is_word_not_linefeed c : py.is_word c = true → py.at_code 10 c = false.
Proof. by_cases_on_char c. Qed.

Lemma all_chars_impl (P Q : ascii → bool) s :
  (∀ c, P c = true → Q c = true) → all_chars P s = true → all_chars Q s = true.
Proof.
  intros HPQ. induction s as [|c s IH]; simpl; [done|].
  rewrite !andb_true_iff. intros [? ?]. auto.
Qed.

Lemma string_of_uint_digits d :
  all_chars py.is_digit (DecimalString.NilEmpty.string_of_uint d) = true.
Proof. induction d; simpl; auto. Qed.

Lemma nilzero_string_of_uint d :
  d ≠ Decimal.Nil →
  DecimalString.NilZero.string_of_uint d = DecimalString.NilEmpty.string_of_uint d.
Proof. by destruct d. Qed.

Lemma string_of_uint_nonempty d :
  d ≠ Decimal.Nil → DecimalString.NilEmpty.string_of_uint d ≠ "".
Proof. by destruct d. Qed.

Lemma str_numeral z : all_chars is_numeral_char (py.str z) = true.
Proof.
  assert (Hd : ∀ d, all_chars is_numeral_char (DecimalString.NilZero.string_of_uint d) = true).
  { intros d. assert (d = Decimal.Nil ∨ d ≠ Decimal.Nil) as [->|Hd]
      by (destruct d; auto); [done|].
    rewrite nilzero_string_of_uint by done.
    eapply all_chars_impl, string_of_uint_digits.
    intros c Hc. unfold is_numeral_char. by rewrite Hc. }
  unfold py.str. destruct z; simpl; auto.
Qed.

Lemma str_nonempty z : py.str z ≠ "".
Proof.
  unfold py.str. destruct z as [|p|p]; simpl; [done| |done].
  rewrite nilzero_string_of_uint by apply DecimalPos.Unsigned.to_uint_nonnil.
  apply string_of_uint_nonempty, DecimalPos.Unsigned.to_uint_nonnil.
Qed.

Lemma numeral_char_not_space c : is_numeral_char c = true → py.isspace c = false.
Proof. by_cases_on_char c. Qed.

Lemma str_no_space z : no_space (py.str z) = true.
Proof.
  eapply all_chars_impl, str_numeral.
  intros c Hc. by rewrite (numeral_char_not_space c Hc).
Qed.

Lemma all_word_no_space s : bot.all_word s = true → no_space s = true.
Proof.
  unfold no_space. induction s as [|c s IH]; simpl; [done|].
  rewrite !andb_true_iff. intros [Hc Hs]. split; [|auto].
  by rewrite (is_word_not_space c Hc).
Qed.

(** *** [split] on tokens joined by single spaces *)

Lemma append_cons c (s t : string) : String c s +:+ t = String c (s +:+ t).
Proof. reflexivity. Qed.

Lemma append_empty_l (s : string) : "" +:+ s = s.
Proof. reflexivity. Qed.

Lemma append_empty_r s : s +:+ "" = s.
Proof. induction s as [|c s IH]; [done|]. by rewrite append_cons, IH. Qed.

Lemma append_assoc (a b c : string) : (a +:+ b) +:+ c = a +:+ (b +:+ c).
Proof. induction a as [|x a IH]; [done|]. by rewrite !append_cons, IH. Qed.

Lemma append_snoc cur c w : py.snoc cur c +:+ w = cur +:+ String c w.
Proof. unfold py.snoc. by rewrite append_assoc. Qed.

Lemma split_from_token cur w rest :
  no_space w = true →
  py.split_from cur (w +:+ rest) = py.split_from (cur +:+ w) rest.
Proof.
  unfold no_space. revert cur. induction w as [|c w IH]; intros cur.
  - by rewrite append_empty_r.
  - simpl. rewrite andb_true_iff, negb_true_iff. intros [Hc Hw].
    by rewrite Hc, IH, append_snoc.
Qed.

Lemma eqb_nonempty s : s ≠ "" → String.eqb s "" = false.
Proof. by destruct s. Qed.

Lemma split_token_space w rest :
  no_space w = true → w ≠ "" →
  py.split (w +:+ " " +:+ rest) = w :: py.split rest.
Proof.
  intros Hw Hne. unfold py.split. rewrite split_from_token by done.
  rewrite append_empty_l. change (" " +:+ rest) with (String " " rest).
  simpl. by rewrite eqb_nonempty.
Qed.

Lemma split_token w : no_space w = true → w ≠ "" → py.split w = [w].
Proof.
  intros Hw Hne. unfold py.split.
  rewrite <- (append_empty_r w) at 1. rewrite split_from_token by done. simpl.
  by rewrite eqb_nonempty.
Qed.

Lemma split_three a b c :
  no_space a = true → a ≠ "" → no_space b = true → b ≠ "" →
  no_space c = true → c ≠ "" →
  py.split (a +:+ " " +:+ b +:+ " " +:+ c) = [a; b; c].
Proof.
  intros. rewrite !split_token_space by done. by rewrite split_token.
Qed.

(** *** [int] reads back what [str] writes *)

Lemma numeral_char_not_int_space c : is_numeral_char c = true → py.int_space c = false.
Proof. by_cases_on_char c. Qed.

Lemma digit_not_sign c :
  py.is_digit c = true → py.at_code 43 c = false ∧ py.at_code 45 c = false.
Proof. by_cases_on_char c. Qed.

Lemma lstrip_numeral s : all_chars is_numeral_char s = true → py.lstrip s = s.
Proof.
  destruct s as [|c s]; simpl; [done|].
  rewrite andb_true_iff. intros [Hc _]. by rewrite (numeral_char_not_int_space c Hc).
Qed.

Lemma rstrip_numeral s : all_chars is_numeral_char s = true → py.rstrip s = s.
Proof.
  induction s as [|c s IH]; simpl; [done|].
  rewrite andb_true_iff. intros [Hc Hs].
  by rewrite (numeral_char_not_int_space c Hc), IH.
Qed.

Lemma digits_all (b : bool) s :
  all_chars py.is_digit s = true → s ≠ "" ∨ b = true → py.digits b s = Some s.
Proof.
  revert b. induction s as [|c s IH]; intros b; simpl.
  - intros _ [?| ->]; done.
  - rewrite andb_true_iff. intros [-> Hs] _. by rewrite (IH true) by auto.
Qed.

Lemma nat_literal_to_uint p :
  py.nat_literal (DecimalString.NilEmpty.string_of_uint (Pos.to_uint p)) = Some (Z.pos p).
Proof.
  unfold py.nat_literal.
  rewrite digits_all.
  - simpl. rewrite DecimalString.NilEmpty.usu. simpl.
    unfold Z.of_uint. by rewrite DecimalPos.Unsigned.of_to.
  - apply string_of_uint_digits.
  - left. apply string_of_uint_nonempty, DecimalPos.Unsigned.to_uint_nonnil.
Qed.

Lemma int_str z : py.int (py.str z) = Some z.
Proof.
  unfold py.int.
  rewrite lstrip_numeral, rstrip_numeral by apply str_numeral.
  destruct z as [|p|p]; [done| |].
  - unfold py.str. simpl.
    rewrite nilzero_string_of_uint by apply DecimalPos.Unsigned.to_uint_nonnil.
    pose proof (nat_literal_to_uint p) as Hlit.
    pose proof (string_of_uint_digits (Pos.to_uint p)) as Hd.
    destruct (DecimalString.NilEmpty.string_of_uint (Pos.to_uint p)) as [|c r] eqn:E.
    + by apply string_of_uint_nonempty in E; [|apply DecimalPos.Unsigned.to_uint_nonnil].
    + simpl in Hd. apply andb_true_iff in Hd as [Hc _].
      by destruct (digit_not_sign c Hc) as [-> ->].
  - unfold py.str. simpl.
    rewrite nilzero_string_of_uint by apply DecimalPos.Unsigned.to_uint_nonnil.
    change (py.at_code 43 "-") with false. change (py.at_code 45 "-") with true.
    simpl. by rewrite nat_literal_to_uint.
Qed.

Lemma str_inj z1 z2 : py.str z1 = py.str z2 → z1 = z2.
Proof.
  intros H. apply (f_equal py.int) in H. rewrite !int_str in H. congruence.
Qed.

(** *** The runtime on sample inputs *)

Example split_sample : py.split "  account grant  42 " = ["account"; "grant"; "42"].
Proof. reflexivity. Qed.

Example splitlines_sample :
  py.splitlines (String "a" (String "013" (String "010" (String "b" (String "010"
                   (String "010" (String "c" (String "010" EmptyString))))))))
  = ["a"; "b"; ""; "c"].
Proof. reflexivity. Qed.

Example int_sample :
  py.int " -1_000 " = Some (-1000) ∧ py.int "+7" = Some 7 ∧ py.int "007" = Some 7
  ∧ py.int "1__0" = None ∧ py.int "1_" = None ∧ py.int "" = None ∧ py.int "-" = None
  ∧ py.int "4 2" = None.
Proof. repeat split; reflexivity. Qed.

Example lower_sample : py.lower "ABCde_09" = "abcde_09".
Proof. reflexivity. Qed.

Example like_sample :
  sqlite.like "cod%" "code123" = true ∧ sqlite.like "COD%" "code123" = true
  ∧ sqlite.like "c_d%3" "code123" = true ∧ sqlite.like "x%" "code123" = false.
Proof. repeat split; reflexivity. Qed.

Example PASSCODE_EXP_sample :
  bot.PASSCODE_EXP "validcode1" = true ∧ bot.PASSCODE_EXP "badcode!" = false
  ∧ bot.PASSCODE_EXP "abcd" = false ∧ bot.PASSCODE_EXP ("abcde" +:+ bot.nl) = true
  ∧ bot.PASSCODE_EXP "abcdefghijklmnopqrstuvwxyz0123456789" = false.
Proof. repeat split; reflexivity. Qed.

End py_facts.

(** ** Facts about the store *)

Module libsqlite_facts.

Import pred libsqlite.

Lemma find_none_existsb {A} (f : A → bool) l : List.find f l = None → existsb f l = false.
Proof.
  induction l as [|x l IH]; simpl; [done|]. destruct (f x); [done|]. auto.
Qed.


Lemma find_snoc {A} (f : A → bool) l x :
  List.find f (l ++ [x]) =
  match List.find f l with Some y => Some y | None => if f x then Some x else None end.
Proof. induction l as [|y l IH]; simpl; [done|]. by destruct (f y). Qed.

Lemma query_returns c db : ∃ r, query c db = (Return r, db).
Proof. unfold query. destruct (List.find _ _); eauto. Qed.




Lemma query_none_find c db :
  query c db = (Return None, db) ↔ List.find (has_str (py.lower c)) (code db) = None.
Proof. unfold query. destruct (List.find _ _); split; congruence. Qed.

Lemma insert_fresh c mid db :
  query c db = (Return None, db) →
  insert c mid db =
  (Return (), {| code := code db ++ [new_code c mid]; users := users db;
                 history := history db |}).
Proof.
  intros H%query_none_find. unfold insert. by rewrite (find_none_existsb _ _ H).
Qed.


Lemma has_str_refl c mid : has_str (py.lower c) (new_code c mid) = true.
Proof. apply String.eqb_refl. Qed.


Lemma query_new_row c c' mid db u h :
  py.lower c' = py.lower c →
  query c db = (Return None, db) →
  query c' {| code := code db ++ [new_code c mid]; users := u; history := h |} =
  (Return (Some {| message_id := mid; FR := false |}),
   {| code := code db ++ [new_code c mid]; users := u; history := h |}).
Proof.
  intros Hc H%query_none_find. unfold query. simpl.
  by rewrite Hc, find_snoc, H, has_str_refl.
Qed.


(** *** The primary key is kept *)

Lemma existsb_false_not_in s l :
  existsb (has_str s) l = false → s ∉ code_str <$> l.
Proof.
  induction l as [|r l IH]; simpl.
  - intros _ H. by apply elem_of_nil in H.
  - rewrite orb_false_iff. intros [Hr Hl] [->|H]%elem_of_cons.
    + unfold has_str in Hr. by rewrite String.eqb_refl in Hr.
    + by apply IH.
Qed.

Lemma insert_unique c mid db :
  unique_codes db → unique_codes (state_of (insert c mid db)).
Proof.
  unfold unique_codes, insert. destruct (existsb _ _) eqn:E; simpl; [done|].
  intros Hdb. rewrite fmap_app. simpl. apply NoDup_app. split_and!; [done| |].
  - intros s Hs [->|H]%elem_of_cons; [|by apply elem_of_nil in H].
    by apply existsb_false_not_in in E.
  - apply NoDup_singleton.
Qed.

Lemma set_fr_str s fr r : code_str (set_fr s fr r) = code_str r.
Proof. unfold set_fr. by destruct (has_str s r). Qed.

Lemma update_strs c fr db :
  code_str <$> code (state_of (update c fr db)) = code_str <$> code db.
Proof.
  unfold update. simpl. rewrite <- list_fmap_compose.
  apply list_fmap_ext. intros _ r _. apply set_fr_str.
Qed.

Lemma update_unique c fr db : unique_codes db → unique_codes (state_of (update c fr db)).
Proof. unfold unique_codes. by rewrite update_strs. Qed.

(** *** Update and query *)

Lemma find_set_fr s fr l :
  List.find (has_str s) (set_fr s fr <$> l) =
  set_fr s fr <$> List.find (has_str s) l.
Proof.
  induction l as [|r l IH]; simpl; [done|].
  unfold set_fr at 1. destruct (has_str s r) eqn:E; simpl.
  - unfold has_str at 1. simpl. fold (has_str s r). rewrite E. simpl.
    unfold set_fr. by rewrite E.
  - by rewrite E.
Qed.

Lemma query_after_update c c' (fr : bool) db st :
  py.lower c' = py.lower c →
  query c db = (Return (Some st), db) →
  query c' (state_of (update c fr db)) =
  (Return (Some {| message_id := message_id st; FR := fr |}), state_of (update c fr db)).
Proof.
  intros Hc. unfold query, update. simpl. rewrite Hc, find_set_fr.
  destruct (List.find _ (code db)) as [r|] eqn:E; [|done].
  intros [= <-]. simpl. unfold set_fr.
  assert (has_str (py.lower c) r = true) as ->.
  { apply List.find_some in E. tauto. }
  simpl. unfold CodeStatus_init. simpl. by destruct fr.
Qed.

End libsqlite_facts.

(** ** Runs of the handlers *)

Module bot_facts.

Import Stdlib.Strings.Ascii.
Import pred pyrogram bot.

Lemma run_bind {S A B} (m : M S A) (k : A → M S B) s :
  (m ≫= k) s =
  match m s with
  | (Return a, s') => k a s'
  | (Raise e, s') => (Raise e, s')
  end.
Proof. reflexivity. Qed.

(** Unfolds the plumbing of a run and nothing of the runtime or the store. *)
Ltac run :=
  unfold void, call, client_send_message, msg_reply, msg_edit,
         hook_send_passcode, hook_mark_full_redeemed_passcode,
         on_app, on_conn, on_redis, emit, emit_message;
  unfold mbind, M_bind, mret, M_ret, bind, ret, get, modify, raise;
  cbn [gather with_app with_conn with_redis with_owners
       app conn channel_id password owners redis
       next_message_id calls message_id chat_id text command
       count error_codes duplicate_codes status_message
       state_of outcome_of fst snd negb].

Lemma handle_passcode_new msg self :
  accepted (text msg) →
  libsqlite.query (text msg) (conn self) = (Return None, conn self) →
  handle_passcode msg self =
  (Return (),
   {| app := {| next_message_id := next_message_id (app self) + 1 + 1;
                calls := (calls (app self)
                          ++ [send_message (channel_id self)
                                ("<code>" +:+ text msg +:+ "</code>") (Some "html") None])
                         ++ [reply (chat_id msg) "Send successful" None] |};
      conn := {| libsqlite.code := libsqlite.code (conn self)
                                   ++ [new_code (text msg) (next_message_id (app self))];
                 libsqlite.users := libsqlite.users (conn self);
                 libsqlite.history := libsqlite.history (conn self)
                                      ++ [new_history (text msg) (chat_id msg)] |};
      channel_id := channel_id self; password := password self;
      owners := owners self; redis := redis self |}).
Proof.
  intros (Hnl & Hlen & Hpat) Hq. unfold handle_passcode.
  rewrite Hnl, Hlen, Hpat. run. rewrite Hq. run.
  rewrite (libsqlite_facts.insert_fresh _ _ _ Hq).
  reflexivity.
Qed.
Lemma handle_passcode_known msg self st :
  accepted (text msg) →
  libsqlite.query (text msg) (conn self) = (Return (Some st), conn self) →
  handle_passcode msg self =
  (Return (),
   after_calls [reply (chat_id msg) (toggle_prompt st)
                  (Some [[Button "Process" (toggle_data (text msg) st)]])] 1 self).
Proof.
  intros (Hnl & Hlen & Hpat) Hq. unfold handle_passcode.
  rewrite Hnl, Hlen, Hpat. run. by rewrite Hq.
Qed.

Lemma handle_passcode_too_long msg self :
  py.contains "010" (text msg) = false →
  (30 <? py.len (text msg))%nat = true →
  handle_passcode msg self =
  (Return (), after_calls [reply (chat_id msg) "Passcode length exceed" None] 1 self).
Proof. intros Hnl Hlen. unfold handle_passcode. by rewrite Hnl, Hlen. Qed.

Lemma handle_passcode_bad_format msg self :
  py.contains "010" (text msg) = false →
  (30 <? py.len (text msg))%nat = false →
  PASSCODE_EXP (text msg) = false →
  handle_passcode msg self =
  (Return (), after_calls [reply (chat_id msg) "Passcode format error" None] 1 self).
Proof. intros Hnl Hlen Hpat. unfold handle_passcode. by rewrite Hnl, Hlen, Hpat. Qed.

(** *** One turn of the loop over the lines *)

Lemma for_body_skip msg passcode l self :
  String.eqb passcode "" || py.startswith passcode "#" = true →
  for_body msg passcode l self = (Return l, self).
Proof. intros H. unfold for_body. by rewrite H. Qed.

Lemma for_body_error msg passcode l self :
  String.eqb passcode "" || py.startswith passcode "#" = false →
  (35 <? py.len passcode)%nat || negb (PASSCODE_EXP passcode) = true →
  for_body msg passcode l self =
  (Return {| count := count l; error_codes := error_codes l ++ [passcode];
             duplicate_codes := duplicate_codes l;
             status_message := status_message l |}, self).
Proof. intros H1 H2. unfold for_body. by rewrite H1, H2. Qed.

Lemma with_conn_id self : with_conn (conn self) self = self.
Proof. by destruct self. Qed.

Lemma for_body_duplicate msg passcode l self st :
  accepted_line passcode →
  libsqlite.query passcode (conn self) = (Return (Some st), conn self) →
  for_body msg passcode l self =
  (Return {| count := count l; error_codes := error_codes l;
             duplicate_codes := duplicate_codes l ++ [passcode];
             status_message := status_message l |}, self).
Proof.
  intros [H1 H2] Hq. unfold for_body. rewrite H1, H2. run. rewrite Hq.
  by rewrite with_conn_id.
Qed.

Lemma for_body_new msg passcode l self :
  accepted_line passcode →
  libsqlite.query passcode (conn self) = (Return None, conn self) →
  for_body msg passcode l self =
  (Return {| count := count l + 1; error_codes := error_codes l;
             duplicate_codes := duplicate_codes l;
             status_message := Some (default (notice msg self) (status_message l)) |},
   forwarded msg passcode (bool_decide (is_Some (status_message l))) self).
Proof.
  intros [H1 H2] Hq. unfold for_body. rewrite H1, H2. run. rewrite Hq.
  destruct (status_message l) as [m|]; run;
    rewrite (libsqlite_facts.insert_fresh _ _ _ Hq); unfold forwarded; simpl.
  - by rewrite app_nil_r.
  - done.
Qed.

(** Every turn returns, in one of four ways. *)
Lemma for_body_cases msg passcode l self :
  (skipped passcode = true ∧ for_body msg passcode l self = (Return l, self))
  ∨ (skipped passcode = false ∧ refused passcode = true ∧
     for_body msg passcode l self =
     (Return {| count := count l; error_codes := error_codes l ++ [passcode];
                duplicate_codes := duplicate_codes l;
                status_message := status_message l |}, self))
  ∨ (accepted_line passcode ∧
     (∃ st, libsqlite.query passcode (conn self) = (Return (Some st), conn self)) ∧
     for_body msg passcode l self =
     (Return {| count := count l; error_codes := error_codes l;
                duplicate_codes := duplicate_codes l ++ [passcode];
                status_message := status_message l |}, self))
  ∨ (accepted_line passcode ∧
     libsqlite.query passcode (conn self) = (Return None, conn self) ∧
     for_body msg passcode l self =
     (Return {| count := count l + 1; error_codes := error_codes l;
                duplicate_codes := duplicate_codes l;
                status_message := Some (default (notice msg self) (status_message l)) |},
      forwarded msg passcode (bool_decide (is_Some (status_message l))) self)).
Proof.
  destruct (skipped passcode) eqn:Hs.
  { left. split; [done|]. by apply for_body_skip. }
  destruct (refused passcode) eqn:Hr.
  { right; left. split_and!; [done..|]. by apply for_body_error. }
  assert (accepted_line passcode) as Hacc by done.
  destruct (libsqlite_facts.query_returns passcode (conn self)) as [[st|] Hq].
  - right; right; left. split_and!; [done|by eauto|]. by eapply for_body_duplicate.
  - right; right; right. split_and!; [done..|]. by apply for_body_new.
Qed.

Lemma for_passcode_cons msg passcode lines l self :
  for_passcode msg (passcode :: lines) l self =
  match for_body msg passcode l self with
  | (Return l', s') => for_passcode msg lines l' s'
  | (Raise e, s') => (Raise e, s')
  end.
Proof. reflexivity. Qed.

(** The loop returns, whatever the lines and the store. *)
Lemma for_passcode_returns msg lines l self :
  ∃ l' s', for_passcode msg lines l self = (Return l', s').
Proof.
  revert l self. induction lines as [|p lines IH]; intros l self.
  - by eexists _, _.
  - rewrite for_passcode_cons.
    destruct (for_body_cases msg p l self)
      as [(_ & ->)|[(_ & _ & ->)|[(_ & _ & ->)|(_ & _ & ->)]]]; apply IH.
Qed.

Lemma handle_multiline_passcode_run msg self l' s' :
  for_passcode msg (py.splitlines (text msg)) no_locals self = (Return l', s') →
  handle_multiline_passcode msg self = (Return (), reported msg l' s').
Proof.
  intros H. unfold handle_multiline_passcode. run. fold no_locals. rewrite H.
  unfold reported. by destruct (status_message l').
Qed.

Lemma handle_passcode_multiline msg self :
  py.contains "010" (text msg) = true →
  handle_passcode msg self = handle_multiline_passcode msg self.
Proof. intros H. unfold handle_passcode. by rewrite H. Qed.

(** *** What the loop leaves of the store and of the lists *)

Lemma forwarded_conn msg passcode b self :
  conn (forwarded msg passcode b self) =
  state_of (libsqlite.insert_history passcode (chat_id msg)
              {| libsqlite.code := libsqlite.code (conn self)
                                   ++ [new_code passcode
                                         (if b then next_message_id (app self)
                                          else next_message_id (app self) + 1)];
                 libsqlite.users := libsqlite.users (conn self);
                 libsqlite.history := libsqlite.history (conn self) |}).
Proof. reflexivity. Qed.

Lemma for_body_unique msg passcode l self :
  unique_codes (conn self) →
  unique_codes (conn (state_of (for_body msg passcode l self))).
Proof.
  intros Hu.
  destruct (for_body_cases msg passcode l self)
    as [(_ & ->)|[(_ & _ & ->)|[(_ & _ & ->)|(_ & Hq & ->)]]]; try done.
  simpl. pose proof (libsqlite_facts.insert_unique passcode
    (if bool_decide (is_Some (status_message l)) then next_message_id (app self)
     else next_message_id (app self) + 1) _ Hu) as Hi.
  rewrite (libsqlite_facts.insert_fresh _ _ _ Hq) in Hi. exact Hi.
Qed.

Lemma for_passcode_unique msg lines l self :
  unique_codes (conn self) →
  unique_codes (conn (state_of (for_passcode msg lines l self))).
Proof.
  revert l self. induction lines as [|p lines IH]; intros l self Hu; [done|].
  rewrite for_passcode_cons.
  pose proof (for_body_unique msg p l self Hu) as Hb.
  destruct (for_body_cases msg p l self)
    as [(_ & E)|[(_ & _ & E)|[(_ & _ & E)|(_ & _ & E)]]];
    rewrite E in Hb |- *; by apply IH.
Qed.

Lemma reported_conn msg l s : conn (reported msg l s) = conn s.
Proof. unfold reported. by destruct (status_message l). Qed.

(** Handling a message keeps the primary key of the table "code". *)
Lemma handle_passcode_unique msg self :
  unique_codes (conn self) →
  unique_codes (conn (state_of (handle_passcode msg self))).
Proof.
  intros Hu. destruct (py.contains "010" (text msg)) eqn:Hnl.
  - rewrite handle_passcode_multiline by done.
    destruct (for_passcode_returns msg (py.splitlines (text msg)) no_locals self)
      as (l' & s' & E).
    rewrite (handle_multiline_passcode_run _ _ _ _ E). simpl. rewrite reported_conn.
    pose proof (for_passcode_unique msg (py.splitlines (text msg)) no_locals self Hu) as H.
    by rewrite E in H.
  - destruct (30 <? py.len (text msg))%nat eqn:Hlen.
    { by rewrite handle_passcode_too_long. }
    destruct (PASSCODE_EXP (text msg)) eqn:Hpat.
    2: { by rewrite handle_passcode_bad_format. }
    assert (accepted (text msg)) as Hacc by done.
    destruct (libsqlite_facts.query_returns (text msg) (conn self)) as [[st|] Hq].
    + by rewrite (handle_passcode_known _ _ _ Hacc Hq).
    + rewrite (handle_passcode_new _ _ Hacc Hq). simpl.
      pose proof (libsqlite_facts.insert_unique (text msg)
                    (next_message_id (app self)) _ Hu) as Hi.
      by rewrite (libsqlite_facts.insert_fresh _ _ _ Hq) in Hi.
Qed.


Lemma calls_of_after_calls {A} (m : M Tracker A) s r cs n :
  m s = (r, after_calls cs n s) → calls_of m s = cs.
Proof. intros E. unfold calls_of. rewrite E. simpl. by rewrite drop_app_length. Qed.

End bot_facts.

(** ** Runs of the callbacks and of the commands *)

Module handler_facts.

Import Stdlib.Strings.Ascii.
Import pred pyrogram bot bot_facts.

Lemma before_final_newline_id t :
  py.contains "010" t = false → before_final_newline t = t.
Proof.
  induction t as [|c t IH]; [done|]. simpl.
  rewrite orb_false_iff. intros [Hc Ht].
  destruct t as [|d t].
  - destruct c as [[] [] [] [] [] [] [] []]; try done.
  - by rewrite IH.
Qed.

Lemma accepted_all_word t : accepted t → all_word t = true ∧ t ≠ "".
Proof.
  intros (Hnl & _ & Hpat). unfold PASSCODE_EXP in Hpat.
  rewrite (before_final_newline_id _ Hnl) in Hpat.
  apply andb_true_iff in Hpat as [[Hw Hlen]%andb_true_iff _].
  split; [done|]. intros ->. done.
Qed.

(** Pressing the button offered for a stored code. *)
Lemma handle_callback_query_toggle self c st :
  all_word c = true → c ≠ "" →
  handle_callback_query {| data := toggle_data c st |} self =
  (Return (),
   {| app := {| next_message_id := next_message_id (app self);
                calls := ((calls (app self)
                           ++ [edit_message_text (channel_id self) (libsqlite.message_id st)
                                 (post_body c (negb (libsqlite.FR st))) (Some "html")])
                          ++ [edit_reply_markup None])
                         ++ [answer None] |};
      conn := state_of (libsqlite.update c (negb (libsqlite.FR st)) (conn self));
      channel_id := channel_id self; password := password self;
      owners := owners self; redis := redis self |}).
Proof.
  intros Hw Hne. unfold handle_callback_query, toggle_data. cbn [data].
  rewrite py_facts.split_three;
    [ | by destruct (libsqlite.FR st) | by destruct (libsqlite.FR st)
      | by apply py_facts.all_word_no_space | done
      | apply py_facts.str_no_space | apply py_facts.str_nonempty ].
  cbn [length Nat.eqb negb]. rewrite py_facts.int_str.
  destruct (libsqlite.FR st); reflexivity.
Qed.

(** The grant button for a user who is in the cache already. *)
Lemma handle_callback_query_grant_again self user_id :
  py.str user_id ∈ aioredis.tracker_user (redis self) →
  handle_callback_query {| data := "account grant " +:+ py.str user_id |} self =
  (Return (),
   {| app := {| next_message_id := next_message_id (app self) + 1;
                calls := ((calls (app self)
                           ++ [edit_reply_markup
                                 (Some [[Button "Revoke"
                                           ("account revoke " +:+ py.str user_id)]])])
                          ++ [answer (Some "Already granted")])
                         ++ [send_message user_id "Access granted" None None] |};
      conn := conn self; channel_id := channel_id self; password := password self;
      owners := owners self; redis := redis self |}).
Proof.
  intros Hin. unfold handle_callback_query. cbn [data].
  change ("account grant " +:+ py.str user_id)
    with ("account" +:+ " " +:+ "grant" +:+ " " +:+ py.str user_id).
  rewrite py_facts.split_three;
    [ | done.. | apply py_facts.str_no_space | apply py_facts.str_nonempty ].
  cbn [length Nat.eqb negb]. rewrite py_facts.int_str.
  change (String.eqb "account" "account") with true.
  change (String.eqb "grant" "grant") with true. cbv iota.
  unfold query_authorized_user, aioredis.sismember. run.
  by rewrite bool_decide_eq_true_2.
Qed.

(** *** The flood guard of [handle_auth] *)

Lemma with_redis_id self : with_redis (redis self) self = self.
Proof. by destruct self. Qed.

Lemma flood_check_active user_id timeout self v :
  aioredis.get (flood_key user_id) (redis self) = (Return (Some v), redis self) →
  flood_check user_id timeout self = (Return true, self).
Proof.
  intros H. unfold flood_check. run. fold (flood_key user_id). rewrite H.
  by rewrite with_redis_id.
Qed.

Lemma flood_check_arms user_id timeout self :
  aioredis.get (flood_key user_id) (redis self) = (Return None, redis self) →
  flood_check user_id timeout self =
  (Return false, with_redis (armed user_id timeout (redis self)) self).
Proof.
  intros H. unfold flood_check. run. fold (flood_key user_id). by rewrite H.
Qed.

Lemma handle_auth_flooded msg self v :
  aioredis.get (flood_key (chat_id msg)) (redis self) = (Return (Some v), redis self) →
  handle_auth msg self = (Return (), self).
Proof.
  intros H. unfold handle_auth. unfold mbind, M_bind, bind.
  by rewrite (flood_check_active _ _ _ _ H).
Qed.

(** Coroutines that leave the cache alone, gathered, leave it alone. *)
Lemma gather_redis (l : list (M Tracker unit)) s :
  Forall (λ m, ∀ s, redis (state_of (m s)) = redis s) l →
  redis (state_of (gather l s)) = redis s.
Proof.
  intros Hl. revert s. induction Hl as [|m l Hm _ IH]; intros s; [done|].
  simpl. specialize (Hm s). destruct (m s) as [r s1]. simpl in Hm.
  specialize (IH s1). destruct (gather l s1) as [r' s2]. simpl in *. congruence.
Qed.

(** With no guard set, [handle_auth] sets it, whatever it does next. *)
Lemma handle_auth_arms msg self :
  aioredis.get (flood_key (chat_id msg)) (redis self) = (Return None, redis self) →
  aioredis.keys (redis (state_of (handle_auth msg self))) =
    aioredis.keys (armed (chat_id msg) 1200 (redis self))
  ∧ aioredis.clock (redis (state_of (handle_auth msg self))) = aioredis.clock (redis self).
Proof.
  intros H. destruct (handle_auth msg self) as [r s'] eqn:E. revert E.
  unfold handle_auth. unfold mbind at 1, M_bind at 1, bind at 1.
  rewrite (flood_check_arms _ _ _ H).
  unfold query_authorized_user, aioredis.sismember. run.
  destruct (bool_decide _); [by intros [= <- <-]|].
  destruct (length (command msg) =? 1)%nat.
  { match goal with
    | |- gather ?l ?s = _ → _ =>
        intros E; assert (redis s' = redis s) as ->
    end; [|done].
    change s' with (state_of (r, s')). rewrite <- E.
    apply gather_redis, Forall_fmap, Forall_true. by intros o s. }
  destruct (_ && _); [|by intros [= <- <-]].
  unfold insert_authorized_user, libsqlite.insert_user, aioredis.sadd. run.
  destruct (existsb _ _); [by intros [= <- <-]|].
  destruct (negb _); by intros [= <- <-].
Qed.

Lemma handle_auth_already msg self :
  aioredis.get (flood_key (chat_id msg)) (redis self) = (Return None, redis self) →
  py.str (chat_id msg) ∈ aioredis.tracker_user (redis self) →
  handle_auth msg self =
  (Return (),
   after_calls [reply (chat_id msg) "Already authorized" None] 1
     (with_redis (armed (chat_id msg) 1200 (redis self)) self)).
Proof.
  intros H Hin. unfold handle_auth. unfold mbind at 1, M_bind at 1, bind at 1.
  rewrite (flood_check_arms _ _ _ H).
  unfold query_authorized_user, aioredis.sismember. run.
  by rewrite bool_decide_eq_true_2.
Qed.

Lemma handle_auth_secret msg self arg0 :
  aioredis.get (flood_key (chat_id msg)) (redis self) = (Return None, redis self) →
  py.str (chat_id msg) ∉ aioredis.tracker_user (redis self) →
  command msg = [arg0; password self] →
  redis (state_of (handle_auth msg self)) =
  {| aioredis.clock := aioredis.clock (redis self);
     aioredis.tracker_user := {[py.str (chat_id msg)]} ∪ aioredis.tracker_user (redis self);
     aioredis.keys := aioredis.keys (armed (chat_id msg) 1200 (redis self)) |}.
Proof.
  intros H Hin Hcmd. unfold handle_auth. unfold mbind at 1, M_bind at 1, bind at 1.
  rewrite (flood_check_arms _ _ _ H).
  unfold query_authorized_user, aioredis.sismember. run.
  rewrite bool_decide_eq_false_2 by done. rewrite Hcmd.
  cbn [length Nat.eqb andb lookup list_lookup].
  rewrite bool_decide_eq_true_2 by done.
  unfold insert_authorized_user, libsqlite.insert_user, aioredis.sadd. run.
  destruct (existsb _ _); [done|].
  destruct (negb _); done.
Qed.

(** *** The commands on sample inputs *)

(** A prefix of a stored code finds its sender; an unmatched one finds
    nothing; more than one argument is a format error. *)
Example query_history_sample :
  let self := sample.tracker sample.db_abcde in
  calls_of (query_history (sample.command_message 1 ["h"; "ABC"])) self =
    [reply 1 "Find match => 7" None]
  ∧ calls_of (query_history (sample.command_message 1 ["h"; "xyz"])) self =
    [reply 1 "404 Not found" None]
  ∧ calls_of (query_history (sample.command_message 1 ["h"; "a"; "b"])) self =
    [reply 1 "Query format error." None].
Proof. repeat split; vm_compute; reflexivity. Qed.

(** With two arguments the body of [delete_user_manual] runs, on the first. *)
Example delete_user_manual_sample :
  let self := sample.tracker sample.empty_db in
  let run := delete_user_manual (sample.command_message 1 ["del"; "42"; "x"]) in
  calls_of run self = [send_message 42 "Access revoked" None None; reply 1 "Success" None]
  ∧ aioredis.tracker_user (redis (state_of (run self))) = ∅
  ∧ outcome_of (delete_user_manual (sample.command_message 1 ["del"]) self)
    = Raise IndexError.
Proof. repeat split; vm_compute; reflexivity. Qed.

(** A first request reaches every owner; the right secret authorizes. *)
Example handle_auth_sample :
  let self := sample.tracker sample.empty_db in
  calls_of (handle_auth (sample.command_message 9 ["auth"])) self =
    [send_message 1 (request_text 9) (Some "markdown") (Some (request_markup 9));
     send_message 2 (request_text 9) (Some "markdown") (Some (request_markup 9))]
  ∧ calls_of (handle_auth (sample.command_message 9 ["auth"; "secret"])) self =
    [reply 9 "Authorized" None]
  ∧ calls_of (handle_auth (sample.command_message 9 ["auth"; "guess"])) self = [].
Proof. repeat split; vm_compute; reflexivity. Qed.

End handler_facts.

(** ** The claims of the design document *)

Module claims.

Import Stdlib.Strings.Ascii.
Import pred pyrogram bot.




(** C2 (the code departs from it). With exactly one argument,
    [delete_user_manual] does nothing at all: the guard on the number of
    arguments lets through every count but this one. *)
Theorem delete_user_manual_with_one_argument (self : Tracker)
    (sender mid : Z) (body arg0 arg1 : string) :
  delete_user_manual {| chat_id := sender; text := body; command := [arg0; arg1];
                        message_id := mid |} self
  = (Return (), self).
Proof. reflexivity. Qed.

(** C3, as amended. The grant button for a user who is authorized already
    answers "Already granted", leaves the store and the cache as they are, and
    all the same puts the Revoke button in place and sends "Access granted" to
    that user once more. *)
Theorem grant_again_notifies_again (self : Tracker) (user_id : Z) :
  py.str user_id ∈ aioredis.tracker_user (redis self) →
  let after := handle_callback_query {| data := "account grant " +:+ py.str user_id |} self in
  outcome_of after = Return ()
  ∧ calls_of (handle_callback_query {| data := "account grant " +:+ py.str user_id |}) self =
    [edit_reply_markup (Some [[Button "Revoke" ("account revoke " +:+ py.str user_id)]]);
     answer (Some "Already granted");
     send_message user_id "Access granted" None None]
  ∧ conn (state_of after) = conn self
  ∧ redis (state_of after) = redis self
  ∧ owners (state_of after) = owners self.
Proof.
  intros Hin after. subst after. unfold calls_of.
  rewrite (handler_facts.handle_callback_query_grant_again _ _ Hin).
  cbn [outcome_of state_of fst snd app conn redis owners calls].
  split_and!; try reflexivity.
  rewrite <- !app_assoc. by rewrite drop_app_length.
Qed.

Lemma grant_again_witness :
  "42" ∈ aioredis.tracker_user (redis (sample.tracker sample.empty_db))
  ∧ calls_of (handle_callback_query {| data := "account grant 42" |})
      (sample.tracker sample.empty_db) =
    [edit_reply_markup (Some [[Button "Revoke" "account revoke 42"]]);
     answer (Some "Already granted");
     send_message 42 "Access granted" None None].
Proof.
  assert ("42" ∈ aioredis.tracker_user (redis (sample.tracker sample.empty_db))) as Hin
    by (vm_compute; reflexivity).
  split; [exact Hin|].
  exact (proj1 (proj2 (grant_again_notifies_again (sample.tracker sample.empty_db) 42 Hin))).
Defined.

(** C3 as stated fails: user 42 is authorized, the grant button for 42 is
    pressed, and "Access granted" is sent to 42 again. *)
Lemma grant_again_renotifies :
  query_authorized_user 42 (sample.tracker sample.empty_db)
  = (Return true, sample.tracker sample.empty_db)
  ∧ calls (app (state_of (handle_callback_query {| data := "account grant 42" |}
                            (sample.tracker sample.empty_db)))) =
    [edit_reply_markup (Some [[Button "Revoke" "account revoke 42"]]);
     answer (Some "Already granted");
     send_message 42 "Access granted" None None].
Proof. split; vm_compute; reflexivity. Qed.

(** C4 (the code departs from it). With no argument, [query_history] raises
    [ValueError] from the unpacking and replies nothing: its guard catches
    only more than one argument. *)
Theorem query_history_without_argument (self : Tracker)
    (sender mid : Z) (body arg0 : string) :
  query_history {| chat_id := sender; text := body; command := [arg0];
                   message_id := mid |} self
  = (Raise ValueError, self).
Proof. reflexivity. Qed.




(** C6. The five-line example, against a store without [validcode1]: the
    first [validcode1] is forwarded (one send), the second is a duplicate
    because the first is in the store by then, [badcode!] is an error, the
    comment and the empty line are skipped, and the status notice is edited
    once into the summary with one success. *)
Theorem multiline_example (self : Tracker) (sender mid : Z) (args : list string) :
  libsqlite.query "validcode1" (conn self) = (Return None, conn self) →
  let msg := {| chat_id := sender;
                text := "#comment
validcode1

validcode1
badcode!";
                command := args; message_id := mid |} in
  let after := state_of (handle_passcode msg self) in
  for_passcode msg (py.splitlines (text msg)) no_locals self =
    (Return {| count := 1; error_codes := ["badcode!"];
               duplicate_codes := ["validcode1"];
               status_message := Some (notice msg self) |},
     forwarded msg "validcode1" false self)
  ∧ outcome_of (handle_passcode msg self) = Return ()
  ∧ calls_of (handle_passcode msg) self =
    [reply sender "Sending passcode (interval: 2s)" None;
     send_message (channel_id self) "<code>validcode1</code>" (Some "html") None;
     sleep 2;
     edit sender (next_message_id (app self)) "Error codes:
<code>badcode!</code>

Duplicate codes:
<code>validcode1</code>

Success send: 1 passcode(s)"]
  ∧ libsqlite.code (conn after) =
    libsqlite.code (conn self) ++ [new_code "validcode1" (next_message_id (app self) + 1)]
  ∧ libsqlite.history (conn after) =
    libsqlite.history (conn self) ++ [new_history "validcode1" sender].
Proof.
  intros Hq msg after.
  assert (accepted_line "validcode1") as Hline by (split; reflexivity).
  assert (for_passcode msg (py.splitlines (text msg)) no_locals self =
          (Return {| count := 1; error_codes := ["badcode!"];
                     duplicate_codes := ["validcode1"];
                     status_message := Some (notice msg self) |},
           forwarded msg "validcode1" false self)) as Eloop.
  { change (py.splitlines (text msg))
      with ["#comment"; "validcode1"; ""; "validcode1"; "badcode!"].
    rewrite bot_facts.for_passcode_cons, bot_facts.for_body_skip by reflexivity.
    rewrite bot_facts.for_passcode_cons, (bot_facts.for_body_new _ _ _ _ Hline Hq).
    rewrite bot_facts.for_passcode_cons, bot_facts.for_body_skip by reflexivity.
    rewrite bot_facts.for_passcode_cons.
    erewrite bot_facts.for_body_duplicate;
      [|done|by apply (libsqlite_facts.query_new_row "validcode1")].
    rewrite bot_facts.for_passcode_cons, bot_facts.for_body_error by reflexivity.
    reflexivity. }
  assert (handle_passcode msg self =
          (Return (), reported msg
                        {| count := 1; error_codes := ["badcode!"];
                           duplicate_codes := ["validcode1"];
                           status_message := Some (notice msg self) |}
                        (forwarded msg "validcode1" false self))) as Erun.
  { rewrite bot_facts.handle_passcode_multiline by reflexivity.
    by apply bot_facts.handle_multiline_passcode_run. }
  subst after. unfold calls_of. rewrite Erun. split_and!; try reflexivity.
  - exact Eloop.
  - cbn. rewrite <- !app_assoc. by rewrite drop_app_length.
Qed.

Lemma multiline_example_witness :
  libsqlite.query "validcode1" sample.db_abcde = (Return None, sample.db_abcde)
  ∧ libsqlite.code
      (conn (state_of (handle_passcode
                         {| chat_id := 7;
                            text := "#comment
validcode1

validcode1
badcode!";
                            command := []; message_id := 5 |}
                         (sample.tracker sample.db_abcde)))) =
    [new_code "abcde" 100; new_code "validcode1" 101].
Proof.
  assert (libsqlite.query "validcode1" sample.db_abcde = (Return None, sample.db_abcde))
    as H by reflexivity.
  split; [exact H|].
  exact (proj1 (proj2 (proj2 (proj2
          (multiline_example (sample.tracker sample.db_abcde) 7 5 [] H))))).
Defined.



(** C8. For a stored code, pressing the toggle button twice, each time with
    the payload [handle_passcode] offers for the flag as it then stands, brings
    the flag back: the first press stores the negated flag and edits the
    broadcast post to the matching body (struck through when fully redeemed,
    code format otherwise), the second stores the original flag and edits the
    post back. *)
Theorem toggling_twice_restores (self : Tracker) (c : string)
    (st : libsqlite.CodeStatus) :
  all_word c = true → c ≠ "" →
  libsqlite.query c (conn self) = (Return (Some st), conn self) →
  let st' := {| libsqlite.message_id := libsqlite.message_id st;
                libsqlite.FR := negb (libsqlite.FR st) |} in
  let press1 := handle_callback_query {| data := toggle_data c st |} in
  let press2 := handle_callback_query {| data := toggle_data c st' |} in
  let s1 := state_of (press1 self) in
  let s2 := state_of (press2 s1) in
  (∀ msg s st0, text msg = c → accepted c →
     libsqlite.query c (conn s) = (Return (Some st0), conn s) →
     handle_passcode msg s =
     (Return (),
      after_calls [reply (chat_id msg) (toggle_prompt st0)
                     (Some [[Button "Process" (toggle_data c st0)]])] 1 s))
  ∧ outcome_of (press1 self) = Return ()
  ∧ libsqlite.query c (conn s1) = (Return (Some st'), conn s1)
  ∧ calls_of press1 self =
    [edit_message_text (channel_id self) (libsqlite.message_id st)
       (post_body c (negb (libsqlite.FR st))) (Some "html");
     edit_reply_markup None; answer None]
  ∧ outcome_of (press2 s1) = Return ()
  ∧ libsqlite.query c (conn s2) = (Return (Some st), conn s2)
  ∧ calls_of press2 s1 =
    [edit_message_text (channel_id self) (libsqlite.message_id st)
       (post_body c (libsqlite.FR st)) (Some "html");
     edit_reply_markup None; answer None].
Proof.
  intros Hw Hne Hq st' press1 press2 s1 s2.
  pose proof (handler_facts.handle_callback_query_toggle self _ st Hw Hne) as E1.
  fold press1 in E1.
  assert (libsqlite.query c (conn s1) = (Return (Some st'), conn s1)) as Hq1.
  { subst s1. rewrite E1. cbn [state_of snd conn].
    by apply libsqlite_facts.query_after_update. }
  pose proof (handler_facts.handle_callback_query_toggle s1 _ st' Hw Hne) as E2.
  fold press2 in E2.
  assert (channel_id s1 = channel_id self) as Hch by (subst s1; by rewrite E1).
  split_and!.
  - intros msg s st0 <- Hacc Hq0. by apply bot_facts.handle_passcode_known.
  - by rewrite E1.
  - exact Hq1.
  - unfold calls_of. fold s1. subst s1. rewrite E1. cbn [state_of snd app calls].
    by rewrite <- !app_assoc, drop_app_length.
  - by rewrite E2.
  - subst s2. rewrite E2. cbn [state_of snd conn].
    rewrite (libsqlite_facts.query_after_update _ _ _ _ _ eq_refl Hq1).
    simpl. rewrite negb_involutive. by destruct st.
  - unfold calls_of. fold s2. subst s2. rewrite E2. cbn [state_of snd app calls].
    rewrite <- !app_assoc, drop_app_length. simpl. by rewrite negb_involutive, Hch.
Qed.

Lemma toggling_twice_witness :
  let self := sample.tracker sample.db_abcde in
  let st := {| libsqlite.message_id := 100; libsqlite.FR := false |} in
  let st' := {| libsqlite.message_id := 100; libsqlite.FR := true |} in
  let s1 := state_of (handle_callback_query {| data := "m ABCDE 100" |} self) in
  let s2 := state_of (handle_callback_query {| data := "u ABCDE 100" |} s1) in
  (all_word "ABCDE" = true ∧ "ABCDE" ≠ ""
   ∧ libsqlite.query "ABCDE" (conn self) = (Return (Some st), conn self))
  ∧ libsqlite.query "ABCDE" (conn s1) = (Return (Some st'), conn s1)
  ∧ libsqlite.query "ABCDE" (conn s2) = (Return (Some st), conn s2).
Proof.
  intros self st st' s1 s2.
  assert (all_word "ABCDE" = true) as H1 by reflexivity.
  assert ("ABCDE" ≠ "") as H2 by discriminate.
  assert (libsqlite.query "ABCDE" (conn self) = (Return (Some st), conn self)) as H3
    by reflexivity.
  pose proof (toggling_twice_restores self "ABCDE" st H1 H2 H3)
    as (_ & _ & Ha & _ & _ & Hb & _).
  split_and!; [exact H1|exact H2|exact H3|exact Ha|exact Hb].
Defined.




(** C10. A request from a user whose guard is not set sets it to expire 1200
    seconds later, whichever branch the request then takes: the keys of the
    cache after the run are the ones before with the guard added, also when the
    user is authorized already (and is told so) and when the secret is right
    (and the user enters the cache).  While the guard is set, a request of that
    user returns at once: no call is made and the tracker, the guard's expiry
    included, is as before. *)
Theorem auth_flood_guard (msg : Message) (self : Tracker) :
  (aioredis.get (flood_key (chat_id msg)) (redis self) = (Return None, redis self) →
   flood_check (chat_id msg) 1200 self =
     (Return false, with_redis (armed (chat_id msg) 1200 (redis self)) self)
   ∧ aioredis.keys (redis (state_of (handle_auth msg self))) =
     <[flood_key (chat_id msg) := ("1", aioredis.clock (redis self) + 1200)]>
       (aioredis.keys (redis self))
   ∧ aioredis.clock (redis (state_of (handle_auth msg self))) = aioredis.clock (redis self)
   ∧ (py.str (chat_id msg) ∈ aioredis.tracker_user (redis self) →
      handle_auth msg self =
      (Return (),
       after_calls [reply (chat_id msg) "Already authorized" None] 1
         (with_redis (armed (chat_id msg) 1200 (redis self)) self)))
   ∧ (py.str (chat_id msg) ∉ aioredis.tracker_user (redis self) →
      ∀ arg0, command msg = [arg0; password self] →
      redis (state_of (handle_auth msg self)) =
      {| aioredis.clock := aioredis.clock (redis self);
         aioredis.tracker_user :=
           {[py.str (chat_id msg)]} ∪ aioredis.tracker_user (redis self);
         aioredis.keys :=
           <[flood_key (chat_id msg) := ("1", aioredis.clock (redis self) + 1200)]>
             (aioredis.keys (redis self)) |}))
  ∧ (∀ v, aioredis.get (flood_key (chat_id msg)) (redis self) = (Return (Some v), redis self) →
          handle_auth msg self = (Return (), self)).
Proof.
  split.
  - intros H. destruct (handler_facts.handle_auth_arms msg self H) as [Hk Hc].
    split_and!.
    + by apply handler_facts.flood_check_arms.
    + exact Hk.
    + exact Hc.
    + intros Hin. by apply handler_facts.handle_auth_already.
    + intros Hout arg0 Hcmd. by eapply handler_facts.handle_auth_secret.
  - intros v H. by eapply handler_facts.handle_auth_flooded.
Qed.

Lemma auth_flood_guard_witness :
  let self := sample.tracker sample.empty_db in
  let msg := sample.command_message 9 ["auth"] in
  let s1 := state_of (handle_auth msg self) in
  let s2 := with_redis (later 1199 (redis s1)) s1 in
  (aioredis.get (flood_key 9) (redis self) = (Return None, redis self)
   ∧ aioredis.get (flood_key 9) (redis s2) = (Return (Some "1"), redis s2))
  ∧ aioredis.keys (redis s1) = <[flood_key 9 := ("1", 1200)]> ∅
  ∧ handle_auth msg s2 = (Return (), s2).
Proof.
  intros self msg s1 s2.
  assert (aioredis.get (flood_key 9) (redis self) = (Return None, redis self)) as H1
    by reflexivity.
  assert (aioredis.get (flood_key 9) (redis s2) = (Return (Some "1"), redis s2)) as H2
    by reflexivity.
  split_and!; [exact H1|exact H2| |].
  - exact (proj1 (proj2 (proj1 (auth_flood_guard msg self) H1))).
  - exact (proj2 (auth_flood_guard msg s2) "1" H2).
Defined.

End claims.

(** ** More about the submission pipeline *)

Module pipeline_facts.

Import Stdlib.Strings.Ascii.
Import pred pyrogram bot bot_facts.

Lemma same_accounts_refl s : same_accounts s s.
Proof. by repeat split. Qed.

Lemma same_accounts_trans s1 s2 s3 :
  same_accounts s1 s2 → same_accounts s2 s3 → same_accounts s1 s3.
Proof. intros (?&?&?&?&?) (?&?&?&?&?). repeat split; congruence. Qed.

Lemma for_body_same msg passcode l self :
  same_accounts self (state_of (for_body msg passcode l self)).
Proof.
  destruct (for_body_cases msg passcode l self)
    as [(_ & ->)|[(_ & _ & ->)|[(_ & _ & ->)|(_ & _ & ->)]]];
    by repeat split.
Qed.

Lemma for_passcode_same msg lines l self :
  same_accounts self (state_of (for_passcode msg lines l self)).
Proof.
  revert l self. induction lines as [|p lines IH]; intros l self.
  - apply same_accounts_refl.
  - rewrite for_passcode_cons. pose proof (for_body_same msg p l self) as Hb.
    destruct (for_body_cases msg p l self)
      as [(_ & E)|[(_ & _ & E)|[(_ & _ & E)|(_ & _ & E)]]];
      rewrite E in Hb |- *; (eapply same_accounts_trans; [exact Hb|apply IH]).
Qed.

Lemma reported_same msg l s : same_data s (reported msg l s).
Proof. unfold reported. destruct (status_message l); by repeat split. Qed.

(** The ways a run of [handle_passcode] ends. *)
Lemma handle_passcode_cases msg self :
  (py.contains "010" (text msg) = true ∧
   ∃ l' s', for_passcode msg (py.splitlines (text msg)) no_locals self = (Return l', s')
            ∧ handle_passcode msg self = (Return (), reported msg l' s'))
  ∨ (py.contains "010" (text msg) = false ∧
     ∃ complaint, handle_passcode msg self =
                  (Return (), after_calls [reply (chat_id msg) complaint None] 1 self))
  ∨ (accepted (text msg) ∧
     ∃ st, libsqlite.query (text msg) (conn self) = (Return (Some st), conn self)
           ∧ handle_passcode msg self =
             (Return (),
              after_calls [reply (chat_id msg) (toggle_prompt st)
                             (Some [[Button "Process" (toggle_data (text msg) st)]])] 1 self))
  ∨ (accepted (text msg) ∧
     libsqlite.query (text msg) (conn self) = (Return None, conn self) ∧
     ∃ s', handle_passcode msg self = (Return (), s')
           ∧ conn s' = {| libsqlite.code := libsqlite.code (conn self)
                            ++ [new_code (text msg) (next_message_id (app self))];
                          libsqlite.users := libsqlite.users (conn self);
                          libsqlite.history := libsqlite.history (conn self)
                            ++ [new_history (text msg) (chat_id msg)] |}
           ∧ redis s' = redis self ∧ owners s' = owners self
           ∧ channel_id s' = channel_id self ∧ password s' = password self
           ∧ calls (app s') =
             calls (app self)
             ++ [send_message (channel_id self) ("<code>" +:+ text msg +:+ "</code>")
                   (Some "html") None;
                 reply (chat_id msg) "Send successful" None]).
Proof.
  destruct (py.contains "010" (text msg)) eqn:Hnl.
  { left. split; [done|].
    destruct (for_passcode_returns msg (py.splitlines (text msg)) no_locals self)
      as (l' & s' & E).
    exists l', s'. split; [done|].
    rewrite handle_passcode_multiline by done. by apply handle_multiline_passcode_run. }
  destruct (30 <? py.len (text msg))%nat eqn:Hlen.
  { right; left. split; [done|]. eexists. by apply handle_passcode_too_long. }
  destruct (PASSCODE_EXP (text msg)) eqn:Hpat.
  2: { right; left. split; [done|]. eexists. by apply handle_passcode_bad_format. }
  assert (accepted (text msg)) as Hacc by done.
  destruct (libsqlite_facts.query_returns (text msg) (conn self)) as [[st|] Hq].
  - right; right; left. split; [done|]. exists st. split; [done|].
    by apply handle_passcode_known.
  - right; right; right. split_and!; [done..|].
    eexists. split; [by apply handle_passcode_new|].
    cbn [conn redis owners channel_id password app calls].
    split_and!; try reflexivity. by rewrite <- app_assoc.
Qed.

Lemma handle_passcode_returns msg self :
  outcome_of (handle_passcode msg self) = Return ().
Proof.
  destruct (handle_passcode_cases msg self)
    as [(_ & l' & s' & _ & ->)|[(_ & c & ->)|[(_ & st & _ & ->)|(_ & _ & s' & -> & _)]]];
    done.
Qed.

Lemma handle_passcode_same msg self :
  same_accounts self (state_of (handle_passcode msg self)).
Proof.
  destruct (handle_passcode_cases msg self)
    as [(_ & l' & s' & E & ->)|[(_ & c & ->)|[(_ & st & _ & ->)
       |(_ & _ & s' & -> & Hc & Hr & Ho & Hch & Hp & _)]]].
  - pose proof (for_passcode_same msg (py.splitlines (text msg)) no_locals self) as H.
    rewrite E in H. simpl in *.
    destruct (reported_same msg l' s') as (Hc & Hr & Ho & Hch & Hp).
    destruct H as (?&?&?&?&?). repeat split; congruence.
  - by repeat split.
  - by repeat split.
  - simpl. repeat split; try done. by rewrite Hc.
Qed.

(** *** Counting what the loop does *)

(** What a turn adds: [k] rows, history rows, posts and pauses, the same [k]
    on the counter, and the line in one of the three outcomes. *)
Lemma for_body_account msg p l self :
  ∃ l' s' (k : nat),
    for_body msg p l self = (Return l', s')
    ∧ count l' = count l + Z.of_nat k
    ∧ length (libsqlite.code (conn s')) = (length (libsqlite.code (conn self)) + k)%nat
    ∧ length (libsqlite.history (conn s')) = (length (libsqlite.history (conn self)) + k)%nat
    ∧ length (List.filter (is_post (channel_id self)) (calls (app s'))) =
      (length (List.filter (is_post (channel_id self)) (calls (app self))) + k)%nat
    ∧ length (List.filter is_sleep (calls (app s'))) =
      (length (List.filter is_sleep (calls (app self))) + k)%nat
    ∧ error_codes l' = error_codes l ++ List.filter refused (considered [p])
    ∧ (Z.of_nat (length (duplicate_codes l')) + Z.of_nat k =
       Z.of_nat (length (duplicate_codes l))
       + Z.of_nat (length (List.filter (λ t, negb (refused t)) (considered [p]))))
    ∧ ((status_message l = None ↔ count l = 0) → 0 ≤ count l →
       (status_message l' = None ↔ count l' = 0)).
Proof.
  destruct (for_body_cases msg p l self)
    as [(Hs & E)|[(Hs & Hr & E)|[((Hs & Hr) & _ & E)|((Hs & Hr) & _ & E)]]];
    rewrite E; unfold considered; cbn [List.filter];
    fold (skipped p) in *; fold (refused p) in *; rewrite Hs; cbn [negb List.filter];
    try rewrite Hr; cbn [negb List.filter].
  - exists l, self, 0%nat. rewrite !Nat.add_0_r, Z.add_0_r, app_nil_r.
    by split_and!.
  - eexists _, self, 0%nat. split; [reflexivity|].
    cbn [count error_codes duplicate_codes status_message].
    rewrite !Nat.add_0_r, Z.add_0_r. by split_and!.
  - eexists _, self, 0%nat. split; [reflexivity|].
    cbn [count error_codes duplicate_codes status_message].
    rewrite !Nat.add_0_r, Z.add_0_r, app_nil_r, length_app. split_and!; try done.
    simpl. lia.
  - eexists _, _, 1%nat. split; [reflexivity|].
    cbn [count error_codes duplicate_codes status_message].
    rewrite app_nil_r. split_and!; try done.
    all: try (intros _ Hc; split; [done|lia]).
    all: unfold forwarded; cbn [conn app calls libsqlite.code libsqlite.history];
      rewrite ?List.filter_app, ?length_app; cbn [List.filter is_post is_sleep];
      rewrite ?Z.eqb_refl; try destruct (bool_decide _); simpl; lia.
Qed.

Lemma considered_cons p lines : considered (p :: lines) = considered [p] ++ considered lines.
Proof. unfold considered. simpl. by destruct (negb (skipped p)). Qed.

Lemma for_passcode_account msg lines l self :
  ∃ l' s' (k : nat),
    for_passcode msg lines l self = (Return l', s')
    ∧ count l' = count l + Z.of_nat k
    ∧ length (libsqlite.code (conn s')) = (length (libsqlite.code (conn self)) + k)%nat
    ∧ length (libsqlite.history (conn s')) = (length (libsqlite.history (conn self)) + k)%nat
    ∧ length (List.filter (is_post (channel_id self)) (calls (app s'))) =
      (length (List.filter (is_post (channel_id self)) (calls (app self))) + k)%nat
    ∧ length (List.filter is_sleep (calls (app s'))) =
      (length (List.filter is_sleep (calls (app self))) + k)%nat
    ∧ error_codes l' = error_codes l ++ List.filter refused (considered lines)
    ∧ (Z.of_nat (length (duplicate_codes l')) + Z.of_nat k =
       Z.of_nat (length (duplicate_codes l))
       + Z.of_nat (length (List.filter (λ t, negb (refused t)) (considered lines))))
    ∧ ((status_message l = None ↔ count l = 0) → 0 ≤ count l →
       (status_message l' = None ↔ count l' = 0)).
Proof.
  revert l self. induction lines as [|p lines IH]; intros l self.
  - exists l, self, 0%nat. simpl. rewrite !Nat.add_0_r, Z.add_0_r, app_nil_r.
    by split_and!.
  - rewrite for_passcode_cons, considered_cons.
    destruct (for_body_account msg p l self)
      as (l1 & s1 & k1 & E1 & Hc1 & Hr1 & Hh1 & Hp1 & Hz1 & He1 & Hd1 & Hn1).
    rewrite E1.
    destruct (IH l1 s1) as (l2 & s2 & k2 & E2 & Hc2 & Hr2 & Hh2 & Hp2 & Hz2 & He2 & Hd2 & Hn2).
    assert (channel_id s1 = channel_id self) as Hch.
    { pose proof (for_body_same msg p l self) as H. rewrite E1 in H.
      by destruct H as (_&_&_&?&_). }
    rewrite Hch in Hp2.
    exists l2, s2, (k1 + k2)%nat. rewrite !List.filter_app, !length_app.
    split_and!; [done|lia..| |lia|].
    + by rewrite He2, He1, <- app_assoc.
    + intros H0 Hpos. apply Hn2; [by apply Hn1|lia].
Qed.

(** *** What gets into the table "code" *)

Lemma is_word_lower_char c : py.is_word (py.lower_char c) = py.is_word c.
Proof. destruct c as [[] [] [] [] [] [] [] []]; reflexivity. Qed.

Lemma all_word_lower s : all_word (py.lower s) = all_word s.
Proof. induction s as [|c s IH]; simpl; [done|]. by rewrite is_word_lower_char, IH. Qed.

Lemma len_lower s : py.len (py.lower s) = py.len s.
Proof. unfold py.len. induction s as [|c s IH]; simpl; [done|]. by rewrite IH. Qed.

Lemma linebreak_of_newline c : py.at_code 10 c = true → py.is_linebreak c = true.
Proof. destruct c as [[] [] [] [] [] [] [] []]; (reflexivity || discriminate). Qed.

Lemma one_line_no_newline t : one_line t = true → py.contains "010" t = false.
Proof.
  unfold one_line. induction t as [|c t IH]; simpl; [done|].
  rewrite andb_true_iff, negb_true_iff. intros [Hc Ht]. rewrite (IH Ht), orb_false_r.
  destruct (Ascii.eqb "010" c) eqn:E; [|done].
  apply Ascii.eqb_eq in E. subst c. discriminate.
Qed.

Lemma valid_code_ok t :
  py.contains "010" t = false → PASSCODE_EXP t = true → code_ok (py.lower t).
Proof.
  intros Hnl Hpat. unfold PASSCODE_EXP in Hpat.
  rewrite (handler_facts.before_final_newline_id _ Hnl) in Hpat.
  apply andb_true_iff in Hpat as [[Hw H5]%andb_true_iff H35].
  apply Nat.leb_le in H5, H35.
  split_and!.
  - by rewrite all_word_lower.
  - by rewrite len_lower.
  - by rewrite len_lower.
  - apply py_facts.lower_idem.
Qed.

Lemma accepted_code_ok t : accepted t → code_ok (py.lower t).
Proof. intros (Hnl & _ & Hpat). by apply valid_code_ok. Qed.

Lemma accepted_line_code_ok t :
  accepted_line t → one_line t = true → code_ok (py.lower t).
Proof.
  intros [_ H] Hone. apply orb_false_iff in H as [_ Hpat].
  apply negb_false_iff in Hpat. apply valid_code_ok; [|done].
  by apply one_line_no_newline.
Qed.

Lemma one_line_snoc cur c :
  one_line cur = true → py.is_linebreak c = false → one_line (py.snoc cur c) = true.
Proof.
  unfold one_line, py.snoc. intros Hcur Hc.
  induction cur as [|d cur IH]; simpl in *.
  - by rewrite Hc.
  - apply andb_true_iff in Hcur as [-> Hcur]. by rewrite IH.
Qed.

Lemma splitlines_from_one_line cur s :
  one_line cur = true → Forall (λ t, one_line t = true) (py.splitlines_from cur s).
Proof.
  revert cur. induction s as [|c s IH]; intros cur Hcur; simpl.
  - destruct (String.eqb cur ""); by repeat constructor.
  - destruct (py.is_linebreak c) eqn:Hc.
    + constructor; [done|].
      destruct s as [|d s']; [by apply IH|].
      destruct (py.at_code 13 c && py.at_code 10 d) eqn:Hcr; [|by apply IH].
      apply andb_true_iff in Hcr as [_ Hd].
      pose proof (IH "" eq_refl) as Hs. simpl in Hs.
      rewrite (linebreak_of_newline d Hd) in Hs.
      apply Forall_cons in Hs as [_ Hs].
      assert (py.at_code 13 d = false) as H13.
      { destruct d as [[] [] [] [] [] [] [] []]; (reflexivity || discriminate). }
      rewrite H13 in Hs. simpl in Hs. by destruct s'.
    + apply IH. by apply one_line_snoc.
Qed.

Lemma splitlines_one_line s : Forall (λ t, one_line t = true) (py.splitlines s).
Proof. by apply splitlines_from_one_line. Qed.

Lemma codes_ok_snoc db c mid u h :
  codes_ok db → code_ok (py.lower c) →
  codes_ok {| libsqlite.code := libsqlite.code db ++ [new_code c mid];
              libsqlite.users := u; libsqlite.history := h |}.
Proof.
  unfold codes_ok. simpl. intros Hdb Hc. apply Forall_app. split; [done|].
  by apply Forall_singleton.
Qed.

Lemma for_body_codes_ok msg p l self :
  one_line p = true → codes_ok (conn self) →
  codes_ok (conn (state_of (for_body msg p l self))).
Proof.
  intros Hone Hok.
  destruct (for_body_cases msg p l self)
    as [(_ & ->)|[(_ & _ & ->)|[(_ & _ & ->)|(Hacc & _ & ->)]]]; try done.
  simpl. apply codes_ok_snoc; [done|]. by apply accepted_line_code_ok.
Qed.

Lemma for_passcode_codes_ok msg lines l self :
  Forall (λ t, one_line t = true) lines → codes_ok (conn self) →
  codes_ok (conn (state_of (for_passcode msg lines l self))).
Proof.
  intros Hlines. revert l self.
  induction Hlines as [|p lines Hp _ IH]; intros l self Hok; [done|].
  rewrite for_passcode_cons.
  pose proof (for_body_codes_ok msg p l self Hp Hok) as Hb.
  destruct (for_body_cases msg p l self)
    as [(_ & E)|[(_ & _ & E)|[(_ & _ & E)|(_ & _ & E)]]];
    rewrite E in Hb |- *; by apply IH.
Qed.

Lemma handle_passcode_codes_ok msg self :
  codes_ok (conn self) → codes_ok (conn (state_of (handle_passcode msg self))).
Proof.
  intros Hok.
  destruct (handle_passcode_cases msg self)
    as [(_ & l' & s' & E & ->)|[(_ & c & ->)|[(_ & st & _ & ->)
       |(Hacc & _ & s' & -> & Hc & _)]]]; try done.
  - simpl. rewrite reported_conn.
    pose proof (for_passcode_codes_ok msg _ no_locals self
                  (splitlines_one_line (text msg)) Hok) as H.
    by rewrite E in H.
  - simpl. rewrite Hc. apply codes_ok_snoc; [done|]. by apply accepted_code_ok.
Qed.

End pipeline_facts.

(** ** More about the store *)

Module store_facts.

Import Stdlib.Strings.Ascii.
Import pred libsqlite.

Lemma find_none_all {A} (f : A → bool) l :
  List.find f l = None → Forall (λ x, f x = false) l.
Proof.
  induction l as [|x l IH]; simpl; [constructor|].
  destruct (f x) eqn:E; [done|]. intros H. constructor; auto.
Qed.

Lemma existsb_false_all {A} (f : A → bool) l :
  existsb f l = false → Forall (λ x, f x = false) l.
Proof.
  induction l as [|x l IH]; simpl; [constructor|].
  rewrite orb_false_iff. intros [? ?]. constructor; auto.
Qed.

Lemma all_false_find {A} (f : A → bool) l :
  Forall (λ x, f x = false) l → List.find f l = None.
Proof. induction 1 as [|x l Hx _ IH]; simpl; [done|]. by rewrite Hx. Qed.

Lemma filter_all {A} (f : A → bool) l :
  Forall (λ x, f x = true) l → List.filter f l = l.
Proof. induction 1 as [|x l Hx _ IH]; simpl; [done|]. by rewrite Hx, IH. Qed.

(** *** The table "code" *)

Lemma update_unknown c fr db :
  query c db = (Return None, db) → update c fr db = (Return (), db).
Proof.
  intros H%libsqlite_facts.query_none_find%find_none_all.
  unfold update. f_equal. destruct db as [cs us hs]. simpl in *. f_equal.
  rewrite <- (list_fmap_id cs) at 2. apply Forall_fmap_ext.
  eapply Forall_impl; [exact H|]. intros r Hr. simpl in Hr. unfold set_fr. by rewrite Hr.
Qed.

Lemma has_str_set_fr s s' fr r : has_str s' (set_fr s fr r) = has_str s' r.
Proof. unfold set_fr. by destruct (has_str s r). Qed.

Lemma set_fr_twice s fr fr' r : set_fr s fr (set_fr s fr' r) = set_fr s fr r.
Proof.
  unfold set_fr at 1. rewrite has_str_set_fr. unfold set_fr.
  by destruct (has_str s r).
Qed.

Lemma update_twice c fr fr' db :
  state_of (update c fr (state_of (update c fr' db))) = state_of (update c fr db).
Proof.
  unfold update. simpl. f_equal. rewrite <- list_fmap_compose.
  apply list_fmap_ext. intros _ r _. apply set_fr_twice.
Qed.

Lemma find_set_fr_other s s' fr l :
  s' ≠ s →
  List.find (has_str s') (set_fr s fr <$> l) = List.find (has_str s') l.
Proof.
  intros Hne. induction l as [|r l IH]; simpl; [done|].
  rewrite has_str_set_fr. destruct (has_str s' r) eqn:E; [|done].
  unfold set_fr. destruct (has_str s r) eqn:E'; [|done].
  unfold has_str in E, E'. apply String.eqb_eq in E, E'. congruence.
Qed.

Lemma query_update_other c c' fr db :
  py.lower c' ≠ py.lower c →
  outcome_of (query c' (state_of (update c fr db))) = outcome_of (query c' db).
Proof.
  intros Hne. unfold query, update. simpl. rewrite find_set_fr_other by done.
  by destruct (List.find _ _).
Qed.

Lemma query_insert_other c c' mid db :
  py.lower c' ≠ py.lower c →
  outcome_of (query c' (state_of (insert c mid db))) = outcome_of (query c' db).
Proof.
  intros Hne. unfold insert. destruct (existsb _ _); [done|].
  unfold query. simpl. rewrite libsqlite_facts.find_snoc.
  destruct (List.find _ (code db)); [done|].
  unfold has_str at 1. simpl.
  destruct (String.eqb_spec (py.lower c) (py.lower c')); [congruence|done].
Qed.

(** *** The table "users" *)

Lemma has_id_refl uid a : has_id uid {| users_id := uid; users_authorized := a |} = true.
Proof. apply Z.eqb_refl. Qed.

Lemma insert_user_fresh uid db :
  existsb (has_id uid) (users db) = false →
  insert_user uid db =
  (Return (), {| code := code db;
                 users := users db ++ [{| users_id := uid; users_authorized := 1 |}];
                 history := history db |}).
Proof. intros H. unfold insert_user. by rewrite H. Qed.

Lemma insert_user_known uid db :
  existsb (has_id uid) (users db) = true →
  insert_user uid db = (Raise IntegrityError, db).
Proof. intros H. unfold insert_user. by rewrite H. Qed.

Lemma filter_not_id_fresh uid l :
  existsb (has_id uid) l = false → List.filter (λ r, negb (has_id uid r)) l = l.
Proof.
  intros H%existsb_false_all. apply filter_all.
  eapply Forall_impl; [exact H|]. intros r Hr. simpl in *. by rewrite Hr.
Qed.

Lemma delete_user_absent uid db :
  existsb (has_id uid) (users db) = false → delete_user uid db = (Return (), db).
Proof.
  intros H. unfold delete_user. rewrite filter_not_id_fresh by done. by destruct db.
Qed.

Lemma existsb_filter_not_id uid l :
  existsb (has_id uid) (List.filter (λ r, negb (has_id uid r)) l) = false.
Proof.
  induction l as [|r l IH]; simpl; [done|].
  destruct (has_id uid r) eqn:E; simpl; [done|]. by rewrite E.
Qed.

Lemma filter_not_id_sub uid l :
  List.filter (λ r, negb (has_id uid r)) l ⊆ l.
Proof.
  intros r Hr. apply list_elem_of_In in Hr. apply List.filter_In in Hr as [Hr _].
  by apply list_elem_of_In.
Qed.

Lemma existsb_has_id uid l :
  existsb (has_id uid) l = true ↔ uid ∈ users_id <$> l.
Proof.
  induction l as [|r l IH]; simpl.
  - split; [done|]. by intros H%elem_of_nil.
  - rewrite orb_true_iff, elem_of_cons, IH. unfold has_id. rewrite Z.eqb_eq.
    split; intros [?|?]; auto.
Qed.

Lemma insert_user_unique uid db :
  unique_users db → unique_users (state_of (insert_user uid db)).
Proof.
  unfold unique_users, insert_user. destruct (existsb _ _) eqn:E; simpl; [done|].
  intros Hdb. rewrite fmap_app. simpl. apply NoDup_app. split_and!; [done| |].
  - intros i Hi [->|H]%elem_of_cons; [|by apply elem_of_nil in H].
    apply existsb_has_id in Hi. congruence.
  - apply NoDup_singleton.
Qed.

Lemma delete_user_unique uid db :
  unique_users db → unique_users (state_of (delete_user uid db)).
Proof.
  unfold unique_users, delete_user. simpl.
  induction (users db) as [|r l IH]; simpl; [done|].
  intros [Hr Hl]%NoDup_cons. destruct (has_id uid r); simpl; [by apply IH|].
  apply NoDup_cons. split; [|by apply IH].
  intros Hin. apply Hr. apply list_elem_of_fmap in Hin as (r' & -> & Hr').
  apply list_elem_of_fmap. exists r'. split; [done|]. by apply filter_not_id_sub in Hr'.
Qed.

Lemma query_user_after_insert uid db db' :
  insert_user uid db = (Return (), db') →
  query_user uid db' = (Return (Some true), db').
Proof.
  unfold insert_user. destruct (existsb _ _) eqn:E; [done|]. intros [= <-].
  unfold query_user. simpl. rewrite libsqlite_facts.find_snoc.
  rewrite (all_false_find _ _ (existsb_false_all _ _ E)). by rewrite has_id_refl.
Qed.

(** The order of a scan by rowid. *)
Lemma place_comm x y l : sqlite.place x (sqlite.place y l) = sqlite.place y (sqlite.place x l).
Proof.
  induction l as [|z l IH]; simpl.
  - destruct (Z.leb_spec x y), (Z.leb_spec y x); try reflexivity; try lia.
    by replace y with x by lia.
  - destruct (Z.leb_spec y z) as [Hyz|Hyz], (Z.leb_spec x z) as [Hxz|Hxz]; simpl;
      destruct (Z.leb_spec x y) as [Hxy|Hxy], (Z.leb_spec y x) as [Hyx|Hyx];
      try lia;
      repeat match goal with
             | |- context [?a <=? ?b] =>
                 first [ rewrite (proj2 (Z.leb_le a b)) by lia
                       | rewrite (proj2 (Z.leb_gt a b)) by lia ]
             end;
      try reflexivity.
    all: try (replace y with x by lia; reflexivity).
    all: try (rewrite IH; reflexivity).
Qed.

Lemma ascending_snoc l x : sqlite.ascending (l ++ [x]) = sqlite.place x (sqlite.ascending l).
Proof.
  unfold sqlite.ascending. induction l as [|y l IH]; [done|].
  simpl. by rewrite IH, place_comm.
Qed.

Lemma elem_of_place x y l : x ∈ sqlite.place y l ↔ x = y ∨ x ∈ l.
Proof.
  induction l as [|z l IH]; simpl.
  - rewrite list_elem_of_singleton, elem_of_nil. tauto.
  - destruct (y <=? z); rewrite !elem_of_cons; [tauto|]. rewrite IH. tauto.
Qed.

Lemma elem_of_ascending x l : x ∈ sqlite.ascending l ↔ x ∈ l.
Proof.
  unfold sqlite.ascending. induction l as [|y l IH]; simpl; [done|].
  rewrite elem_of_place, elem_of_cons, IH. tauto.
Qed.

Lemma query_all_user_after_insert uid db db' ids :
  insert_user uid db = (Return (), db') →
  query_all_user db = (Return ids, db) →
  query_all_user db' = (Return (sqlite.place uid ids), db').
Proof.
  unfold insert_user. destruct (existsb _ _) eqn:E; [done|]. intros [= <-].
  unfold query_all_user. intros [= <-]. cbn [users].
  rewrite List.filter_app, fmap_app. cbn -[sqlite.ascending].
  by rewrite ascending_snoc.
Qed.

Lemma query_user_after_delete uid db :
  query_user uid (state_of (delete_user uid db)) =
  (Return None, state_of (delete_user uid db)).
Proof.
  unfold query_user, delete_user. simpl.
  by rewrite (all_false_find _ _ (existsb_false_all _ _ (existsb_filter_not_id uid _))).
Qed.

Lemma query_all_user_after_delete uid db ids db' :
  query_all_user (state_of (delete_user uid db)) = (Return ids, db') → uid ∉ ids.
Proof.
  unfold query_all_user, delete_user. simpl. intros [= <- _] Hin.
  apply (proj1 (elem_of_ascending _ _)) in Hin.
  apply list_elem_of_fmap in Hin as (r & -> & Hr).
  apply list_elem_of_In, List.filter_In in Hr as [Hr _].
  apply List.filter_In in Hr as [_ Hr]. unfold has_id in Hr.
  by rewrite Z.eqb_refl in Hr.
Qed.

(** *** LIKE *)

Lemma like_percent p x :
  sqlite.like (String "%" p) x =
  sqlite.like p x || match x with
                     | EmptyString => false
                     | String _ x' => sqlite.like (String "%" p) x'
                     end.
Proof. by destruct x. Qed.

Lemma like_percent_alone x : sqlite.like "%" x = true.
Proof.
  induction x as [|c x IH]; [done|]. rewrite like_percent, IH. apply orb_true_r.
Qed.

Lemma like_ci_prefix p x : ci_prefix p x = true → sqlite.like (p +:+ "%") x = true.
Proof.
  revert x. induction p as [|c p IH]; intros x.
  - intros _. apply like_percent_alone.
  - destruct x as [|d x]; [done|]. simpl ci_prefix.
    rewrite andb_true_iff. intros [Hc Hp]. rewrite py_facts.append_cons.
    destruct (py.at_code 37 c) eqn:E37.
    + assert (c = "%"%char) as ->.
      { destruct c as [[] [] [] [] [] [] [] []]; (reflexivity || discriminate). }
      rewrite like_percent. rewrite like_percent, (IH x Hp). by rewrite !orb_true_r.
    + simpl. rewrite E37, Hc, (IH x Hp). by rewrite orb_true_r.
Qed.

Lemma like_no_wildcard p x :
  no_wildcard p = true → sqlite.like (p +:+ "%") x = ci_prefix p x.
Proof.
  unfold no_wildcard. revert x. induction p as [|c p IH]; intros x.
  - intros _. apply like_percent_alone.
  - simpl all_chars. rewrite !andb_true_iff, !negb_true_iff. intros [[H37 H95] Hp].
    rewrite py_facts.append_cons. simpl. rewrite H37, H95.
    destruct x as [|d x]; [done|]. by rewrite (IH x Hp).
Qed.

End store_facts.

(** ** More about accounts *)

Module account_facts.

Import Stdlib.Strings.Ascii.
Import pred pyrogram bot bot_facts.

Lemma flood_key_inj a b : flood_key a = flood_key b → a = b.
Proof.
  unfold flood_key. intros H. apply (inj (String.app "flood_")) in H.
  by apply py_facts.str_inj.
Qed.

(** The invariants do not look at the transport, the owners or the guards. *)
Lemma consistent_same s s' :
  conn s' = conn s →
  aioredis.tracker_user (redis s') = aioredis.tracker_user (redis s) →
  consistent s → consistent s'.
Proof.
  unfold consistent, store_in_cache. intros -> ->. done.
Qed.

Lemma row_not_in_cache self uid :
  store_in_cache self →
  py.str uid ∉ aioredis.tracker_user (redis self) →
  existsb (libsqlite.has_id uid) (libsqlite.users (conn self)) = false.
Proof.
  intros Hsc Hout. destruct (existsb _ _) eqn:E; [|done]. exfalso. apply Hout.
  apply store_facts.existsb_has_id in E. apply list_elem_of_fmap in E as (r & -> & Hr).
  unfold store_in_cache in Hsc. rewrite Forall_forall in Hsc. by apply Hsc.
Qed.

Lemma insert_authorized_user_fresh uid self :
  existsb (libsqlite.has_id uid) (libsqlite.users (conn self)) = false →
  insert_authorized_user uid self = (Return (), authorized_state uid self).
Proof.
  intros H. unfold insert_authorized_user, aioredis.sadd. run.
  by rewrite (store_facts.insert_user_fresh _ _ H).
Qed.

Lemma insert_authorized_user_known uid self :
  existsb (libsqlite.has_id uid) (libsqlite.users (conn self)) = true →
  insert_authorized_user uid self =
  (Raise IntegrityError,
   with_redis {| aioredis.clock := aioredis.clock (redis self);
                 aioredis.tracker_user :=
                   {[py.str uid]} ∪ aioredis.tracker_user (redis self);
                 aioredis.keys := aioredis.keys (redis self) |}
     (with_conn (conn self) self)).
Proof.
  intros H. unfold insert_authorized_user, aioredis.sadd. run.
  by rewrite (store_facts.insert_user_known _ _ H).
Qed.

Lemma delete_authorized_user_run uid self :
  delete_authorized_user uid self = (Return (), revoked_state uid self).
Proof. reflexivity. Qed.

Lemma consistent_authorized uid self :
  consistent self →
  existsb (libsqlite.has_id uid) (libsqlite.users (conn self)) = false →
  consistent (authorized_state uid self).
Proof.
  intros (Hc & Hu & Ha & Hs) E. split_and!.
  - done.
  - pose proof (store_facts.insert_user_unique uid _ Hu) as H.
    by rewrite (store_facts.insert_user_fresh _ _ E) in H.
  - unfold all_authorized. simpl. apply Forall_app. split; [done|].
    by apply Forall_singleton.
  - unfold store_in_cache in *. simpl. apply Forall_app. split.
    + eapply Forall_impl; [exact Hs|]. intros r Hr. simpl in *. set_solver.
    + apply Forall_singleton. simpl. set_solver.
Qed.

Lemma consistent_revoked uid self : consistent self → consistent (revoked_state uid self).
Proof.
  intros (Hc & Hu & Ha & Hs). split_and!.
  - done.
  - by apply store_facts.delete_user_unique.
  - unfold all_authorized in *. simpl. rewrite Forall_forall in Ha |- *.
    intros r Hr. apply Ha. by apply store_facts.filter_not_id_sub in Hr.
  - unfold store_in_cache in *. simpl. rewrite Forall_forall in Hs |- *.
    intros r Hr. apply list_elem_of_In, List.filter_In in Hr as [Hr Hid].
    apply list_elem_of_In in Hr. apply elem_of_difference. split; [by apply Hs|].
    intros Heq%elem_of_singleton%py_facts.str_inj.
    unfold libsqlite.has_id in Hid. rewrite Heq, Z.eqb_refl in Hid. done.
Qed.

(** *** The account buttons *)

Lemma split_account payload verb uid :
  payload = "account " +:+ verb +:+ " " +:+ py.str uid →
  pred.no_space verb = true → verb ≠ "" →
  py.split payload = ["account"; verb; py.str uid].
Proof.
  intros -> Hv Hne.
  change ("account " +:+ verb +:+ " " +:+ py.str uid)
    with ("account" +:+ " " +:+ verb +:+ " " +:+ py.str uid).
  apply py_facts.split_three; try done.
  - apply py_facts.str_no_space.
  - apply py_facts.str_nonempty.
Qed.

Lemma handle_callback_query_grant_new self uid :
  py.str uid ∉ aioredis.tracker_user (redis self) →
  existsb (libsqlite.has_id uid) (libsqlite.users (conn self)) = false →
  handle_callback_query {| data := "account grant " +:+ py.str uid |} self =
  (Return (),
   with_app {| next_message_id := next_message_id (app self) + 1;
               calls := ((calls (app self)
                          ++ [edit_reply_markup
                                (Some [[Button "Revoke" ("account revoke " +:+ py.str uid)]])])
                         ++ [answer None])
                        ++ [send_message uid "Access granted" None None] |}
     (authorized_state uid self)).
Proof.
  intros Hout Hrow. unfold handle_callback_query. cbn [data].
  rewrite (split_account ("account grant " +:+ py.str uid) "grant" uid eq_refl) by done.
  cbn [length Nat.eqb negb]. rewrite py_facts.int_str.
  change (String.eqb "account" "account") with true.
  change (String.eqb "grant" "grant") with true. cbv iota.
  unfold query_authorized_user, aioredis.sismember.
  unfold mbind at 1, M_bind at 1, bind at 1. unfold on_redis at 1.
  rewrite bool_decide_eq_false_2 by done. rewrite handler_facts.with_redis_id.
  unfold mbind at 1, M_bind at 1, bind at 1.
  unfold mbind at 1, M_bind at 1, bind at 1.
  rewrite (insert_authorized_user_fresh _ _ Hrow). reflexivity.
Qed.

Lemma handle_callback_query_grant_clash self uid :
  py.str uid ∉ aioredis.tracker_user (redis self) →
  existsb (libsqlite.has_id uid) (libsqlite.users (conn self)) = true →
  outcome_of (handle_callback_query {| data := "account grant " +:+ py.str uid |} self)
  = Raise IntegrityError.
Proof.
  intros Hout Hrow. unfold handle_callback_query. cbn [data].
  rewrite (split_account ("account grant " +:+ py.str uid) "grant" uid eq_refl) by done.
  cbn [length Nat.eqb negb]. rewrite py_facts.int_str.
  change (String.eqb "account" "account") with true.
  change (String.eqb "grant" "grant") with true. cbv iota.
  unfold query_authorized_user, aioredis.sismember.
  unfold mbind at 1, M_bind at 1, bind at 1. unfold on_redis at 1.
  rewrite bool_decide_eq_false_2 by done. rewrite handler_facts.with_redis_id.
  unfold mbind at 1, M_bind at 1, bind at 1.
  unfold mbind at 1, M_bind at 1, bind at 1.
  by rewrite (insert_authorized_user_known _ _ Hrow).
Qed.

Lemma handle_callback_query_revoke self uid :
  handle_callback_query {| data := "account revoke " +:+ py.str uid |} self =
  (Return (),
   with_app {| next_message_id := next_message_id (app self) + 1;
               calls := ((calls (app self) ++ [edit_reply_markup None])
                         ++ [send_message uid "Access revoked" None None])
                        ++ [answer None] |}
     (revoked_state uid self)).
Proof.
  unfold handle_callback_query. cbn [data].
  rewrite (split_account ("account revoke " +:+ py.str uid) "revoke" uid eq_refl) by done.
  cbn [length Nat.eqb negb]. rewrite py_facts.int_str. reflexivity.
Qed.

Lemma handle_callback_query_deny self uid :
  handle_callback_query {| data := "account deny " +:+ py.str uid |} self =
  (Return (),
   if bool_decide (py.str uid ∈ aioredis.tracker_user (redis self))
   then with_app {| next_message_id := next_message_id (app self);
                    calls := (calls (app self) ++ [edit_reply_markup None])
                             ++ [answer (Some "Out of dated")] |} self
   else with_app {| next_message_id := next_message_id (app self) + 1;
                    calls := ((calls (app self) ++ [edit_reply_markup None])
                              ++ [send_message uid "Access denied" None None])
                             ++ [answer None] |} self).
Proof.
  unfold handle_callback_query. cbn [data].
  rewrite (split_account ("account deny " +:+ py.str uid) "deny" uid eq_refl) by done.
  cbn [length Nat.eqb negb]. rewrite py_facts.int_str.
  change (String.eqb "account" "account") with true.
  change (String.eqb "deny" "grant") with false.
  change (String.eqb "deny" "deny") with true. cbv iota.
  unfold query_authorized_user, aioredis.sismember. run.
  destruct (bool_decide _); by destruct self.
Qed.

(** *** What every callback keeps *)

Lemma consistent_with_app a s : consistent s → consistent (with_app a s).
Proof. by apply consistent_same. Qed.

Lemma consistent_updated c fr s :
  consistent s → consistent (with_conn (state_of (libsqlite.update c fr (conn s))) s).
Proof.
  intros (Hc & Hu & Ha & Hs). split_and!; try done.
  by apply libsqlite_facts.update_unique.
Qed.

Lemma handle_callback_query_consistent q self :
  consistent self →
  consistent (state_of (handle_callback_query q self))
  ∧ outcome_of (handle_callback_query q self) ≠ Raise IntegrityError.
Proof.
  intros Hok.
  assert (∀ e : Exn, e ≠ IntegrityError → @Raise unit e ≠ Raise IntegrityError) as Hne
    by (intros e He [= ->]; done).
  assert (@Return unit () ≠ Raise IntegrityError) as Hret by done.
  remember (handle_callback_query q self) as x eqn:Hx.
  unfold handle_callback_query in Hx.
  destruct (py.split (data q)) as [|a0 [|a1 [|a2 [|a3 rest]]]];
    cbn [length Nat.eqb negb] in Hx.
  - subst x. split; [done|]. by apply Hne.
  - destruct (String.eqb a0 "ignore"); subst x; [|by split]. split; [|exact Hret].
    by apply (consistent_same self).
  - destruct (String.eqb a0 "ignore"); subst x; [|by split]. split; [|exact Hret].
    by apply (consistent_same self).
  - destruct (String.eqb a0 "account").
    + destruct (py.int a2) as [uid|]; [|subst x; split; [done|by apply Hne]].
      destruct (String.eqb a1 "grant").
      { unfold query_authorized_user, aioredis.sismember in Hx.
        destruct (decide (py.str uid ∈ aioredis.tracker_user (redis self))) as [Hin|Hout].
        - revert Hx. run. rewrite bool_decide_eq_true_2 by done. run. intros ->.
          split; [|exact Hret]. by apply (consistent_same self).
        - unfold mbind at 1, M_bind at 1, bind at 1 in Hx. unfold on_redis at 1 in Hx.
          rewrite bool_decide_eq_false_2 in Hx by done.
          rewrite handler_facts.with_redis_id in Hx.
          unfold mbind at 1, M_bind at 1, bind at 1 in Hx.
          unfold mbind at 1, M_bind at 1, bind at 1 in Hx.
          assert (existsb (libsqlite.has_id uid) (libsqlite.users (conn self)) = false)
            as Hrow by (apply row_not_in_cache; [apply Hok|done]).
          rewrite (insert_authorized_user_fresh _ _ Hrow) in Hx. subst x.
          split; [|exact Hret].
          apply (consistent_same (authorized_state uid self)); [done..|].
          by apply consistent_authorized. }
      destruct (String.eqb a1 "deny").
      { unfold query_authorized_user, aioredis.sismember in Hx. revert Hx. run.
        destruct (bool_decide _); intros ->; (split; [|exact Hret]);
          by apply (consistent_same self). }
      destruct (String.eqb a1 "revoke"); subst x; [|by split].
      split; [|exact Hret].
      apply (consistent_same (revoked_state uid self)); [done..|].
      by apply consistent_revoked.
    + destruct (py.int a2) as [mid|]; subst x; [|split; [done|by apply Hne]].
      split; [|exact Hret].
      apply (consistent_same
               (with_conn (state_of (libsqlite.update a1 (String.eqb a0 "m") (conn self)))
                  self)); [done..|].
      by apply consistent_updated.
  - destruct (String.eqb a0 "ignore"); subst x; [|by split]. split; [|exact Hret].
    by apply (consistent_same self).
Qed.

(** *** Requests for access *)

Lemma gather_requests uid l s :
  gather ((λ owner, void (client_send_message owner (request_text uid) (Some "markdown")
                            (Some (request_markup uid)))) <$> l) s =
  (Return (),
   with_app {| next_message_id := next_message_id (app s) + Z.of_nat (length l);
               calls := calls (app s) ++ (request uid <$> l) |} s).
Proof.
  revert s. induction l as [|o l IH]; intros s.
  - simpl. rewrite Z.add_0_r, app_nil_r. by destruct s as [[] ? ? ? ? ?].
  - cbn [fmap list_fmap gather]. unfold void at 1, client_send_message at 1. run.
    rewrite IH. cbn [with_app app next_message_id calls conn channel_id password owners redis].
    f_equal. unfold with_app. cbn [conn channel_id password owners redis]. f_equal. f_equal.
    + cbn [length]. lia.
    + by rewrite <- app_assoc.
Qed.

Lemma handle_auth_request msg self :
  aioredis.get (flood_key (chat_id msg)) (redis self) = (Return None, redis self) →
  py.str (chat_id msg) ∉ aioredis.tracker_user (redis self) →
  length (command msg) = 1%nat →
  handle_auth msg self =
  (Return (),
   with_app {| next_message_id := next_message_id (app self) + Z.of_nat (length (owners self));
               calls := calls (app self) ++ (request (chat_id msg) <$> owners self) |}
     (with_redis (armed (chat_id msg) 1200 (redis self)) self)).
Proof.
  intros Hg Hout Hlen. unfold handle_auth. unfold mbind at 1, M_bind at 1, bind at 1.
  rewrite (handler_facts.flood_check_arms _ _ _ Hg).
  unfold query_authorized_user, aioredis.sismember. run.
  rewrite bool_decide_eq_false_2 by done. rewrite Hlen. cbn [Nat.eqb].
  exact (gather_requests (chat_id msg) (owners self)
           (with_redis (armed (chat_id msg) 1200 (redis self))
              (with_redis (armed (chat_id msg) 1200 (redis self)) self))).
Qed.

Lemma get_returns key r : ∃ v, aioredis.get key r = (Return v, r).
Proof. unfold aioredis.get. eauto. Qed.

Lemma handle_auth_secret_run msg self arg0 :
  aioredis.get (flood_key (chat_id msg)) (redis self) = (Return None, redis self) →
  py.str (chat_id msg) ∉ aioredis.tracker_user (redis self) →
  command msg = [arg0; password self] →
  existsb (libsqlite.has_id (chat_id msg)) (libsqlite.users (conn self)) = false →
  handle_auth msg self =
  (Return (),
   after_calls [reply (chat_id msg)
                  (if owners self is [] then "Authorized as owner" else "Authorized") None] 1
     (with_owners (if owners self is [] then [chat_id msg] else owners self)
        (authorized_state (chat_id msg)
           (with_redis (armed (chat_id msg) 1200 (redis self)) self)))).
Proof.
  intros Hg Hout Hcmd Hrow. unfold handle_auth. unfold mbind at 1, M_bind at 1, bind at 1.
  rewrite (handler_facts.flood_check_arms _ _ _ Hg).
  unfold query_authorized_user, aioredis.sismember. run.
  rewrite bool_decide_eq_false_2 by done. rewrite Hcmd.
  cbn [length Nat.eqb andb lookup list_lookup].
  rewrite bool_decide_eq_true_2 by done.
  unfold insert_authorized_user, libsqlite.insert_user, aioredis.sadd. run.
  rewrite Hrow. run. clear. destruct self as [a c ch pw [|o os] r]; reflexivity.
Qed.

Lemma handle_auth_silent msg self :
  aioredis.get (flood_key (chat_id msg)) (redis self) = (Return None, redis self) →
  py.str (chat_id msg) ∉ aioredis.tracker_user (redis self) →
  (length (command msg) =? 1)%nat = false →
  (length (command msg) =? 2)%nat
  && bool_decide (command msg !! 1%nat = Some (password self)) = false →
  handle_auth msg self =
  (Return (), with_redis (armed (chat_id msg) 1200 (redis self)) self).
Proof.
  intros Hg Hout H1 H2. unfold handle_auth. unfold mbind at 1, M_bind at 1, bind at 1.
  rewrite (handler_facts.flood_check_arms _ _ _ Hg).
  unfold query_authorized_user, aioredis.sismember. run.
  rewrite bool_decide_eq_false_2 by done. run. rewrite H1, H2.
  by destruct self.
Qed.

Lemma consistent_armed uid t self :
  consistent self → consistent (with_redis (armed uid t (redis self)) self).
Proof. by apply consistent_same. Qed.

Lemma handle_auth_consistent msg self :
  consistent self →
  consistent (state_of (handle_auth msg self))
  ∧ outcome_of (handle_auth msg self) ≠ Raise IntegrityError.
Proof.
  intros Hok.
  assert (@Return unit () ≠ Raise IntegrityError) as Hret by done.
  destruct (get_returns (flood_key (chat_id msg)) (redis self)) as [[v|] Hg].
  { by rewrite (handler_facts.handle_auth_flooded _ _ _ Hg). }
  destruct (decide (py.str (chat_id msg) ∈ aioredis.tracker_user (redis self)))
    as [Hin|Hout].
  { rewrite (handler_facts.handle_auth_already _ _ Hg Hin). split; [|exact Hret].
    by apply (consistent_same self). }
  destruct (length (command msg) =? 1)%nat eqn:H1.
  { apply Nat.eqb_eq in H1. rewrite (handle_auth_request _ _ Hg Hout H1).
    split; [|exact Hret]. by apply (consistent_same self). }
  destruct ((length (command msg) =? 2)%nat
            && bool_decide (command msg !! 1%nat = Some (password self))) eqn:H2.
  2: { rewrite (handle_auth_silent _ _ Hg Hout H1 H2). split; [|exact Hret].
       by apply (consistent_same self). }
  apply andb_true_iff in H2 as [Hlen Hpw]. apply Nat.eqb_eq in Hlen.
  apply bool_decide_eq_true_1 in Hpw.
  destruct (command msg) as [|a0 [|a1 [|a2 rest]]] eqn:Hcmd; try done.
  simpl in Hpw. injection Hpw as ->.
  assert (existsb (libsqlite.has_id (chat_id msg)) (libsqlite.users (conn self)) = false)
    as Hrow by (apply row_not_in_cache; [apply Hok|done]).
  rewrite (handle_auth_secret_run _ _ _ Hg Hout Hcmd Hrow). split; [|exact Hret].
  apply (consistent_same
           (authorized_state (chat_id msg)
              (with_redis (armed (chat_id msg) 1200 (redis self)) self))); [done..|].
  apply consistent_authorized; [by apply consistent_armed|done].
Qed.

(** *** The guard in time, and between users *)

Lemma get_armed_later uid r seconds :
  aioredis.get (flood_key uid) (later seconds (armed uid 1200 r)) =
  (Return (if seconds <? 1200 then Some "1" else None), later seconds (armed uid 1200 r)).
Proof.
  unfold aioredis.get. cbn [later armed aioredis.keys aioredis.clock].
  rewrite lookup_insert_eq. f_equal. f_equal.
  destruct (Z.ltb_spec seconds 1200), (Z.ltb_spec (aioredis.clock r + seconds)
                                          (aioredis.clock r + 1200)); (done || lia).
Qed.

Lemma get_other_armed uid uid' t r :
  uid' ≠ uid →
  outcome_of (aioredis.get (flood_key uid') (armed uid t r)) =
  outcome_of (aioredis.get (flood_key uid') r).
Proof.
  intros Hne. unfold aioredis.get. cbn [armed aioredis.keys aioredis.clock outcome_of fst].
  rewrite lookup_insert_ne; [done|]. intros H%flood_key_inj. done.
Qed.

(** *** Loading the users *)

Lemma for_each_sadd l s :
  for_each (λ x, on_redis (aioredis.sadd (py.str x))) l s =
  (Return (),
   with_redis {| aioredis.clock := aioredis.clock (redis s);
                 aioredis.tracker_user :=
                   list_to_set (py.str <$> l) ∪ aioredis.tracker_user (redis s);
                 aioredis.keys := aioredis.keys (redis s) |} s).
Proof.
  revert s. induction l as [|x l IH]; intros s.
  - simpl. f_equal. destruct s as [? ? ? ? ? []]. unfold with_redis. simpl.
    f_equal. f_equal. by rewrite (left_id_L ∅ (∪)).
  - cbn [for_each]. unfold mbind, M_bind, bind. unfold on_redis at 1, aioredis.sadd at 1.
    unfold modify. rewrite IH. f_equal. unfold with_redis.
    cbn [app conn channel_id password owners redis aioredis.clock aioredis.keys
         aioredis.tracker_user]. f_equal. f_equal.
    cbn [fmap list_fmap list_to_set].
    by rewrite (assoc_L (∪)), (comm_L (∪) (list_to_set _) {[py.str x]}).
Qed.

Lemma _load_users_run self :
  _load_users self =
  (Return (),
   with_redis
     {| aioredis.clock := aioredis.clock (redis self);
        aioredis.tracker_user :=
          list_to_set (py.str <$> owners self)
          ∪ list_to_set (py.str <$> (libsqlite.users_id <$>
               List.filter (λ r, libsqlite.users_authorized r =? 1)
                           (libsqlite.users (conn self))));
        aioredis.keys := aioredis.keys (redis self) |} self).
Proof.
  unfold _load_users. unfold mbind at 1, M_bind at 1, bind at 1.
  unfold on_redis at 1, aioredis.delete, modify. cbn [String.eqb Ascii.eqb Bool.eqb].
  unfold mbind at 1, M_bind at 1, bind at 1. unfold on_conn at 1, libsqlite.query_all_user.
  cbn [conn with_redis with_conn].
  unfold mbind at 1, M_bind at 1, bind at 1. rewrite for_each_sadd.
  unfold mbind at 1, M_bind at 1, bind at 1. unfold get. rewrite for_each_sadd.
  f_equal. unfold with_redis.
  cbn [app conn channel_id password owners redis aioredis.clock aioredis.keys
       aioredis.tracker_user]. f_equal. f_equal.
  cbn [with_conn owners redis aioredis.tracker_user]. rewrite (right_id_L ∅ (∪)).
  f_equal. apply set_eq. intros x.
  rewrite !elem_of_list_to_set, !list_elem_of_fmap.
  by setoid_rewrite store_facts.elem_of_ascending.
Qed.

End account_facts.

(** ** The commands, and what every handler keeps *)

Module command_facts.

Import Stdlib.Strings.Ascii.
Import pred pyrogram bot bot_facts account_facts.

Lemma str_in_set uid (l : list Z) :
  py.str uid ∈ (list_to_set (py.str <$> l) : gset string) ↔ uid ∈ l.
Proof.
  rewrite elem_of_list_to_set, list_elem_of_fmap. split.
  - intros (y & Hy%py_facts.str_inj & Hin). by subst.
  - intros Hin. by exists uid.
Qed.

Lemma query_history_run msg self arg0 code :
  command msg = [arg0; code] →
  bot.query_history msg self =
  (Return (),
   after_calls
     [reply (chat_id msg)
        (match outcome_of (libsqlite.query_history code (conn self)) with
         | Return (Some send_by) => "Find match => " +:+ py.str send_by
         | _ => "404 Not found"
         end) None] 1 self).
Proof.
  intros Hcmd. unfold bot.query_history. rewrite Hcmd. cbn [length Nat.ltb Nat.leb].
  unfold libsqlite.query_history. run.
  destruct (List.find _ _); by destruct self.
Qed.

Lemma query_history_consistent msg self :
  consistent self →
  consistent (state_of (bot.query_history msg self))
  ∧ outcome_of (bot.query_history msg self) ≠ Raise IntegrityError.
Proof.
  intros Hok. unfold bot.query_history.
  destruct (2 <? length (command msg))%nat.
  { split; [|done]. by apply (consistent_same self). }
  destruct (command msg) as [|a0 [|a1 [|a2 rest]]]; try by split.
  unfold libsqlite.query_history. run.
  destruct (List.find _ _); (split; [|done]); by apply (consistent_same self).
Qed.

Lemma delete_user_manual_run msg self arg0 arg1 arg2 rest uid :
  command msg = arg0 :: arg1 :: arg2 :: rest →
  py.int arg1 = Some uid →
  delete_user_manual msg self =
  (Return (),
   if bool_decide (py.str uid ∈ aioredis.tracker_user (redis self))
   then with_app {| next_message_id := next_message_id (app self) + 1 + 1;
                    calls := (calls (app self)
                              ++ [send_message uid "Access revoked" None None])
                             ++ [reply (chat_id msg) "Success" None] |}
          (revoked_state uid self)
   else after_calls [reply (chat_id msg) "User not in authorized list" None] 1 self).
Proof.
  intros Hcmd Hint. unfold delete_user_manual. rewrite Hcmd.
  cbn [length Nat.eqb negb lookup list_lookup]. rewrite Hint.
  unfold query_authorized_user, aioredis.sismember. run.
  destruct (bool_decide _); [reflexivity|]. by destruct self.
Qed.

Lemma delete_user_manual_consistent msg self :
  consistent self →
  consistent (state_of (delete_user_manual msg self))
  ∧ outcome_of (delete_user_manual msg self) ≠ Raise IntegrityError.
Proof.
  intros Hok. unfold delete_user_manual.
  destruct (negb (length (command msg) =? 2)%nat); [|by split].
  destruct (command msg !! 1%nat) as [arg|]; [|by split].
  destruct (py.int arg) as [uid|]; [|by split].
  unfold query_authorized_user, aioredis.sismember. run.
  destruct (bool_decide _); (split; [|done]).
  - apply (consistent_same (revoked_state uid self)); [done..|].
    by apply consistent_revoked.
  - by apply (consistent_same self).
Qed.

Lemma handle_passcode_consistent msg self :
  consistent self →
  consistent (state_of (handle_passcode msg self))
  ∧ outcome_of (handle_passcode msg self) ≠ Raise IntegrityError.
Proof.
  intros (Hc & Hu & Ha & Hs). split.
  - destruct (pipeline_facts.handle_passcode_same msg self) as (Hus & Hr & _).
    split_and!.
    + by apply handle_passcode_unique.
    + unfold unique_users. by rewrite Hus.
    + unfold all_authorized. by rewrite Hus.
    + unfold store_in_cache. by rewrite Hus, Hr.
  - by rewrite pipeline_facts.handle_passcode_returns.
Qed.

Lemma _load_users_consistent self :
  unique_codes (conn self) → unique_users (conn self) → all_authorized (conn self) →
  consistent (state_of (_load_users self))
  ∧ outcome_of (_load_users self) ≠ Raise IntegrityError.
Proof.
  intros Hc Hu Ha. rewrite _load_users_run. split; [|done].
  split_and!; try done.
  unfold store_in_cache, all_authorized in *. cbn [state_of snd with_redis conn redis
    aioredis.tracker_user]. rewrite Forall_forall in Ha |- *. intros r Hr.
  apply elem_of_union. right. apply str_in_set. apply list_elem_of_fmap.
  exists r. split; [done|]. apply list_elem_of_In, List.filter_In. split.
  - by apply list_elem_of_In.
  - rewrite (Ha r Hr). done.
Qed.

Lemma revoke_then_same_cache (x : string) (S : gset string) :
  x ∉ S → ({[x]} ∪ S) ∖ {[x]} = S.
Proof.
  intros Hx. rewrite difference_union_distr_l_L, difference_diag_L, (left_id_L ∅ (∪)).
  apply difference_disjoint_L. by apply disjoint_singleton_r.
Qed.

End command_facts.

(** ** Handlers that overlap *)

Module task_facts.

Import Stdlib.Strings.Ascii.
Import pred pyrogram bot.

Lemma resume_await {S A} (m : M S A) (k : A → Task S) s :
  resume (await m k) s =
  match m s with
  | (Return a, s') => (k a, s')
  | (Raise e, s') => (Done (Raise e), s')
  end.
Proof. reflexivity. Qed.

Lemma resume_n_done {S} n (r : Result unit) (s : S) : resume_n n (Done r) s = (Done r, s).
Proof. induction n as [|n IH]; [done|]. simpl. exact IH. Qed.

(** Resumed without interruption, the task is the handler. *)
Lemma handle_passcode_task_alone msg self :
  single_line msg →
  resume_n 6 (handle_passcode_task msg) self =
  (Done (outcome_of (handle_passcode msg self)), state_of (handle_passcode msg self)).
Proof.
  intros Hnl. unfold single_line in Hnl.
  destruct (30 <? py.len (text msg))%nat eqn:Hlen.
  { rewrite (bot_facts.handle_passcode_too_long _ _ Hnl Hlen).
    unfold handle_passcode_task. rewrite Hlen. reflexivity. }
  destruct (PASSCODE_EXP (text msg)) eqn:Hpat.
  2: { rewrite (bot_facts.handle_passcode_bad_format _ _ Hnl Hlen Hpat).
       unfold handle_passcode_task. rewrite Hlen, Hpat. reflexivity. }
  assert (accepted (text msg)) as Hacc by done.
  unfold handle_passcode_task. rewrite Hlen, Hpat. cbn [negb resume_n].
  rewrite resume_await. unfold on_conn at 1.
  destruct (libsqlite_facts.query_returns (text msg) (conn self)) as [[st|] Hq]; rewrite Hq.
  - rewrite (bot_facts.handle_passcode_known _ _ _ Hacc Hq). reflexivity.
  - rewrite (bot_facts.handle_passcode_new _ _ Hacc Hq).
    rewrite resume_await. bot_facts.run.
    cbn [await_gather resume with_app with_conn conn].
    rewrite (libsqlite_facts.insert_fresh _ _ _ Hq). reflexivity.
Qed.

Lemma run_schedule_replicate {S} n i (tasks : list (Task S)) t s :
  tasks !! i = Some t →
  run_schedule (replicate n i) tasks s =
  (<[i := (resume_n n t s).1]> tasks, (resume_n n t s).2).
Proof.
  revert tasks t s. induction n as [|n IH]; intros tasks t s Hi.
  - cbn. by rewrite list_insert_id.
  - cbn [replicate run_schedule resume_n]. rewrite Hi.
    destruct (resume t s) as [t' s'].
    rewrite (IH (<[i := t']> tasks) t' s').
    + by rewrite list_insert_insert_eq.
    + apply list_lookup_insert_eq. by eapply lookup_lt_Some.
Qed.

(** What the tasks keep, the loop keeps. *)
Lemma keeps_resume {S} (P : S → Prop) Q t s :
  keeps P Q t → P s → P (resume t s).2 ∧ keeps P Q (resume t s).1.
Proof.
  intros Ht Hs. destruct Ht as [r Hr|f Hf]; cbn [resume].
  - split; [done|by constructor].
  - by apply Hf.
Qed.

Lemma keeps_run_schedule {S} (P : S → Prop) Q schedule (tasks : list (Task S)) s :
  Forall (keeps P Q) tasks → P s →
  P (run_schedule schedule tasks s).2
  ∧ Forall (keeps P Q) (run_schedule schedule tasks s).1.
Proof.
  revert tasks s. induction schedule as [|i schedule IH]; intros tasks s Ht Hs; [done|].
  cbn [run_schedule]. destruct (tasks !! i) as [t|] eqn:Hi; [|by apply IH].
  assert (keeps P Q t) as Hk by (by eapply (proj1 (Forall_lookup _ _)) in Hi).
  destruct (keeps_resume P Q t s Hk Hs) as [Hs' Ht'].
  destruct (resume t s) as [t' s']. apply IH; [|done].
  by apply Forall_insert.
Qed.

Lemma keeps_ended {S} (P : S → Prop) Q (t : Task S) r :
  keeps P Q t → ended t = Some r → Q r.
Proof. intros [r' Hr|f Hf]; [by intros [= <-]|done]. Qed.

Lemma keeps_await {S A} (P : S → Prop) (Q : Result unit → Prop) (m : M S A)
    (k : A → Task S) :
  (∀ s, P s → P (m s).2 ∧ ∀ e, (m s).1 = Raise e → Q (Raise e)) →
  (∀ a, keeps P Q (k a)) → keeps P Q (await m k).
Proof.
  intros Hm Hk. constructor. intros s Hs. destruct (Hm s Hs) as [Hs' He].
  destruct (m s) as [[a|e] s']; (split; [done|]); [apply Hk|].
  constructor. by apply He.
Qed.

Lemma keeps_await_gather {S} (P : S → Prop) (Q : Result unit → Prop)
    (l : list (M S unit)) raised (k : Task S) :
  Forall (λ m, ∀ s, P s → P (m s).2 ∧ ∀ e, (m s).1 = Raise e → Q (Raise e)) l →
  (∀ e, raised = Some e → Q (Raise e)) →
  keeps P Q k → keeps P Q (await_gather l raised k).
Proof.
  intros Hl Hr Hk. revert raised Hr. induction Hl as [|m l Hm Hl IH]; intros raised Hr.
  - cbn. destruct raised as [e|]; [|done]. constructor. by apply Hr.
  - cbn [await_gather]. constructor. intros s Hs. destruct (Hm s Hs) as [Hs' He].
    destruct (m s) as [[[]|e] s']; (split; [done|]); apply IH; [done|].
    intros e'. destruct raised as [e0|]; cbn; intros [= <-]; [by apply Hr|by apply He].
Qed.

(** The single-line handler keeps the primary key of "code" and the accounts,
    whoever runs in between, and ends by returning or on the key. *)
Lemma handle_passcode_task_keeps (self : Tracker) (msg : Message) :
  keeps (λ s, unique_codes (conn s) ∧ same_accounts self s)
        (λ r, r = Return () ∨ r = Raise IntegrityError)
        (handle_passcode_task msg).
Proof.
  assert (∀ body markup,
            keeps (λ s, unique_codes (conn s) ∧ same_accounts self s)
                  (λ r, r = Return () ∨ r = Raise IntegrityError)
                  (await (msg_reply msg body markup) (λ _, Done (Return ())))) as Hreply.
  { intros body markup. apply keeps_await; [|intros _; constructor; by left].
    intros s Hs. split; [exact Hs|done]. }
  unfold handle_passcode_task.
  destruct (30 <? py.len (text msg))%nat; [apply Hreply|].
  destruct (negb (PASSCODE_EXP (text msg))); [apply Hreply|].
  apply keeps_await.
  { intros s Hs. unfold on_conn.
    destruct (libsqlite_facts.query_returns (text msg) (conn s)) as [r ->].
    split; [|done]. cbn. by destruct s. }
  intros [st|]; [apply Hreply|].
  apply keeps_await.
  { intros s Hs. split; [exact Hs|done]. }
  intros _msg. apply keeps_await_gather; [|done|apply Hreply].
  repeat apply Forall_cons_2; [| | |apply Forall_nil_2].
  - intros s [Hu Hs]. unfold on_conn. split.
    + pose proof (libsqlite_facts.insert_unique (text msg) (message_id _msg) _ Hu) as Hi.
      unfold libsqlite.insert in *. destruct (existsb _ _); cbn in *; by split.
    + unfold libsqlite.insert. destruct (existsb _ _); cbn; [intros e [= <-]; by right|done].
  - intros s [Hu Hs]. split; [|done]. cbn. by split.
  - intros s Hs. split; [exact Hs|done].
Qed.


End task_facts.

(** ** Further properties of the code *)

Module properties.

Import Stdlib.Strings.Ascii.
Import pred pyrogram bot.

(** X1. A handler of a text message that runs on its own, no other handler
    at work between its first line and its return, never raises: the insert
    is reached only when the query found no row.  And it changes neither the
    table "users", nor the cache, nor the owners. *)
Theorem handle_passcode_returns_and_keeps_accounts (msg : Message) (self : Tracker) :
  outcome_of (handle_passcode msg self) = Return ()
  ∧ libsqlite.users (conn (state_of (handle_passcode msg self))) = libsqlite.users (conn self)
  ∧ redis (state_of (handle_passcode msg self)) = redis self
  ∧ owners (state_of (handle_passcode msg self)) = owners self.
Proof.
  split; [apply pipeline_facts.handle_passcode_returns|].
  by destruct (pipeline_facts.handle_passcode_same msg self) as (?&?&?&_).
Qed.

(** X2. For texts of one-byte characters (code points below 256, the texts
    of this model), every code that [handle_passcode] stores is lower-case and
    made of 5 to 35 word characters: if the rows of the table "code" are so
    before a message, single-line or multi-line, they are so after it.  On
    that range [lower] keeps the length of a text and the word characters;
    beyond it this fails (the lower case of U+0130 is two code points, the
    second no word character).  (The final line feed that the pattern's end
    anchor lets through never reaches the store: a single-line text has none
    and [splitlines] leaves none.) *)
Theorem stored_codes_stay_well_formed (msg : Message) (self : Tracker) :
  codes_ok (conn self) → codes_ok (conn (state_of (handle_passcode msg self))).
Proof. apply pipeline_facts.handle_passcode_codes_ok. Qed.

Lemma stored_codes_witness :
  let self := sample.tracker sample.db_abcde in
  let msg := sample.message 7 ("AbCdE_1" +:+ nl +:+ "x y" +:+ nl +:+ "Fghij") in
  codes_ok (conn self)
  ∧ libsqlite.code_str <$> libsqlite.code (conn (state_of (handle_passcode msg self))) =
    ["abcde"; "abcde_1"; "fghij"]
  ∧ codes_ok (conn (state_of (handle_passcode msg self))).
Proof.
  intros self msg.
  assert (codes_ok (conn self)) as H.
  { apply Forall_singleton. repeat split; (reflexivity || (simpl; lia)). }
  split_and!; [exact H|reflexivity|].
  exact (stored_codes_stay_well_formed msg self H).
Defined.

(** X3. In a multi-line text every line that is not skipped ends in exactly
    one place: the errors are the refused lines, in order, and each other line
    is either counted as sent or listed as a duplicate. *)
Theorem multiline_lines_are_partitioned (msg : Message) (self : Tracker) :
  py.contains "010" (text msg) = true →
  ∃ l' s',
    for_passcode msg (py.splitlines (text msg)) no_locals self = (Return l', s')
    ∧ handle_passcode msg self = (Return (), reported msg l' s')
    ∧ error_codes l' = List.filter refused (considered (py.splitlines (text msg)))
    ∧ 0 ≤ count l'
    ∧ count l' + Z.of_nat (length (duplicate_codes l')) =
      Z.of_nat (length (List.filter (λ t, negb (refused t))
                          (considered (py.splitlines (text msg))))).
Proof.
  intros Hnl.
  destruct (pipeline_facts.for_passcode_account msg (py.splitlines (text msg))
              no_locals self)
    as (l' & s' & k & E & Hc & _ & _ & _ & _ & He & Hd & _).
  exists l', s'. cbn [no_locals count error_codes duplicate_codes length] in *.
  split_and!; [done| |done|lia|lia].
  rewrite bot_facts.handle_passcode_multiline by done.
  by apply bot_facts.handle_multiline_passcode_run.
Qed.

Lemma multiline_partition_witness :
  let self := sample.tracker sample.db_abcde in
  let msg := sample.message 7 ("abcde" +:+ nl +:+ "#note" +:+ nl +:+ "x y" +:+ nl +:+ "fghij") in
  py.contains "010" (text msg) = true
  ∧ ∃ l' s',
      for_passcode msg (py.splitlines (text msg)) no_locals self = (Return l', s')
      ∧ error_codes l' = ["x y"]
      ∧ count l' + Z.of_nat (length (duplicate_codes l')) = 2.
Proof.
  intros self msg.
  assert (py.contains "010" (text msg) = true) as H by reflexivity.
  split; [exact H|].
  destruct (multiline_lines_are_partitioned msg self H) as (l' & s' & E & _ & He & _ & Hc).
  exists l', s'. split_and!; [exact E|exact He|exact Hc].
Defined.

(** X4. The count in the summary of a multi-line text is the number of rows
    added to the table "code", of rows added to the history, of posts sent to
    the channel and of two-second pauses; and the status notice is sent
    exactly when that count is not zero. *)
Theorem multiline_count_is_what_was_done (msg : Message) (self : Tracker) :
  py.contains "010" (text msg) = true →
  ∃ l' s',
    for_passcode msg (py.splitlines (text msg)) no_locals self = (Return l', s')
    ∧ handle_passcode msg self = (Return (), reported msg l' s')
    ∧ Z.of_nat (length (libsqlite.code (conn s'))) =
      Z.of_nat (length (libsqlite.code (conn self))) + count l'
    ∧ Z.of_nat (length (libsqlite.history (conn s'))) =
      Z.of_nat (length (libsqlite.history (conn self))) + count l'
    ∧ Z.of_nat (length (List.filter (is_post (channel_id self)) (calls (app s')))) =
      Z.of_nat (length (List.filter (is_post (channel_id self)) (calls (app self))))
      + count l'
    ∧ Z.of_nat (length (List.filter is_sleep (calls (app s')))) =
      Z.of_nat (length (List.filter is_sleep (calls (app self)))) + count l'
    ∧ (status_message l' = None ↔ count l' = 0).
Proof.
  intros Hnl.
  destruct (pipeline_facts.for_passcode_account msg (py.splitlines (text msg))
              no_locals self)
    as (l' & s' & k & E & Hc & Hr & Hh & Hp & Hz & _ & _ & Hn).
  exists l', s'. cbn [no_locals count status_message] in *.
  split_and!; [done| |lia..|by apply Hn].
  rewrite bot_facts.handle_passcode_multiline by done.
  by apply bot_facts.handle_multiline_passcode_run.
Qed.

Lemma multiline_count_witness :
  let self := sample.tracker sample.db_abcde in
  let msg := sample.message 7 ("abcde" +:+ nl +:+ "fghij" +:+ nl +:+ "klmno") in
  py.contains "010" (text msg) = true
  ∧ ∃ l' s',
      handle_passcode msg self = (Return (), reported msg l' s')
      ∧ Z.of_nat (length (libsqlite.code (conn s'))) = 1 + count l'.
Proof.
  intros self msg.
  assert (py.contains "010" (text msg) = true) as H by reflexivity.
  split; [exact H|].
  destruct (multiline_count_is_what_was_done msg self H) as (l' & s' & _ & E & Hr & _).
  exists l', s'. split; [exact E|exact Hr].
Defined.

(** X5. A press of a toggle button for a code that is not in the store
    changes no row, in any table, and yet edits the broadcast post and is
    answered: the UPDATE matches nothing and the handler does not look. *)
Theorem toggle_of_unknown_code_changes_no_row (self : Tracker) (c : string)
    (st : libsqlite.CodeStatus) :
  all_word c = true → c ≠ "" →
  libsqlite.query c (conn self) = (Return None, conn self) →
  let press := handle_callback_query {| data := toggle_data c st |} in
  outcome_of (press self) = Return ()
  ∧ conn (state_of (press self)) = conn self
  ∧ calls_of press self =
    [edit_message_text (channel_id self) (libsqlite.message_id st)
       (post_body c (negb (libsqlite.FR st))) (Some "html");
     edit_reply_markup None; answer None].
Proof.
  intros Hw Hne Hq press. subst press. unfold calls_of.
  rewrite (handler_facts.handle_callback_query_toggle self _ st Hw Hne).
  cbn [outcome_of state_of fst snd conn app calls].
  rewrite (store_facts.update_unknown _ _ _ Hq). split_and!; try done.
  by rewrite <- !app_assoc, drop_app_length.
Qed.

Lemma toggle_of_unknown_code_witness :
  let self := sample.tracker sample.db_abcde in
  (all_word "fghij" = true ∧ "fghij" ≠ ""
   ∧ libsqlite.query "fghij" (conn self) = (Return None, conn self))
  ∧ conn (state_of (handle_callback_query {| data := "m fghij 100" |} self)) = conn self
  ∧ calls_of (handle_callback_query {| data := "m fghij 100" |}) self =
    [edit_message_text (-1001) 100 "<del>fghij</del>" (Some "html");
     edit_reply_markup None; answer None].
Proof.
  intros self.
  assert (all_word "fghij" = true) as H1 by reflexivity.
  assert ("fghij" ≠ "") as H2 by discriminate.
  assert (libsqlite.query "fghij" (conn self) = (Return None, conn self)) as H3
    by reflexivity.
  split_and!; [exact H1|exact H2|exact H3| |].
  - exact (proj1 (proj2 (toggle_of_unknown_code_changes_no_row self "fghij"
                           {| libsqlite.message_id := 100; libsqlite.FR := false |}
                           H1 H2 H3))).
  - exact (proj2 (proj2 (toggle_of_unknown_code_changes_no_row self "fghij"
                           {| libsqlite.message_id := 100; libsqlite.FR := false |}
                           H1 H2 H3))).
Defined.

(** X6. A toggle button sets the flag its payload names; it does not flip the
    stored one.  Pressing the same button again leaves the store as the first
    press left it, whatever the flag was before. *)
Theorem same_button_twice_is_once (self : Tracker) (c : string)
    (st : libsqlite.CodeStatus) :
  all_word c = true → c ≠ "" →
  let press := handle_callback_query {| data := toggle_data c st |} in
  let s1 := state_of (press self) in
  let s2 := state_of (press s1) in
  conn s1 = state_of (libsqlite.update c (negb (libsqlite.FR st)) (conn self))
  ∧ conn s2 = conn s1
  ∧ (∀ st0, libsqlite.query c (conn self) = (Return (Some st0), conn self) →
            libsqlite.query c (conn s2) =
            (Return (Some {| libsqlite.message_id := libsqlite.message_id st0;
                             libsqlite.FR := negb (libsqlite.FR st) |}), conn s2)).
Proof.
  intros Hw Hne press s1 s2.
  pose proof (handler_facts.handle_callback_query_toggle self _ st Hw Hne) as E1.
  pose proof (handler_facts.handle_callback_query_toggle s1 _ st Hw Hne) as E2.
  fold press in E1, E2.
  assert (conn s1 = state_of (libsqlite.update c (negb (libsqlite.FR st)) (conn self)))
    as H1 by (subst s1; by rewrite E1).
  assert (conn s2 = conn s1) as H2.
  { subst s2. rewrite E2. cbn [state_of snd conn]. rewrite H1.
    apply store_facts.update_twice. }
  split_and!; [exact H1|exact H2|].
  intros st0 Hq. rewrite H2, H1. by apply libsqlite_facts.query_after_update.
Qed.

Lemma same_button_twice_witness :
  let self := sample.tracker sample.db_abcde in
  let press := handle_callback_query {| data := "m abcde 100" |} in
  (all_word "abcde" = true ∧ "abcde" ≠ "")
  ∧ conn (state_of (press (state_of (press self)))) = conn (state_of (press self))
  ∧ libsqlite.code (conn (state_of (press self))) =
    [{| libsqlite.code_str := "abcde"; libsqlite.code_message_id := 100;
        libsqlite.code_fr := 1 |}].
Proof.
  intros self press.
  assert (all_word "abcde" = true) as H1 by reflexivity.
  assert ("abcde" ≠ "") as H2 by discriminate.
  split_and!; [exact H1|exact H2| |reflexivity].
  exact (proj1 (proj2 (same_button_twice_is_once self "abcde"
                         {| libsqlite.message_id := 100; libsqlite.FR := false |} H1 H2))).
Defined.

(** X7. Inserting or updating one code leaves what a query answers for every
    code with another lower-cased form. *)
Theorem other_codes_are_untouched (db : libsqlite.PasscodeTracker) (c c' : string)
    (message_id : Z) (fr : bool) :
  py.lower c' ≠ py.lower c →
  outcome_of (libsqlite.query c' (state_of (libsqlite.insert c message_id db))) =
    outcome_of (libsqlite.query c' db)
  ∧ outcome_of (libsqlite.query c' (state_of (libsqlite.update c fr db))) =
    outcome_of (libsqlite.query c' db).
Proof.
  intros Hne. split.
  - by apply store_facts.query_insert_other.
  - by apply store_facts.query_update_other.
Qed.

Lemma other_codes_witness :
  py.lower "ABCDE" ≠ py.lower "fghij"
  ∧ outcome_of (libsqlite.query "ABCDE"
                  (state_of (libsqlite.update "fghij" true
                     (state_of (libsqlite.insert "fghij" 101 sample.db_abcde))))) =
    Return (Some {| libsqlite.message_id := 100; libsqlite.FR := false |}).
Proof.
  assert (py.lower "ABCDE" ≠ py.lower "fghij") as H by discriminate.
  split; [exact H|].
  rewrite (proj2 (other_codes_are_untouched
                    (state_of (libsqlite.insert "fghij" 101 sample.db_abcde))
                    "fghij" "ABCDE" 0 true H)).
  rewrite (proj1 (other_codes_are_untouched sample.db_abcde "fghij" "ABCDE" 101 true H)).
  reflexivity.
Defined.

(** X8. The table "users": a user that is inserted is found authorized and
    takes its place among the ids [query_all_user] yields, which come in
    ascending order (the id is the rowid), not in the order of the inserts;
    inserting it again is refused by the primary key and changes nothing;
    deleting it gives back the table as it was, and then it is not found. *)
Theorem users_insert_delete_round_trip (db db' : libsqlite.PasscodeTracker) (user_id : Z) :
  libsqlite.insert_user user_id db = (Return (), db') →
  libsqlite.query_user user_id db' = (Return (Some true), db')
  ∧ (∀ ids, libsqlite.query_all_user db = (Return ids, db) →
            libsqlite.query_all_user db' = (Return (sqlite.place user_id ids), db'))
  ∧ libsqlite.insert_user user_id db' = (Raise IntegrityError, db')
  ∧ libsqlite.delete_user user_id db' = (Return (), db)
  ∧ libsqlite.query_user user_id db = (Return None, db).
Proof.
  intros Hi.
  assert (existsb (libsqlite.has_id user_id) (libsqlite.users db) = false) as Hrow.
  { unfold libsqlite.insert_user in Hi. by destruct (existsb _ _). }
  pose proof Hi as Hi'. rewrite (store_facts.insert_user_fresh _ _ Hrow) in Hi'.
  injection Hi' as <-.
  split_and!.
  - exact (store_facts.query_user_after_insert _ _ _ Hi).
  - intros ids Hids. exact (store_facts.query_all_user_after_insert _ _ _ _ Hi Hids).
  - apply store_facts.insert_user_known. simpl. rewrite existsb_app. simpl.
    by rewrite store_facts.has_id_refl, orb_true_r.
  - unfold libsqlite.delete_user. simpl. rewrite List.filter_app. simpl.
    rewrite store_facts.has_id_refl. simpl.
    rewrite store_facts.filter_not_id_fresh by done. rewrite app_nil_r. by destruct db.
  - unfold libsqlite.query_user.
    by rewrite (store_facts.all_false_find _ _ (store_facts.existsb_false_all _ _ Hrow)).
Qed.

Lemma users_round_trip_witness :
  let db := state_of (libsqlite.insert_user 7 (state_of (libsqlite.insert_user 100
                                                           sample.db_abcde))) in
  let db' := state_of (libsqlite.insert_user 42 db) in
  libsqlite.insert_user 42 db = (Return (), db')
  ∧ libsqlite.query_user 42 db' = (Return (Some true), db')
  ∧ libsqlite.query_all_user db = (Return [7; 100], db)
  ∧ libsqlite.query_all_user db' = (Return [7; 42; 100], db')
  ∧ libsqlite.delete_user 42 db' = (Return (), db).
Proof.
  intros db db'.
  assert (libsqlite.insert_user 42 db = (Return (), db')) as H by reflexivity.
  assert (libsqlite.query_all_user db = (Return [7; 100], db)) as Hids by reflexivity.
  pose proof (users_insert_delete_round_trip db db' 42 H) as (Ha & Hall & _ & Hb & _).
  split_and!; [exact H|exact Ha|exact Hids|exact (Hall _ Hids)|exact Hb].
Defined.

(** X9. The history lookup is SQLite's LIKE on the lower-cased argument
    followed by [%].  It finds every row whose code the argument starts, the
    case of ASCII letters aside; and when the argument has no [%] and no [_],
    it finds only those: the answer is the sender of the first such row.  (An
    argument with [_] or [%] in it can match rows it does not start.) *)
Theorem query_history_is_a_prefix_lookup (db : libsqlite.PasscodeTracker) (s : string) :
  (∀ r, r ∈ libsqlite.history db →
        ci_prefix (py.lower s) (libsqlite.history_str r) = true →
        ∃ send_by, libsqlite.query_history s db = (Return (Some send_by), db))
  ∧ (no_wildcard (py.lower s) = true →
     libsqlite.query_history s db =
     (Return (libsqlite.history_send_by <$>
              List.find (λ r, ci_prefix (py.lower s) (libsqlite.history_str r))
                        (libsqlite.history db)), db)).
Proof.
  split.
  - intros r Hr Hp. unfold libsqlite.query_history.
    destruct (List.find _ _) as [r'|] eqn:E; [by eexists|].
    exfalso. apply store_facts.find_none_all in E. rewrite Forall_forall in E.
    specialize (E r Hr). simpl in E. by rewrite store_facts.like_ci_prefix in E.
  - intros Hw. unfold libsqlite.query_history. do 3 f_equal.
    induction (libsqlite.history db) as [|r l IH]; [done|]. simpl.
    by rewrite store_facts.like_no_wildcard, IH.
Qed.

Lemma query_history_witness :
  let db := state_of (libsqlite.insert_history "code123" 7 sample.db_abcde) in
  no_wildcard (py.lower "COD") = true
  ∧ libsqlite.query_history "COD" db = (Return (Some 7), db)
  ∧ libsqlite.query_history "c_d" db = (Return (Some 7), db).
Proof.
  intros db.
  assert (no_wildcard (py.lower "COD") = true) as H by reflexivity.
  split_and!; [exact H| |reflexivity].
  exact (proj2 (query_history_is_a_prefix_lookup db "COD") H).
Defined.

(** X10. What [insert_history] records, [/h] finds: after a code is entered
    with its sender, a lookup by any text that starts the code (letter case
    aside) answers with that sender, provided no earlier row matches the
    lookup; the handler then replies with the sender's id. *)
Theorem history_entry_is_found_by_prefix (self : Tracker) (msg : Message)
    (c : string) (sender : Z) (arg0 p : string) :
  command msg = [arg0; p] →
  ci_prefix (py.lower p) (py.lower c) = true →
  libsqlite.query_history p (conn self) = (Return None, conn self) →
  let db' := state_of (libsqlite.insert_history c sender (conn self)) in
  libsqlite.query_history p db' = (Return (Some sender), db')
  ∧ calls_of (bot.query_history msg) (with_conn db' self) =
    [reply (chat_id msg) ("Find match => " +:+ py.str sender) None].
Proof.
  intros Hcmd Hp Hq db'.
  assert (libsqlite.query_history p db' = (Return (Some sender), db')) as E.
  { unfold libsqlite.query_history in *. subst db'. simpl.
    rewrite libsqlite_facts.find_snoc.
    destruct (List.find _ (libsqlite.history (conn self))) as [r|]; [done|].
    simpl. by rewrite store_facts.like_ci_prefix. }
  split; [exact E|].
  eapply bot_facts.calls_of_after_calls.
  rewrite (command_facts.query_history_run _ _ _ _ Hcmd). cbn [conn with_conn].
  by rewrite E.
Qed.

Lemma history_entry_witness :
  let self := sample.tracker sample.db_abcde in
  let msg := sample.command_message 1 ["h"; "cod"] in
  let db' := state_of (libsqlite.insert_history "code123" 9 (conn self)) in
  (command msg = ["h"; "cod"] ∧ ci_prefix (py.lower "cod") (py.lower "code123") = true
   ∧ libsqlite.query_history "cod" (conn self) = (Return None, conn self))
  ∧ calls_of (bot.query_history msg) (with_conn db' self) =
    [reply 1 "Find match => 9" None].
Proof.
  intros self msg db'.
  assert (command msg = ["h"; "cod"]) as H1 by reflexivity.
  assert (ci_prefix (py.lower "cod") (py.lower "code123") = true) as H2 by reflexivity.
  assert (libsqlite.query_history "cod" (conn self) = (Return None, conn self)) as H3
    by reflexivity.
  split_and!; [exact H1|exact H2|exact H3|].
  exact (proj2 (history_entry_is_found_by_prefix self msg "code123" 9 "h" "cod" H1 H2 H3)).
Defined.

(** X11. [_load_users] rebuilds the set of authorized users from scratch: it
    never raises, leaves the store, the owners and the guards alone, and
    afterwards a user is in the set exactly when the store has an authorized
    row for it or it is an owner, whatever the set held before. *)
Theorem load_users_rebuilds_the_cache (self : Tracker) (user_id : Z) :
  let after := state_of (_load_users self) in
  outcome_of (_load_users self) = Return ()
  ∧ conn after = conn self ∧ owners after = owners self ∧ app after = app self
  ∧ aioredis.keys (redis after) = aioredis.keys (redis self)
  ∧ aioredis.clock (redis after) = aioredis.clock (redis self)
  ∧ query_authorized_user user_id after =
    (Return (bool_decide
               (user_id ∈ libsqlite.users_id <$>
                  List.filter (λ r, libsqlite.users_authorized r =? 1)
                              (libsqlite.users (conn self))
                ∨ user_id ∈ owners self)), after).
Proof.
  intros after. subst after. rewrite account_facts._load_users_run.
  cbn [outcome_of state_of fst snd]. split_and!; try reflexivity.
  unfold query_authorized_user, aioredis.sismember, on_redis.
  cbn [redis with_redis aioredis.tracker_user]. f_equal.
  f_equal. apply bool_decide_ext.
  rewrite elem_of_union, !command_facts.str_in_set. tauto.
Qed.



(** X13. From a consistent state no handler that runs on its own, no other
    handler at work between its first line and its return, runs into a primary
    key: none raises [IntegrityError], because each insert comes after a query
    of the store or of the cache that found nothing. *)
Theorem no_handler_violates_a_primary_key (self : Tracker)
    (msg : Message) (q : CallbackQuery) :
  consistent self →
  outcome_of (handle_passcode msg self) ≠ Raise IntegrityError
  ∧ outcome_of (handle_callback_query q self) ≠ Raise IntegrityError
  ∧ outcome_of (handle_auth msg self) ≠ Raise IntegrityError
  ∧ outcome_of (bot.query_history msg self) ≠ Raise IntegrityError
  ∧ outcome_of (delete_user_manual msg self) ≠ Raise IntegrityError
  ∧ outcome_of (_load_users self) ≠ Raise IntegrityError.
Proof.
  intros Hok. split_and!.
  - by apply command_facts.handle_passcode_consistent.
  - by apply account_facts.handle_callback_query_consistent.
  - by apply account_facts.handle_auth_consistent.
  - by apply command_facts.query_history_consistent.
  - by apply command_facts.delete_user_manual_consistent.
  - by rewrite account_facts._load_users_run.
Qed.

Lemma no_primary_key_witness :
  let self := state_of (_load_users (sample.tracker sample.db_abcde)) in
  consistent self
  ∧ outcome_of (handle_auth (sample.command_message 9 ["auth"; "secret"]) self)
    ≠ Raise IntegrityError.
Proof.
  intros self.
  assert (consistent self) as H.
  { apply command_facts._load_users_consistent;
      [apply NoDup_singleton|apply NoDup_nil_2|apply Forall_nil_2]. }
  split; [exact H|].
  exact (proj1 (proj2 (proj2 (no_handler_violates_a_primary_key self
           (sample.command_message 9 ["auth"; "secret"]) {| data := "" |} H)))).
Defined.

(** X14. Without the consistency the guard of the cache is not enough: when
    the store has a row for a user who is not in the cache, the grant button
    for that user raises [IntegrityError] and nobody is notified. *)
Theorem grant_with_a_stale_row_raises (self : Tracker) (user_id : Z) :
  py.str user_id ∉ aioredis.tracker_user (redis self) →
  existsb (libsqlite.has_id user_id) (libsqlite.users (conn self)) = true →
  outcome_of (handle_callback_query {| data := "account grant " +:+ py.str user_id |} self)
  = Raise IntegrityError.
Proof. apply account_facts.handle_callback_query_grant_clash. Qed.

Lemma grant_with_a_stale_row_witness :
  let self := with_conn (state_of (libsqlite.insert_user 9 sample.empty_db))
                (sample.tracker sample.empty_db) in
  (("9" ∉ aioredis.tracker_user (redis self))
   ∧ existsb (libsqlite.has_id 9) (libsqlite.users (conn self)) = true)
  ∧ outcome_of (handle_callback_query {| data := "account grant 9" |} self)
    = Raise IntegrityError.
Proof.
  intros self.
  assert ("9" ∉ aioredis.tracker_user (redis self)) as H1.
  { intros H. vm_compute in H. discriminate. }
  assert (existsb (libsqlite.has_id 9) (libsqlite.users (conn self)) = true) as H2
    by reflexivity.
  split_and!; [exact H1|exact H2|].
  exact (grant_with_a_stale_row_raises self 9 H1 H2).
Defined.



(** X16. The revoke button, whatever the state: the user's row is gone from
    "users" and the user from the cache, the user is sent "Access revoked",
    and nobody else's membership changes.  It never raises; revoking a user
    who is not authorized notifies all the same. *)
Theorem revoke_removes_the_user (self : Tracker) (user_id other : Z) :
  let press := handle_callback_query {| data := "account revoke " +:+ py.str user_id |} in
  let after := state_of (press self) in
  outcome_of (press self) = Return ()
  ∧ calls_of press self =
    [edit_reply_markup None; send_message user_id "Access revoked" None None; answer None]
  ∧ query_authorized_user user_id after = (Return false, after)
  ∧ libsqlite.query_user user_id (conn after) = (Return None, conn after)
  ∧ (other ≠ user_id →
     outcome_of (query_authorized_user other after) =
     outcome_of (query_authorized_user other self))
  ∧ libsqlite.code (conn after) = libsqlite.code (conn self)
  ∧ owners after = owners self.
Proof.
  intros press after. subst after press. unfold calls_of.
  rewrite account_facts.handle_callback_query_revoke.
  cbn [outcome_of state_of fst snd with_app app calls conn owners revoked_state].
  split_and!; try reflexivity.
  - by rewrite <- !app_assoc, drop_app_length.
  - unfold query_authorized_user, aioredis.sismember, on_redis.
    cbn [redis with_app revoked_state aioredis.tracker_user].
    rewrite bool_decide_eq_false_2; [done|].
    rewrite elem_of_difference, elem_of_singleton. tauto.
  - apply store_facts.query_user_after_delete.
  - intros Hne. unfold query_authorized_user, aioredis.sismember, on_redis.
    cbn [redis with_app revoked_state aioredis.tracker_user outcome_of fst].
    f_equal. apply bool_decide_ext.
    rewrite elem_of_difference, elem_of_singleton. split; [tauto|].
    intros Hin. split; [done|]. intros Heq%py_facts.str_inj. done.
Qed.

Lemma revoke_removes_witness :
  let self := sample.tracker sample.empty_db in
  let after := state_of (handle_callback_query {| data := "account revoke 42" |} self) in
  41 ≠ 42
  ∧ query_authorized_user 42 self = (Return true, self)
  ∧ query_authorized_user 42 after = (Return false, after)
  ∧ outcome_of (query_authorized_user 41 after) = outcome_of (query_authorized_user 41 self).
Proof.
  intros self after.
  assert (41 ≠ 42) as H by discriminate.
  pose proof (revoke_removes_the_user self 42 41) as (_ & _ & Ha & _ & Hb & _).
  split_and!; [exact H|vm_compute; reflexivity|exact Ha|exact (Hb H)].
Defined.

(** X17. Granting and then revoking a user who was not authorized gives back
    the store and the cache as they were. *)
Theorem grant_then_revoke_restores (self : Tracker) (user_id : Z) :
  store_in_cache self →
  py.str user_id ∉ aioredis.tracker_user (redis self) →
  let s1 := state_of (handle_callback_query
                        {| data := "account grant " +:+ py.str user_id |} self) in
  let s2 := state_of (handle_callback_query
                        {| data := "account revoke " +:+ py.str user_id |} s1) in
  conn s2 = conn self ∧ redis s2 = redis self ∧ owners s2 = owners self.
Proof.
  intros Hsc Hout s1 s2.
  pose proof (account_facts.row_not_in_cache _ _ Hsc Hout) as Hrow.
  subst s2 s1. rewrite (account_facts.handle_callback_query_grant_new _ _ Hout Hrow).
  rewrite account_facts.handle_callback_query_revoke.
  cbn [state_of snd with_app conn redis owners revoked_state authorized_state app
       aioredis.clock aioredis.keys aioredis.tracker_user].
  split_and!; [| |done].
  - unfold libsqlite.delete_user. cbn [state_of snd libsqlite.users libsqlite.code
      libsqlite.history]. rewrite List.filter_app. simpl.
    rewrite store_facts.has_id_refl. simpl.
    rewrite store_facts.filter_not_id_fresh by done. rewrite app_nil_r.
    by destruct (conn self).
  - rewrite command_facts.revoke_then_same_cache by done. by destruct (redis self).
Qed.

Lemma grant_then_revoke_witness :
  let self := sample.tracker sample.db_abcde in
  let s1 := state_of (handle_callback_query {| data := "account grant 9" |} self) in
  let s2 := state_of (handle_callback_query {| data := "account revoke 9" |} s1) in
  (store_in_cache self ∧ ("9" ∉ aioredis.tracker_user (redis self)))
  ∧ conn s2 = conn self ∧ redis s2 = redis self.
Proof.
  intros self s1 s2.
  assert (store_in_cache self) as H1 by apply Forall_nil_2.
  assert ("9" ∉ aioredis.tracker_user (redis self)) as H2.
  { intros H. vm_compute in H. discriminate. }
  pose proof (grant_then_revoke_restores self 9 H1 H2) as (Ha & Hb & _).
  split_and!; [exact H1|exact H2|exact Ha|exact Hb].
Defined.

(** X18. The deny button never changes the store, the cache or the owners.
    For a user who has been authorized in the meantime it answers "Out of
    dated" and does not write to the user; otherwise it sends "Access denied"
    to the user. *)
Theorem deny_changes_no_state (self : Tracker) (user_id : Z) :
  let press := handle_callback_query {| data := "account deny " +:+ py.str user_id |} in
  let after := state_of (press self) in
  outcome_of (press self) = Return ()
  ∧ conn after = conn self ∧ redis after = redis self ∧ owners after = owners self
  ∧ calls_of press self =
    if bool_decide (py.str user_id ∈ aioredis.tracker_user (redis self))
    then [edit_reply_markup None; answer (Some "Out of dated")]
    else [edit_reply_markup None; send_message user_id "Access denied" None None;
          answer None].
Proof.
  intros press after. subst after press. unfold calls_of.
  rewrite account_facts.handle_callback_query_deny.
  destruct (bool_decide _); cbn [outcome_of state_of fst snd with_app app calls conn
                                  redis owners];
    (split_and!; try reflexivity); by rewrite <- !app_assoc, drop_app_length.
Qed.



(** X20. A request without a credential, from a user who is neither guarded
    nor authorized, sends exactly one prompt to each owner, in the order of
    the owner list (none when there is no owner), replies nothing to the
    user, and changes neither the store, nor who is authorized, nor the
    owners. *)
Theorem request_asks_each_owner_once (msg : Message) (self : Tracker) :
  aioredis.get (flood_key (chat_id msg)) (redis self) = (Return None, redis self) →
  py.str (chat_id msg) ∉ aioredis.tracker_user (redis self) →
  length (command msg) = 1%nat →
  let after := state_of (handle_auth msg self) in
  outcome_of (handle_auth msg self) = Return ()
  ∧ calls_of (handle_auth msg) self = request (chat_id msg) <$> owners self
  ∧ conn after = conn self
  ∧ aioredis.tracker_user (redis after) = aioredis.tracker_user (redis self)
  ∧ owners after = owners self.
Proof.
  intros Hg Hout Hlen after. subst after. unfold calls_of.
  rewrite (account_facts.handle_auth_request _ _ Hg Hout Hlen).
  cbn [outcome_of state_of fst snd with_app with_redis app calls conn redis owners armed
       aioredis.tracker_user].
  split_and!; try reflexivity. by rewrite drop_app_length.
Qed.

Lemma request_asks_witness :
  let self := sample.tracker sample.empty_db in
  let msg := sample.command_message 9 ["auth"] in
  (aioredis.get (flood_key (chat_id msg)) (redis self) = (Return None, redis self)
   ∧ (py.str (chat_id msg) ∉ aioredis.tracker_user (redis self))
   ∧ length (command msg) = 1%nat)
  ∧ calls_of (handle_auth msg) self = [request 9 1; request 9 2].
Proof.
  intros self msg.
  assert (aioredis.get (flood_key (chat_id msg)) (redis self) = (Return None, redis self))
    as H1 by reflexivity.
  assert (py.str (chat_id msg) ∉ aioredis.tracker_user (redis self)) as H2.
  { intros H. vm_compute in H. discriminate. }
  assert (length (command msg) = 1%nat) as H3 by reflexivity.
  split_and!; [exact H1|exact H2|exact H3|].
  exact (proj1 (proj2 (request_asks_each_owner_once msg self H1 H2 H3))).
Defined.



(** X22. Any other request from a user who is neither guarded nor authorized
    (a wrong secret, or more than one argument) is met with silence: no reply,
    no prompt, no change but the guard that is set. *)
Theorem other_requests_are_silent (msg : Message) (self : Tracker) :
  aioredis.get (flood_key (chat_id msg)) (redis self) = (Return None, redis self) →
  py.str (chat_id msg) ∉ aioredis.tracker_user (redis self) →
  length (command msg) ≠ 1%nat →
  ¬ (length (command msg) = 2%nat ∧ command msg !! 1%nat = Some (password self)) →
  handle_auth msg self =
  (Return (), with_redis (armed (chat_id msg) 1200 (redis self)) self)
  ∧ calls_of (handle_auth msg) self = [].
Proof.
  intros Hg Hout H1 H2.
  assert (handle_auth msg self =
          (Return (), with_redis (armed (chat_id msg) 1200 (redis self)) self)) as E.
  { apply account_facts.handle_auth_silent; try done.
    - by apply Nat.eqb_neq.
    - apply andb_false_iff.
      destruct (Nat.eqb_spec (length (command msg)) 2) as [Hl|Hl]; [|by left].
      right. apply bool_decide_eq_false_2. intros Hp. apply H2. by split. }
  split; [exact E|]. unfold calls_of. rewrite E. simpl. by rewrite drop_all.
Qed.

Lemma other_requests_witness :
  let self := sample.tracker sample.empty_db in
  let msg := sample.command_message 9 ["auth"; "guess"] in
  (aioredis.get (flood_key (chat_id msg)) (redis self) = (Return None, redis self)
   ∧ (py.str (chat_id msg) ∉ aioredis.tracker_user (redis self))
   ∧ length (command msg) ≠ 1%nat
   ∧ ¬ (length (command msg) = 2%nat ∧ command msg !! 1%nat = Some (password self)))
  ∧ calls_of (handle_auth msg) self = [].
Proof.
  intros self msg.
  assert (aioredis.get (flood_key (chat_id msg)) (redis self) = (Return None, redis self))
    as H1 by reflexivity.
  assert (py.str (chat_id msg) ∉ aioredis.tracker_user (redis self)) as H2.
  { intros H. vm_compute in H. discriminate. }
  assert (length (command msg) ≠ 1%nat) as H3 by discriminate.
  assert (¬ (length (command msg) = 2%nat
             ∧ command msg !! 1%nat = Some (password self))) as H4.
  { intros [_ H]. discriminate. }
  split_and!; [exact H1|exact H2|exact H3|exact H4|].
  exact (proj2 (other_requests_are_silent msg self H1 H2 H3 H4)).
Defined.

(** X23. The guard set by a request lasts 1200 seconds of the cache's clock:
    a further request of the same user less than 1200 seconds later is dropped
    without a call or a change; from 1200 seconds on the key has expired, the
    flood check lets the request through and sets the guard anew. *)
Theorem guard_lasts_1200_seconds (msg msg' : Message) (self : Tracker) (seconds : Z) :
  aioredis.get (flood_key (chat_id msg)) (redis self) = (Return None, redis self) →
  chat_id msg' = chat_id msg →
  let s1 := state_of (handle_auth msg self) in
  let s2 := with_redis (later seconds (redis s1)) s1 in
  (seconds < 1200 → handle_auth msg' s2 = (Return (), s2))
  ∧ (1200 ≤ seconds →
     flood_check (chat_id msg') 1200 s2 =
     (Return false, with_redis (armed (chat_id msg') 1200 (redis s2)) s2)).
Proof.
  intros Hg Hid s1 s2.
  destruct (handler_facts.handle_auth_arms _ _ Hg) as [Hk Hc]. fold s1 in Hk, Hc.
  assert (aioredis.get (flood_key (chat_id msg')) (redis s2) =
          (Return (if seconds <? 1200 then Some "1" else None), redis s2)) as E.
  { rewrite Hid. unfold aioredis.get. f_equal. f_equal.
    replace (aioredis.keys (redis s2)) with (aioredis.keys (redis s1))
      by (by destruct s1).
    replace (aioredis.clock (redis s2)) with (aioredis.clock (redis s1) + seconds)
      by (by destruct s1).
    rewrite Hk, Hc. cbn [armed aioredis.keys]. rewrite lookup_insert_eq.
    destruct (Z.ltb_spec seconds 1200),
             (Z.ltb_spec (aioredis.clock (redis self) + seconds)
                         (aioredis.clock (redis self) + 1200)); (done || lia). }
  split; intros Hs.
  - apply (handler_facts.handle_auth_flooded msg' s2 "1").
    rewrite E. by rewrite (proj2 (Z.ltb_lt _ _) Hs).
  - apply handler_facts.flood_check_arms.
    rewrite E. by rewrite (proj2 (Z.ltb_ge _ _) Hs).
Qed.

Lemma guard_lasts_witness :
  let self := sample.tracker sample.empty_db in
  let msg := sample.command_message 9 ["auth"] in
  let s1 := state_of (handle_auth msg self) in
  (aioredis.get (flood_key (chat_id msg)) (redis self) = (Return None, redis self)
   ∧ chat_id msg = chat_id msg)
  ∧ (1199 < 1200 →
     handle_auth msg (with_redis (later 1199 (redis s1)) s1)
     = (Return (), with_redis (later 1199 (redis s1)) s1)).
Proof.
  intros self msg s1.
  assert (aioredis.get (flood_key (chat_id msg)) (redis self) = (Return None, redis self))
    as H1 by reflexivity.
  split_and!; [exact H1|reflexivity|].
  exact (proj1 (guard_lasts_1200_seconds msg msg self 1199 H1 eq_refl)).
Defined.

(** X24. The guard is per user: whatever a request of one user does, the
    guard of every other user reads afterwards as it read before. *)
Theorem guards_are_per_user (msg : Message) (self : Tracker) (other : Z) :
  other ≠ chat_id msg →
  outcome_of (aioredis.get (flood_key other) (redis (state_of (handle_auth msg self)))) =
  outcome_of (aioredis.get (flood_key other) (redis self)).
Proof.
  intros Hne.
  destruct (account_facts.get_returns (flood_key (chat_id msg)) (redis self)) as [[v|] Hg].
  - by rewrite (handler_facts.handle_auth_flooded _ _ _ Hg).
  - destruct (handler_facts.handle_auth_arms _ _ Hg) as [Hk Hc].
    rewrite <- (account_facts.get_other_armed (chat_id msg) other 1200 (redis self) Hne).
    unfold aioredis.get. cbn [outcome_of fst]. rewrite Hk, Hc. reflexivity.
Qed.

Lemma guards_per_user_witness :
  let self := sample.tracker sample.empty_db in
  let msg := sample.command_message 9 ["auth"] in
  8 ≠ chat_id msg
  ∧ outcome_of (aioredis.get (flood_key 8) (redis (state_of (handle_auth msg self)))) =
    outcome_of (aioredis.get (flood_key 8) (redis self)).
Proof.
  intros self msg.
  assert (8 ≠ chat_id msg) as H1 by discriminate.
  split; [exact H1|]. exact (guards_are_per_user msg self 8 H1).
Defined.

(** X25. [delete_user_manual] does its work only when the command has two
    arguments or more, and then on the first one: an authorized user is sent
    "Access revoked", loses the row and the place in the cache, and the sender
    is told "Success"; for any other user the sender is told "User not in
    authorized list" and nothing changes.  With no argument at all the index
    fails, and a first argument that is no numeral makes [int] fail; in both
    cases nothing was changed before. *)
Theorem delete_user_manual_with_more_arguments (msg : Message) (self : Tracker)
    (arg0 arg1 arg2 : string) (rest : list string) (user_id : Z) :
  (command msg = [arg0] → delete_user_manual msg self = (Raise IndexError, self))
  ∧ (command msg = arg0 :: arg1 :: arg2 :: rest → py.int arg1 = None →
     delete_user_manual msg self = (Raise ValueError, self))
  ∧ (command msg = arg0 :: arg1 :: arg2 :: rest → py.int arg1 = Some user_id →
     let after := state_of (delete_user_manual msg self) in
     outcome_of (delete_user_manual msg self) = Return ()
     ∧ (py.str user_id ∈ aioredis.tracker_user (redis self) →
        calls_of (delete_user_manual msg) self =
          [send_message user_id "Access revoked" None None;
           reply (chat_id msg) "Success" None]
        ∧ query_authorized_user user_id after = (Return false, after)
        ∧ libsqlite.query_user user_id (conn after) = (Return None, conn after))
     ∧ (py.str user_id ∉ aioredis.tracker_user (redis self) →
        calls_of (delete_user_manual msg) self =
          [reply (chat_id msg) "User not in authorized list" None]
        ∧ conn after = conn self ∧ redis after = redis self)).
Proof.
  split_and!.
  - intros Hcmd. unfold delete_user_manual. by rewrite Hcmd.
  - intros Hcmd Hint. unfold delete_user_manual. rewrite Hcmd.
    cbn [length Nat.eqb negb lookup list_lookup]. by rewrite Hint.
  - intros Hcmd Hint after. subst after. unfold calls_of.
    rewrite (command_facts.delete_user_manual_run _ _ _ _ _ _ _ Hcmd Hint).
    split_and!; [done| |].
    + intros Hin. rewrite bool_decide_eq_true_2 by done.
      cbn [state_of snd with_app app calls conn redis revoked_state].
      split_and!.
      * rewrite <- app_assoc. by rewrite drop_app_length.
      * unfold query_authorized_user, aioredis.sismember, on_redis.
        cbn [redis with_app revoked_state aioredis.tracker_user].
        rewrite bool_decide_eq_false_2; [done|]. intros H%elem_of_difference.
        destruct H as [_ H]. apply H. by apply elem_of_singleton.
      * apply store_facts.query_user_after_delete.
    + intros Hout. rewrite bool_decide_eq_false_2 by done.
      cbn [state_of snd after_calls with_app app calls conn redis].
      split_and!; try reflexivity. by rewrite drop_app_length.
Qed.

Lemma delete_user_manual_witness :
  let self := sample.tracker sample.empty_db in
  let msg := sample.command_message 1 ["del"; "42"; "now"] in
  (command msg = ["del"; "42"; "now"] ∧ py.int "42" = Some 42
   ∧ py.str 42 ∈ aioredis.tracker_user (redis self))
  ∧ calls_of (delete_user_manual msg) self =
    [send_message 42 "Access revoked" None None; reply 1 "Success" None].
Proof.
  intros self msg.
  assert (command msg = ["del"; "42"; "now"]) as H1 by reflexivity.
  assert (py.int "42" = Some 42) as H2 by reflexivity.
  assert (py.str 42 ∈ aioredis.tracker_user (redis self)) as H3
    by (vm_compute; reflexivity).
  split_and!; [exact H1|exact H2|exact H3|].
  destruct (delete_user_manual_with_more_arguments msg self "del" "42" "now" [] 42)
    as (_ & _ & H).
  exact (proj1 (proj1 (proj2 (H H1 H2)) H3)).
Defined.

(** X26. Owners hold their access in the cache only by [_load_users]: a
    revoke callback for an owner takes the owner out of the cache, so that
    [pre_check] stops the owner's messages while [pre_check_owner] still lets
    them through; the next [_load_users] puts the owner back. *)
Theorem revoked_owner_is_back_after_reload (msg : Message) (self : Tracker) :
  chat_id msg ∈ owners self →
  let s1 := state_of (handle_callback_query
                        {| data := "account revoke " +:+ py.str (chat_id msg) |} self) in
  let s2 := state_of (_load_users s1) in
  pre_check msg s1 = (Return false, s1)
  ∧ pre_check_owner msg s1 = (Return true, s1)
  ∧ pre_check msg s2 = (Return true, s2).
Proof.
  intros Hin s1 s2. subst s2 s1.
  rewrite account_facts.handle_callback_query_revoke.
  cbn [state_of snd]. rewrite account_facts._load_users_run. cbn [state_of snd].
  unfold pre_check, pre_check_owner, query_authorized_user, aioredis.sismember, on_redis.
  unfold mbind, M_bind, bind, get, ret.
  cbn [with_app with_redis revoked_state redis owners aioredis.tracker_user].
  split_and!.
  - rewrite bool_decide_eq_false_2; [done|]. intros H%elem_of_difference.
    destruct H as [_ H]. apply H. by apply elem_of_singleton.
  - by rewrite bool_decide_eq_true_2.
  - rewrite bool_decide_eq_true_2; [done|]. apply elem_of_union. left.
    by apply command_facts.str_in_set.
Qed.

Lemma revoked_owner_witness :
  let self := sample.tracker sample.empty_db in
  let msg := sample.message 1 "hello" in
  let s1 := state_of (handle_callback_query {| data := "account revoke 1" |} self) in
  chat_id msg ∈ owners self
  ∧ pre_check msg s1 = (Return false, s1).
Proof.
  intros self msg s1.
  assert (chat_id msg ∈ owners self) as H1 by (apply elem_of_cons; by left).
  split; [exact H1|]. exact (proj1 (revoked_owner_is_back_after_reload msg self H1)).
Defined.

(** X27. [handle_passcode] on a single-line text, cut at its awaits and
    resumed six times with nothing in between, is the handler run on its own:
    same outcome, same state; and so it is as a task of the loop, whatever the
    other tasks are, when the schedule gives it six turns in a row. *)
Theorem task_alone_is_the_handler (msg : Message) (self : Tracker)
    (tasks : list (Task Tracker)) (i : nat) :
  single_line msg →
  tasks !! i = Some (handle_passcode_task msg) →
  resume_n 6 (handle_passcode_task msg) self =
    (Done (outcome_of (handle_passcode msg self)), state_of (handle_passcode msg self))
  ∧ run_schedule (replicate 6 i) tasks self =
    (<[i := Done (outcome_of (handle_passcode msg self))]> tasks,
     state_of (handle_passcode msg self)).
Proof.
  intros Hnl Hi.
  pose proof (task_facts.handle_passcode_task_alone msg self Hnl) as E.
  split; [exact E|].
  rewrite (task_facts.run_schedule_replicate 6 i tasks _ self Hi). by rewrite E.
Qed.

Lemma task_alone_witness :
  let self := sample.tracker sample.empty_db in
  let first := sample.message 7 "ABCDE" in
  let second := sample.message 8 "abcde" in
  let tasks := [handle_passcode_task first; handle_passcode_task second] in
  (single_line second ∧ tasks !! 1%nat = Some (handle_passcode_task second))
  ∧ run_schedule (replicate 6 1%nat) tasks self =
    ([handle_passcode_task first; Done (Return ())],
     state_of (handle_passcode second self)).
Proof.
  intros self first second tasks.
  assert (single_line second) as H1 by reflexivity.
  assert (tasks !! 1%nat = Some (handle_passcode_task second)) as H2 by reflexivity.
  split_and!; [exact H1|exact H2|].
  exact (proj2 (task_alone_is_the_handler second self tasks 1 H1 H2)).
Defined.



(** X29. Whatever the order in which the loop resumes the handlers of any
    number of single-line texts, the primary key of the table "code" holds at
    the end if it held at the start, the table "users", the cache and the
    owners are untouched, and a handler that has ended has returned or has
    run into the primary key: it raises nothing but [IntegrityError]. *)
Theorem any_schedule_keeps_the_key (self : Tracker) (msgs : list Message)
    (schedule : list nat) :
  Forall single_line msgs →
  unique_codes (conn self) →
  let loop := run_schedule schedule (handle_passcode_task <$> msgs) self in
  unique_codes (conn loop.2)
  ∧ same_accounts self loop.2
  ∧ Forall (λ t, ∀ r, ended t = Some r → r = Return () ∨ r = Raise IntegrityError) loop.1.
Proof.
  intros _ Hu loop.
  destruct (task_facts.keeps_run_schedule
              (λ s, unique_codes (conn s) ∧ same_accounts self s)
              (λ r, r = Return () ∨ r = Raise IntegrityError)
              schedule (handle_passcode_task <$> msgs) self) as [[Hu' Hs'] Hk].
  - apply Forall_fmap, Forall_forall. intros msg _.
    apply task_facts.handle_passcode_task_keeps.
  - split; [exact Hu|apply pipeline_facts.same_accounts_refl].
  - split_and!; [exact Hu'|exact Hs'|].
    eapply Forall_impl; [exact Hk|]. intros t Ht r Hr.
    exact (task_facts.keeps_ended _ _ t r Ht Hr).
Qed.

Lemma any_schedule_witness :
  let self := sample.tracker sample.db_abcde in
  let msgs := [sample.message 7 "FGHIJ"; sample.message 8 "fghij";
               sample.message 9 "abcde"] in
  let loop := run_schedule [1; 0; 2; 1; 0; 1; 1; 0; 2; 1; 0; 0; 1]%nat
                (handle_passcode_task <$> msgs) self in
  (Forall single_line msgs ∧ unique_codes (conn self))
  ∧ unique_codes (conn loop.2)
  ∧ libsqlite.code_str <$> libsqlite.code (conn loop.2) = ["abcde"; "fghij"]
  ∧ ended <$> loop.1 = [Some (Raise IntegrityError); Some (Return ()); Some (Return ())].
Proof.
  intros self msgs loop.
  assert (Forall single_line msgs) as H1 by (repeat constructor).
  assert (unique_codes (conn self)) as H2 by apply NoDup_singleton.
  split_and!; [exact H1|exact H2| |reflexivity|reflexivity].
  exact (proj1 (any_schedule_keeps_the_key self msgs _ H1 H2)).
Defined.

End properties.
